(** * NextStore shop backend: order workflow, accounts and favorites

    A shallow embedding of [backend/shop/models.py], [serializers.py],
    [views.py] and [admin.py], with the relational store made explicit.

    Conventions.
    - A table whose rows are fetched by primary key is a [gmap] from the key
      to the row's other columns, and a model instance is the pair of key and
      row; a table that is scanned ([filter], [all]) is a list of rows in
      insertion order.
    - [Product.objects.get] builds a new Python object on every call: the ORM
      has no identity map.  A fetched instance is therefore a value,
      [product.stock -= q] updates that value only, and [product.save()]
      writes every column of that value back under its primary key.
    - [DecimalField(decimal_places=2)] amounts are integers counting
      hundredths; [Decimal] addition and multiplication by an [int] are exact
      on them (no binary floating point is involved anywhere).
    - [PositiveIntegerField] columns are [Z]: Python computes on unbounded
      integers and nothing in the application code clamps them.  The column
      itself is a 32-bit [integer]; the database refuses a larger value when
      a row is written, which matters where a stock grows (the restock loops).
    - Texts are UTF-8 encoded byte strings; the length a [varchar(n)] column
      checks is the number of characters. *)

From Stdlib Require Import ZArith Lia Ascii.
From stdpp Require Import gmap strings list fin_maps.

Local Open Scope string_scope.
Local Open Scope Z_scope.

(** ** Data model ([models.py]) *)

(** [models.UUIDField]: a 128-bit value; only equality is used. *)
Definition UUID := N.

Module Product.
Record t := mk {
  name : string;
  price : Z;          (* hundredths *)
  stock : Z;
  is_active : bool
}.

(** A fetched object: primary key [id] and columns. *)
Definition instance : Type := UUID * t.

Definition with_stock (s : Z) (p : t) : t :=
  mk (name p) (price p) s (is_active p).

(** [Product.in_stock] *)
Definition in_stock (p : t) : bool := 0 <? stock p.
End Product.

Inductive OrderStatus :=
| PENDING | CONFIRMED | PROCESSING | SHIPPED | DELIVERED | CANCELLED.

#[global] Instance OrderStatus_eq_dec : EqDecision OrderStatus.
Proof. solve_decision. Defined.

Module Order.
Record t := mk {
  order_number : string;
  user : option Z;
  first_name : string;
  last_name : string;
  phone : string;
  email : string;
  address : string;
  status : OrderStatus;
  total_amount : Z;   (* hundredths *)
  note : string
}.

Definition instance : Type := Z * t.

Definition with_status (s : OrderStatus) (o : t) : t :=
  mk (order_number o) (user o) (first_name o) (last_name o)
     (phone o) (email o) (address o) s (total_amount o) (note o).

Definition with_order_number (n : string) (o : t) : t :=
  mk n (user o) (first_name o) (last_name o)
     (phone o) (email o) (address o) (status o) (total_amount o) (note o).
End Order.

Module OrderItem.
Record t := mk {
  id : Z;
  order : Z;                  (* ForeignKey(Order, CASCADE) *)
  product : option UUID;      (* ForeignKey(Product, SET_NULL, null=True) *)
  product_name : string;
  price : Z;                  (* hundredths *)
  quantity : Z
}.

(** [OrderItem.get_cost] *)
Definition get_cost (i : t) : Z := price i * quantity i.
End OrderItem.

Module Favorite.
Record t := mk { id : Z; user : Z; product : UUID }.
End Favorite.

Module User.
Record t := mk {
  username : string;
  email : string;
  first_name : string;
  last_name : string;
  is_active : bool
}.
End User.

Module Profile.
Record t := mk { id : Z; user : Z; phone : string }.

Definition with_phone (ph : string) (p : t) : t := mk (id p) (user p) ph.
End Profile.

(** The store.  The [next_*] fields are the primary-key sequences. *)
Record DB := mkDB {
  products : gmap UUID Product.t;
  orders : gmap Z Order.t;
  order_items : list OrderItem.t;
  favorites : list Favorite.t;
  users : gmap Z User.t;
  profiles : list Profile.t;
  next_order_id : Z;
  next_item_id : Z;
  next_favorite_id : Z;
  next_user_id : Z;
  next_profile_id : Z
}.

Definition set_products (f : gmap UUID Product.t -> gmap UUID Product.t) (db : DB) : DB :=
  mkDB (f (products db)) (orders db) (order_items db) (favorites db) (users db)
       (profiles db) (next_order_id db) (next_item_id db) (next_favorite_id db)
       (next_user_id db) (next_profile_id db).

Definition set_order_items (f : list OrderItem.t -> list OrderItem.t) (db : DB) : DB :=
  mkDB (products db) (orders db) (f (order_items db)) (favorites db) (users db)
       (profiles db) (next_order_id db) (next_item_id db) (next_favorite_id db)
       (next_user_id db) (next_profile_id db).

Definition set_next_order_id (n : Z) (db : DB) : DB :=
  mkDB (products db) (orders db) (order_items db) (favorites db) (users db)
       (profiles db) n (next_item_id db) (next_favorite_id db)
       (next_user_id db) (next_profile_id db).

Definition set_next_item_id (n : Z) (db : DB) : DB :=
  mkDB (products db) (orders db) (order_items db) (favorites db) (users db)
       (profiles db) (next_order_id db) n (next_favorite_id db)
       (next_user_id db) (next_profile_id db).

Definition set_favorites (f : list Favorite.t -> list Favorite.t) (n : Z) (db : DB) : DB :=
  mkDB (products db) (orders db) (order_items db) (f (favorites db)) (users db)
       (profiles db) (next_order_id db) (next_item_id db) n
       (next_user_id db) (next_profile_id db).

Definition set_users (f : gmap Z User.t -> gmap Z User.t) (n : Z) (db : DB) : DB :=
  mkDB (products db) (orders db) (order_items db) (favorites db) (f (users db))
       (profiles db) (next_order_id db) (next_item_id db) (next_favorite_id db)
       n (next_profile_id db).

Definition set_profiles (f : list Profile.t -> list Profile.t) (n : Z) (db : DB) : DB :=
  mkDB (products db) (orders db) (order_items db) (favorites db) (users db)
       (f (profiles db)) (next_order_id db) (next_item_id db) (next_favorite_id db)
       (next_user_id db) n.

Definition set_orders (f : gmap Z Order.t -> gmap Z Order.t) (db : DB) : DB :=
  mkDB (products db) (f (orders db)) (order_items db) (favorites db) (users db)
       (profiles db) (next_order_id db) (next_item_id db) (next_favorite_id db)
       (next_user_id db) (next_profile_id db).

(** ** Validation of the cart ([serializers.py]) *)

(** One validated element of [items]: the dictionary
    [{'product_id': ..., 'quantity': ...}]. *)
Record OrderItemData := mkItem { product_id : UUID; quantity : Z }.

(** [Product.objects.get(id=pid, is_active=True)]; [None] is
    [Product.DoesNotExist]. *)
Definition get_active_product (db : DB) (pid : UUID) : option Product.t :=
  match products db !! pid with
  | Some p => if Product.is_active p then Some p else None
  | None => None
  end.

Definition msg_cart_empty : string := "Корзина пуста".
Definition msg_not_found : string := "Товар не найден".
Definition msg_insufficient (product_name : string) : string :=
  "Недостаточно товара '" +:+ product_name +:+ "' на складе".

(** Body of the [for item in value] loop of [validate_items]. *)
Definition validate_items_step (db : DB) (errors : list string) (item : OrderItemData)
  : list string :=
  match get_active_product db (product_id item) with
  | Some product =>
      if Product.stock product <? quantity item
      then errors ++ [msg_insufficient (Product.name product)]
      else errors
  | None => errors ++ [msg_not_found]
  end.

(** [OrderCreateSerializer.validate_items]: [inl] is the raised
    [ValidationError] with its list of messages, [inr] the returned value. *)
Definition validate_items (db : DB) (value : list OrderItemData)
  : list string + list OrderItemData :=
  match value with
  | [] => inl [msg_cart_empty]
  | _ =>
      match fold_left (validate_items_step db) value [] with
      | [] => inr value
      | errors => inl errors
      end
  end.

(** [OrderItemCreateSerializer.validate_product_id] *)
Definition validate_product_id (db : DB) (value : UUID) : string + UUID :=
  match get_active_product db value with
  | Some _ => inr value
  | None => inl msg_not_found
  end.

(** A message under a field of an element of [items]: a text raised by the
    application code, or the framework's own message for a value under
    [min_value].  The text of the latter is the framework's translation into
    the active language ([LANGUAGE_CODE = 'ru-ru']); it is not part of this
    code base and is kept symbolic. *)
Inductive FieldMessage :=
| Raised (text : string)
| BelowMinValue (min_value : Z).

(** [quantity = serializers.IntegerField(min_value=1, default=1)] *)
Definition validate_quantity (value : Z) : FieldMessage + Z :=
  if value <? 1 then inl (BelowMinValue 1) else inr value.

(** Errors of one element of [items], as the framework builds them: a
    dictionary from field name to messages, fields in declaration order; the
    empty dictionary stands for an element without errors. *)
Definition item_errors (db : DB) (item : OrderItemData)
  : list (string * list FieldMessage) :=
  match validate_product_id db (product_id item) with
  | inl m => [("product_id", [Raised m])]
  | inr _ => []
  end ++
  match validate_quantity (quantity item) with
  | inl m => [("quantity", [m])]
  | inr _ => []
  end.

(** What [serializer.errors] holds under the key ['items']: either one
    dictionary per element ([OrderItemCreateSerializer(many=True)] collects
    them by position), or the messages raised by [validate_items].  The
    framework calls [validate_items] only on a list whose elements all
    passed. *)
Inductive ItemsErrors :=
| PerItem (dicts : list (list (string * list FieldMessage)))
| Messages (msgs : list string).

Definition any_nonempty {A} (l : list (list A)) : bool :=
  existsb (fun d => match d with [] => false | _ => true end) l.

Definition run_items_validation (db : DB) (items : list OrderItemData)
  : ItemsErrors + list OrderItemData :=
  let errors := map (item_errors db) items in
  if any_nonempty errors then inl (PerItem errors)
  else match validate_items db items with
       | inl msgs => inl (Messages msgs)
       | inr value => inr value
       end.

(** The request body of [createOrder] once parsed into typed fields.  The
    recipient fields are plain text whose own checks (presence, length) are
    independent of the store and are taken as passed. *)
Record OrderData := mkOrderData {
  d_first_name : string;
  d_last_name : string;
  d_phone : string;
  d_email : string;
  d_address : string;
  d_note : string;
  d_items : list OrderItemData
}.

(** [serializer.is_valid()] for [OrderCreateSerializer]. *)
Definition is_valid (db : DB) (data : OrderData) : ItemsErrors + OrderData :=
  match run_items_validation db (d_items data) with
  | inl e => inl e
  | inr _ => inr data
  end.

(** ** Order numbers ([Order.save]) *)

(** The state of Python's [random] module: an arbitrary source of integers
    and the number of draws made so far. *)
Record Random := mkRandom { source : nat -> Z; drawn : nat }.

(** [random.randint(lo, hi)]: some integer of [lo..hi], the generator
    advances. *)
Definition randint (lo hi : Z) (r : Random) : Z * Random :=
  (lo + source r (drawn r) mod (hi - lo + 1), mkRandom (source r) (S (drawn r))).

(** The calendar date of [timezone.now()]. *)
Record DateTime := mkDate { year : Z; month : Z; day : Z }.

(** The decimal digit of units of [n], as a character. *)
Definition digit (n : Z) : ascii := ascii_of_N (48 + Z.to_N (n mod 10)).

(** [str(d)] for [d] in [0..9]. *)
Definition str_digit (d : Z) : string := String (digit d) "".

(** [strftime('%Y%m%d')]: four digits of year, two of month, two of day,
    zero padded. *)
Definition strftime_Ymd (t : DateTime) : string :=
  String (digit (year t / 1000)) (String (digit (year t / 100))
  (String (digit (year t / 10)) (String (digit (year t))
  (String (digit (month t / 10)) (String (digit (month t))
  (String (digit (day t / 10)) (String (digit (day t)) ""))))))).

(** [''.join([str(random.randint(0, 9)) for _ in range(n)])] *)
Fixpoint random_digits (n : nat) (r : Random) : string * Random :=
  match n with
  | O => ("", r)
  | S k =>
      let '(d, r1) := randint 0 9 r in
      let '(s, r2) := random_digits k r1 in
      (str_digit d +:+ s, r2)
  end.

(** The assignment [self.order_number = f"NS-{date_str}-{random_str}"]. *)
Definition generate_order_number (now : DateTime) (r : Random) : string * Random :=
  let date_str := strftime_Ymd now in
  let '(random_str, r') := random_digits 4 r in
  ("NS-" +:+ date_str +:+ "-" +:+ random_str, r').

Inductive Exn :=
| IntegrityError            (* a unique constraint refused the row *)
| DoesNotExist              (* [get] or a related-object fetch found no row *)
| MultipleObjectsReturned   (* [get] found several rows *)
| DataError.                (* a value does not fit the type of its column *)

(** Is the number held by a row other than [self]?  The column is
    [unique=True]. *)
Definition order_number_taken (db : DB) (self : option Z) (number : string) : bool :=
  bool_decide (map_Exists (λ k o, Some k ≠ self ∧ Order.order_number o = number)
                          (orders db)).

(** [Order.save]: generate the number when it is empty, then [super().save()]
    writes the row: an insertion when the instance has no primary key yet
    ([pk = None]), an update of its row otherwise.  On insertion the primary
    key comes from the sequence, which advances whether or not the row is
    accepted.  The one refusal modelled is that of the unique order number;
    the bound of the [numeric(10,2)] column of [total_amount] (99999999.99)
    is not: what is proved about created orders is stated for requests that
    were answered with the created order. *)
Definition Order_save (now : DateTime) (pk : option Z) (o : Order.t) (db : DB) (r : Random)
  : (Exn + Order.instance) * DB * Random :=
  let '(number, r') :=
    if bool_decide (Order.order_number o = "") then generate_order_number now r
    else (Order.order_number o, r) in
  let row := Order.with_order_number number o in
  match pk with
  | None =>
      let k := next_order_id db in
      let db1 := set_next_order_id (k + 1) db in
      if order_number_taken db None number then (inl IntegrityError, db1, r')
      else (inr (k, row), set_orders (insert k row) db1, r')
  | Some k =>
      if order_number_taken db (Some k) number then (inl IntegrityError, db, r')
      else (inr (k, row), set_orders (insert k row) db, r')
  end.

(** ** Order creation ([OrderCreateSerializer.create]) *)

(** The first loop: fetch every product, add up the total, remember the
    fetched object with the quantity.  [Product.objects.get(id=...)] has no
    [is_active] filter here. *)
Fixpoint collect_products (db : DB) (items_data : list OrderItemData)
    (total_amount : Z) (products_data : list (Product.instance * Z))
  : Exn + (Z * list (Product.instance * Z)) :=
  match items_data with
  | [] => inr (total_amount, products_data)
  | item_data :: rest =>
      match products db !! product_id item_data with
      | None => inl DoesNotExist
      | Some product =>
          let quantity := quantity item_data in
          collect_products db rest
            (total_amount + Product.price product * quantity)
            (products_data ++ [((product_id item_data, product), quantity)])
      end
  end.

(** [product.save()]: every column of the object is written under its key.
    The database accepts the row when the stock fits its column; the test is
    made by the caller whose stock can grow, see [restock]. *)
Definition Product_save (product : Product.instance) (db : DB) : DB :=
  set_products (insert product.1 product.2) db.

(** [OrderItem.objects.create(...)] *)
Definition OrderItem_create (order : Z) (product : option UUID) (product_name : string)
    (price quantity : Z) (db : DB) : DB :=
  let item := OrderItem.mk (next_item_id db) order product product_name price quantity in
  set_next_item_id (next_item_id db + 1) (set_order_items (λ l, (l ++ [item])%list) db).

(** Body of the second loop: create the line, then
    [product.stock -= quantity; product.save()] on the object fetched by the
    first loop. *)
Definition create_line (order : Order.instance) (db : DB) (data : Product.instance * Z) : DB :=
  let '((pid, product), quantity) := data in
  let db1 := OrderItem_create order.1 (Some pid) (Product.name product)
               (Product.price product) quantity db in
  Product_save (pid, Product.with_stock (Product.stock product - quantity) product) db1.

(** [OrderCreateSerializer.create]; [user] is [request.user] when
    authenticated, [None] for a guest. *)
Definition create (now : DateTime) (user : option Z) (validated_data : OrderData)
    (db : DB) (r : Random) : (Exn + Order.instance) * DB * Random :=
  match collect_products db (d_items validated_data) 0 [] with
  | inl e => (inl e, db, r)
  | inr (total_amount, products_data) =>
      let new_order :=
        Order.mk "" user (d_first_name validated_data) (d_last_name validated_data)
          (d_phone validated_data) (d_email validated_data)
          (d_address validated_data) PENDING total_amount (d_note validated_data) in
      match Order_save now None new_order db r with
      | (inl e, db1, r1) => (inl e, db1, r1)
      | (inr order, db1, r1) =>
          (inr order, fold_left (create_line order) products_data db1, r1)
      end
  end.

(** ** Responses of the views ([views.py]) *)

Inductive Response :=
| OrderCreated (order : Order.instance)    (* 201, "Заказ успешно создан" *)
| ValidationFailed (details : ItemsErrors) (* 400, "Ошибка валидации" *)
| OrderNotFound                            (* 404, "Заказ не найден" *)
| OrderNotCancellable                      (* 400, "Этот заказ нельзя отменить" *)
| OrderCancelled                           (* 200, "Заказ отменен" *)
| ProductIdInvalid                         (* 400, "Ошибка валидации" *)
| FavoriteAdded                            (* 201, "added" *)
| FavoriteExists                           (* 200, "exists" *)
| Unhandled (e : Exn).                     (* 500, uncaught exception *)

Definition status_code (resp : Response) : Z :=
  match resp with
  | OrderCreated _ | FavoriteAdded => 201
  | ValidationFailed _ | OrderNotCancellable | ProductIdInvalid => 400
  | OrderNotFound => 404
  | OrderCancelled | FavoriteExists => 200
  | Unhandled _ => 500
  end.

(** [OrderCreateView.post].  The confirmation e-mail sent afterwards (inside
    a [try] that swallows every failure) touches neither the store nor the
    response and is left out. *)
Definition OrderCreateView_post (now : DateTime) (user : option Z) (data : OrderData)
    (db : DB) (r : Random) : Response * DB * Random :=
  match is_valid db data with
  | inl details => (ValidationFailed details, db, r)
  | inr validated_data =>
      match create now user validated_data db r with
      | (inl e, db1, r1) => (Unhandled e, db1, r1)
      | (inr order, db1, r1) => (OrderCreated order, db1, r1)
      end
  end.

(** ** Cancellation ([OrderCancelView.post]) *)

(** [order.items.all()] *)
Definition order_items_of (db : DB) (order : Z) : list OrderItem.t :=
  filter (λ i, OrderItem.order i = order) (order_items db).

(** The largest value of the [stock] column: [PositiveIntegerField] is a
    32-bit [integer] on PostgreSQL. *)
Definition stock_max : Z := 2147483647.

(** The restock loop.  Each [item.product] is fetched from the store when
    the loop reaches the item, so it sees the writes of the earlier
    iterations.  A null reference is skipped.  [item.product.save()] is
    refused by the database when the stock it carries is over [stock_max]:
    the exception leaves the loop, and the writes of the earlier iterations
    stay (no transaction is open).  The loop of order creation needs no such
    test: it writes a stock below the one it fetched. *)
Fixpoint restock (items : list OrderItem.t) (db : DB) : option Exn * DB :=
  match items with
  | [] => (None, db)
  | item :: rest =>
      match OrderItem.product item with
      | None => restock rest db
      | Some pid =>
          match products db !! pid with
          | None => (Some DoesNotExist, db)
          | Some product =>
              let product' :=
                Product.with_stock (Product.stock product + OrderItem.quantity item) product in
              if stock_max <? Product.stock product' then (Some DataError, db)
              else restock rest (Product_save (pid, product') db)
          end
      end
  end.

Definition cancellable (s : OrderStatus) : bool :=
  bool_decide (s ∈ [PENDING; CONFIRMED]).

(** [OrderCancelView.post]; [user] is the authenticated requester. *)
Definition OrderCancelView_post (now : DateTime) (user : Z) (id : Z)
    (db : DB) (r : Random) : Response * DB * Random :=
  match orders db !! id with
  | None => (OrderNotFound, db, r)
  | Some order =>
      if bool_decide (Order.user order = Some user) then
        if negb (cancellable (Order.status order)) then (OrderNotCancellable, db, r)
        else
          match restock (order_items_of db id) db with
          | (Some e, db1) => (Unhandled e, db1, r)
          | (None, db1) =>
              match Order_save now (Some id) (Order.with_status CANCELLED order) db1 r with
              | (inl e, db2, r2) => (Unhandled e, db2, r2)
              | (inr _, db2, r2) => (OrderCancelled, db2, r2)
              end
          end
      else (OrderNotFound, db, r)
  end.

(** ** Administrative actions ([OrderAdmin], [admin.py]) *)

(** [queryset.update(status=s)]: one UPDATE over the selected rows; it does
    not go through [Order.save]. *)
Definition queryset_update_status (selected : gset Z) (s : OrderStatus) (db : DB) : DB :=
  set_orders
    (map_imap (λ k o, Some (if bool_decide (k ∈ selected) then Order.with_status s o else o)))
    db.

Definition mark_confirmed (selected : gset Z) (db : DB) : DB :=
  queryset_update_status selected CONFIRMED db.

Definition mark_processing (selected : gset Z) (db : DB) : DB :=
  queryset_update_status selected PROCESSING db.

Definition mark_shipped (selected : gset Z) (db : DB) : DB :=
  queryset_update_status selected SHIPPED db.

Definition mark_delivered (selected : gset Z) (db : DB) : DB :=
  queryset_update_status selected DELIVERED db.

(** The outer loop of [mark_cancelled] over the orders to restock. *)
Fixpoint restock_orders (ids : list Z) (db : DB) : option Exn * DB :=
  match ids with
  | [] => (None, db)
  | id :: rest =>
      match restock (order_items_of db id) db with
      | (Some e, db1) => (Some e, db1)
      | (None, db1) => restock_orders rest db1
      end
  end.

(** [OrderAdmin.mark_cancelled]: restock the selected orders that are
    pending or confirmed, then set every selected order to cancelled. *)
Definition mark_cancelled (selected : gset Z) (db : DB) : option Exn * DB :=
  let to_restock :=
    filter (λ id, from_option (λ o, cancellable (Order.status o)) false
                              (orders db !! id) = true)
           (elements selected) in
  match restock_orders to_restock db with
  | (Some e, db1) => (Some e, db1)
  | (None, db1) => (None, queryset_update_status selected CANCELLED db1)
  end.

(** ** Favorites ([FavoriteToggleView.post]) *)

(** [Favorite.objects.get_or_create(user=user, product=product)] *)
Definition Favorite_get_or_create (user : Z) (product : UUID) (db : DB)
  : (Exn + Favorite.t * bool) * DB :=
  match filter (λ f, Favorite.user f = user ∧ Favorite.product f = product)
               (favorites db) with
  | [] =>
      let favorite := Favorite.mk (next_favorite_id db) user product in
      (inr (favorite, true),
       set_favorites (λ l, (l ++ [favorite])%list) (next_favorite_id db + 1) db)
  | [favorite] => (inr (favorite, false), db)
  | _ => (inl MultipleObjectsReturned, db)
  end.

(** [FavoriteToggleView.post]; the serializer's [validate_product_id] is the
    same check as the order item's. *)
Definition FavoriteToggleView_post (user : Z) (product_id : UUID) (db : DB)
  : Response * DB :=
  match validate_product_id db product_id with
  | inl _ => (ProductIdInvalid, db)
  | inr product_id =>
      match products db !! product_id with
      | None => (Unhandled DoesNotExist, db)
      | Some _ =>
          match Favorite_get_or_create user product_id db with
          | (inl e, db1) => (Unhandled e, db1)
          | (inr (_, true), db1) => (FavoriteAdded, db1)
          | (inr (_, false), db1) => (FavoriteExists, db1)
          end
      end
  end.

(** ** Accounts: the [post_save] receivers and registration *)

(** [Profile.objects.create(user=instance)]; [user] is a [OneToOneField],
    hence unique. *)
Definition Profile_create (user : Z) (db : DB) : option Exn * DB :=
  let k := next_profile_id db in
  if bool_decide (Exists (λ p, Profile.user p = user) (profiles db))
  then (Some IntegrityError, set_profiles (λ l, l) (k + 1) db)
  else (None, set_profiles (λ l, (l ++ [Profile.mk k user ""])%list) (k + 1) db).

(** [instance.profile]: the profile row of the user, if any. *)
Definition profile_of (db : DB) (user : Z) : option Profile.t :=
  head (filter (λ p, Profile.user p = user) (profiles db)).

(** [profile.save()]: the row with that primary key is rewritten. *)
Definition Profile_save (p : Profile.t) (db : DB) : DB :=
  set_profiles (map (λ q, if bool_decide (Profile.id q = Profile.id p) then p else q))
               (next_profile_id db) db.

(** Receiver [create_user_profile]. *)
Definition create_user_profile (instance : Z) (created : bool) (db : DB) : option Exn * DB :=
  if created then Profile_create instance db else (None, db).

(** Receiver [save_user_profile]: [hasattr(instance, 'profile')] holds when
    the user has a profile row. *)
Definition save_user_profile (instance : Z) (created : bool) (db : DB) : option Exn * DB :=
  match profile_of db instance with
  | Some p => (None, Profile_save p db)
  | None => (None, db)
  end.

(** The receivers connected to [post_save] of [User], in connection order. *)
Definition post_save_User : list (Z -> bool -> DB -> option Exn * DB) :=
  [create_user_profile; save_user_profile].

(** [Signal.send]: call each receiver; an exception propagates. *)
Fixpoint send (receivers : list (Z -> bool -> DB -> option Exn * DB))
    (instance : Z) (created : bool) (db : DB) : option Exn * DB :=
  match receivers with
  | [] => (None, db)
  | receiver :: rest =>
      match receiver instance created db with
      | (Some e, db1) => (Some e, db1)
      | (None, db1) => send rest instance created db1
      end
  end.

(** [User.objects.create_user(...)]: insert the row ([username] is unique),
    then [post_save] is sent with [created=True] before the call returns.
    The password hash plays no part here and is left out. *)
Definition create_user (u : User.t) (db : DB) : (Exn + Z) * DB :=
  let k := next_user_id db in
  if bool_decide (map_Exists (λ _ v, User.username v = User.username u) (users db))
  then (inl IntegrityError, set_users (λ m, m) (k + 1) db)
  else
    match send post_save_User k true (set_users (insert k u) (k + 1) db) with
    | (Some e, db1) => (inl e, db1)
    | (None, db1) => (inr k, db1)
    end.

(** The validated body of a registration. *)
Record RegisterData := mkRegister {
  g_username : string;
  g_email : string;
  g_first_name : string;
  g_last_name : string;
  g_phone : string
}.

(** A continuation byte of UTF-8, [10xxxxxx]. *)
Definition is_continuation_byte (c : ascii) : bool :=
  (N.land (N_of_ascii c) 192 =? 128)%N.

(** The number of characters of a UTF-8 encoded text. *)
Fixpoint utf8_length (s : string) : nat :=
  match s with
  | EmptyString => O
  | String c s' => ((if is_continuation_byte c then 0 else 1) + utf8_length s')%nat
  end.

(** [Profile.phone] is [CharField(max_length=20)], a [varchar(20)] column. *)
Definition phone_max_length : nat := 20.

(** [RegisterSerializer.create].  The serializer's [phone] field declares no
    [max_length], so a validated phone can be longer than the column; the
    database then refuses [user.profile.save()] with DataError, after
    [create_user] has stored the user and the receiver its profile (no
    transaction is open, the rows stay). *)
Definition RegisterSerializer_create (validated_data : RegisterData) (db : DB)
  : (Exn + Z) * DB :=
  let phone := g_phone validated_data in
  match create_user (User.mk (g_username validated_data) (g_email validated_data)
                       (g_first_name validated_data) (g_last_name validated_data)
                       false) db with
  | (inl e, db1) => (inl e, db1)
  | (inr user, db1) =>
      match profile_of db1 user with
      | None => (inl DoesNotExist, db1)
      | Some profile =>
          if (phone_max_length <? utf8_length phone)%nat then (inl DataError, db1)
          else (inr user, Profile_save (Profile.with_phone phone profile) db1)
      end
  end.

(** [Order.get_total]: [sum(item.get_cost() for item in self.items.all())] *)
Definition Order_get_total (db : DB) (order : Z) : Z :=
  fold_left (λ total item, total + OrderItem.get_cost item) (order_items_of db order) 0.

(** ** The specification's vocabulary *)

(** The error kinds of the order-creation contract. *)
Inductive ErrorKind :=
| EmptyCart
| ProductUnavailable (product : UUID)
| InsufficientStock (product_name : string).

(** The validation algorithm in the specification's words: the errors of one
    cart line, resolved through the catalog of orderable products. *)
Definition spec_line_errors (db : DB) (line : OrderItemData) : list ErrorKind :=
  match get_active_product db (product_id line) with
  | None => [ProductUnavailable (product_id line)]
  | Some p =>
      if Product.stock p <? quantity line then [InsufficientStock (Product.name p)]
      else []
  end.

(** All errors of a cart, in cart order; the empty list accepts the cart. *)
Definition spec_validate (db : DB) (cart : list OrderItemData) : list ErrorKind :=
  match cart with
  | [] => [EmptyCart]
  | _ => flat_map (spec_line_errors db) cart
  end.

(** The message the code raises for each kind. *)
Definition message (e : ErrorKind) : string :=
  match e with
  | EmptyCart => msg_cart_empty
  | ProductUnavailable _ => msg_not_found
  | InsufficientStock product_name => msg_insufficient product_name
  end.

(** Matching a string against a fixed text followed by more. *)
Fixpoint literal_then (lit : string) (k : string -> bool) (s : string) : bool :=
  match lit with
  | EmptyString => k s
  | String c lit' =>
      match s with
      | String c' s' => bool_decide (c = c') && literal_then lit' k s'
      | EmptyString => false
      end
  end.

Definition is_digit (c : ascii) : bool :=
  ((48 <=? N_of_ascii c) && (N_of_ascii c <=? 57))%N.

(** Matching [\d{n}] followed by more. *)
Fixpoint digits_then (n : nat) (k : string -> bool) (s : string) : bool :=
  match n with
  | O => k s
  | S n' =>
      match s with
      | String c s' => is_digit c && digits_then n' k s'
      | EmptyString => false
      end
  end.

Definition at_end (s : string) : bool := bool_decide (s = "").

(** [NS-\d{8}-\d{4}], the format of the comment in [Order.save]. *)
Definition matches_NS_date_dash_random : string -> bool :=
  literal_then "NS-" (digits_then 8 (literal_then "-" (digits_then 4 at_end))).

(** [NS-\d{8}\d{4}], the format of the specification. *)
Definition matches_NS_date_random : string -> bool :=
  literal_then "NS-" (digits_then 8 (digits_then 4 at_end)).

(** A date [timezone.now()] can return. *)
Definition valid_date (t : DateTime) : Prop :=
  1000 ≤ year t ≤ 9999 ∧ 1 ≤ month t ≤ 12 ∧ 1 ≤ day t ≤ 31.

(** No two stored orders share an order number. *)
Definition unique_order_numbers (db : DB) : Prop :=
  ∀ k1 k2 o1 o2,
    orders db !! k1 = Some o1 → orders db !! k2 = Some o2 →
    Order.order_number o1 = Order.order_number o2 → k1 = k2.

(** ** Store invariants *)

Definition stock_nonneg (db : DB) : Prop :=
  map_Forall (λ _ p, 0 ≤ Product.stock p) (products db).

Definition quantities_positive (db : DB) : Prop :=
  Forall (λ i, 1 ≤ OrderItem.quantity i) (order_items db).

(** The order sequence is ahead of every order a line item refers to. *)
Definition items_below_sequence (db : DB) : Prop :=
  Forall (λ i, OrderItem.order i < next_order_id db) (order_items db).

(** What a cart line costs at the prices of the store. *)
Definition line_total (db : DB) (line : OrderItemData) : Z :=
  match products db !! product_id line with
  | Some p => Product.price p * quantity line
  | None => 0
  end.

Definition sum_Z (l : list Z) : Z := foldr Z.add 0 l.

(** ** Example stores *)

Definition db_empty : DB := mkDB ∅ ∅ [] [] ∅ [] 1 1 1 1 1.

Definition rnd_example : Random := mkRandom (λ n, Z.of_nat n + 3) 0.

Definition date_example : DateTime := mkDate 2024 3 7.

(** One product, identifier 7, price 10.00, five in stock. *)
Definition db_one_product : DB :=
  set_products (insert 7%N (Product.mk "A" 1000 5 true)) db_empty.

Definition data_example (items : list OrderItemData) : OrderData :=
  mkOrderData "Aman" "Amanov" "+99365000000" "" "Ashgabat" "" items.

Definition order_example (s : OrderStatus) : Order.t :=
  Order.mk "NS-20240307-3456" (Some 1) "Aman" "Amanov" "+99365000000" ""
           "Ashgabat" s 2000 "".

(** The one-product store after an order of two units by user 1, now in
    status [s]. *)
Definition db_with_order (s : OrderStatus) : DB :=
  mkDB {[ 7%N := Product.mk "A" 1000 3 true ]} {[ 1 := order_example s ]}
       [OrderItem.mk 1 1 (Some 7%N) "A" 1000 2] [] ∅ [] 2 2 1 1 1.

(** The rows of the favorites table for a (user, product) pair. *)
Definition favorite_rows (db : DB) (user : Z) (product : UUID) : list Favorite.t :=
  filter (λ f, Favorite.user f = user ∧ Favorite.product f = product) (favorites db).

(** [unique_together = ('user', 'product')] *)
Definition favorites_unique (db : DB) : Prop :=
  NoDup ((λ f, (Favorite.user f, Favorite.product f)) <$> favorites db).

(** The store after [n] successive add requests for the same pair. *)
Definition add_favorite_times (n : nat) (user : Z) (product : UUID) (db : DB) : DB :=
  Nat.iter n (λ d, (FavoriteToggleView_post user product d).2) db.

(** Price times quantity over the objects remembered by the first loop. *)
Definition data_total (products_data : list (Product.instance * Z)) : Z :=
  sum_Z (map (λ d, Product.price d.1.2 * d.2) products_data).

Fixpoint all_digits (s : string) : bool :=
  match s with
  | EmptyString => true
  | String c s' => is_digit c && all_digits s'
  end.

(** The profile rows that reference a user. *)
Definition profiles_of_user (db : DB) (user : Z) : list Profile.t :=
  filter (λ p, Profile.user p = user) (profiles db).

(** Referential state of the accounts tables: every profile references a
    user key already issued and carries a profile key already issued. *)
Definition accounts_consistent (db : DB) : Prop :=
  Forall (λ p, Profile.user p < next_user_id db ∧ Profile.id p < next_profile_id db)
         (profiles db).

Definition user_example : User.t := User.mk "aman" "aman@example.com" "Aman" "Amanov" false.

Definition register_example : RegisterData :=
  mkRegister "aman" "aman@example.com" "Aman" "Amanov" "+99365000000".

(** The cart that names product 7 on two lines. *)
Definition cart_twice : list OrderItemData := [mkItem 7%N 2; mkItem 7%N 1].

(** User 1 orders [cart_twice] from the one-product store ... *)
Definition created_twice : Response * DB * Random :=
  OrderCreateView_post date_example (Some 1) (data_example cart_twice)
    db_one_product rnd_example.

(** ... and then cancels order 1. *)
Definition cancelled_twice : Response * DB * Random :=
  OrderCancelView_post date_example 1 1 created_twice.1.2 created_twice.2.

(** ** Further views and model operations *)

(** [Order.items_count]: [self.items.count()] *)
Definition Order_items_count (db : DB) (order : Z) : nat :=
  length (order_items_of db order).

(** [OrderListView.get_queryset] and [OrderDetailView.get_queryset]:
    [Order.objects.filter(user=self.request.user)], as the set of rows (the
    ordering of the listing aside). *)
Definition orders_of_user (db : DB) (user : Z) : gmap Z Order.t :=
  filter (λ kv, Order.user kv.2 = Some user) (orders db).

(** [OrderDetailView]: the object looked up by [id] inside the queryset;
    [None] is the 404 answer. *)
Definition OrderDetailView_get_object (db : DB) (user : Z) (id : Z) : option Order.t :=
  orders_of_user db user !! id.

(** The quantity an order's lines hold of one product. *)
Definition lines_quantity (items : list OrderItem.t) (pid : UUID) : Z :=
  sum_Z (OrderItem.quantity <$> filter (λ i, OrderItem.product i = Some pid) items).

(** Referential integrity of [OrderItem.product]: a non-null reference names
    a stored product. *)
Definition items_reference_products (db : DB) : Prop :=
  Forall (λ i, ∀ pid, OrderItem.product i = Some pid → is_Some (products db !! pid))
         (order_items db).

(** Every stored order has a number. *)
Definition order_numbers_assigned (db : DB) : Prop :=
  map_Forall (λ _ o, Order.order_number o ≠ "") (orders db).

(** The line item with its product reference set to NULL. *)
Definition OrderItem_set_null (i : OrderItem.t) : OrderItem.t :=
  OrderItem.mk (OrderItem.id i) (OrderItem.order i) None (OrderItem.product_name i)
               (OrderItem.price i) (OrderItem.quantity i).

(** Deleting a product row, with the [on_delete] rules of [models.py]:
    [OrderItem.product] is [SET_NULL], [Favorite.product] is [CASCADE]. *)
Definition Product_delete (pid : UUID) (db : DB) : DB :=
  set_favorites (filter (λ f, Favorite.product f ≠ pid)) (next_favorite_id db)
    (set_order_items
       (map (λ i, if bool_decide (OrderItem.product i = Some pid)
                  then OrderItem_set_null i else i))
       (set_products (delete pid) db)).

(** The order row that [created_twice] stores. *)
Definition order_twice : Order.t :=
  Order.mk "NS-20240307-3456" (Some 1) "Aman" "Amanov" "+99365000000" ""
           "Ashgabat" PENDING 3000 "".

(** ** Removing favorites and reading them ([views.py], [serializers.py]) *)

Inductive FavoriteDeleteResponse :=
| FavoriteRemoved            (* 200, "removed" *)
| FavoriteNotFound           (* 404, "Товар не найден в избранном" *)
| ProductIdRequired          (* 400, "product_id обязателен" *)
| DeleteUnhandled (e : Exn). (* 500, uncaught exception *)

(** [Favorite.objects.get(user=request.user, product_id=product_id)] *)
Definition Favorite_get (user : Z) (product : UUID) (db : DB) : Exn + Favorite.t :=
  match favorite_rows db user product with
  | [] => inl DoesNotExist
  | [favorite] => inr favorite
  | _ => inl MultipleObjectsReturned
  end.

(** [favorite.delete()]: the row with that primary key goes. *)
Definition Favorite_delete (favorite : Favorite.t) (db : DB) : DB :=
  set_favorites (filter (λ g, Favorite.id g ≠ Favorite.id favorite))
                (next_favorite_id db) db.

(** [FavoriteDeleteView.delete]; only [Favorite.DoesNotExist] is caught. *)
Definition FavoriteDeleteView_delete (user : Z) (product_id : UUID) (db : DB)
  : FavoriteDeleteResponse * DB :=
  match Favorite_get user product_id db with
  | inr favorite => (FavoriteRemoved, Favorite_delete favorite db)
  | inl DoesNotExist => (FavoriteNotFound, db)
  | inl e => (DeleteUnhandled e, db)
  end.

(** [FavoriteToggleView.delete]; [product_id] is [None] when the body has
    no (or an empty) [product_id]. *)
Definition FavoriteToggleView_delete (user : Z) (product_id : option UUID) (db : DB)
  : FavoriteDeleteResponse * DB :=
  match product_id with
  | None => (ProductIdRequired, db)
  | Some product_id => FavoriteDeleteView_delete user product_id db
  end.

(** [ProductListSerializer.get_is_favorite] (and the detail serializer's):
    [request_user] is [None] for an anonymous request. *)
Definition get_is_favorite (request_user : option Z) (product : UUID) (db : DB) : bool :=
  match request_user with
  | Some user => bool_decide (favorite_rows db user product ≠ [])
  | None => false
  end.

(** [FavoriteListView.get_queryset] *)
Definition FavoriteListView_get_queryset (db : DB) (user : Z) : list Favorite.t :=
  filter (λ f, Favorite.user f = user) (favorites db).

(** Primary keys of favorites are distinct. *)
Definition favorite_ids_unique (db : DB) : Prop :=
  NoDup (Favorite.id <$> favorites db).

(** The favorites sequence is ahead of every stored key. *)
Definition favorites_below_sequence (db : DB) : Prop :=
  Forall (λ f, Favorite.id f < next_favorite_id db) (favorites db).

(** ** Registration and one-time codes ([views.py]) *)

(** String primitives of Python and of the database that the views rely on
    and that are kept abstract: [str.strip], [str.lower] and the
    case-insensitive comparison behind [email__iexact]. *)
Record Text := mkText {
  strip : string -> string;
  lower : string -> string;
  iexact : string -> string -> bool
}.

(** The store with the two one-time-code columns of [Profile], [otp_code]
    and [otp_created_at], held per profile key; a missing key is NULL.
    Instants are counted in microseconds. *)
Record AuthDB := mkAuth {
  base : DB;
  otp_code : gmap Z string;
  otp_created_at : gmap Z Z
}.

Definition set_base (db : DB) (a : AuthDB) : AuthDB :=
  mkAuth db (otp_code a) (otp_created_at a).

(** [timedelta(minutes=10)] *)
Definition ten_minutes : Z := 600000000.

(** [str(n)] for a six-digit [n]. *)
Definition str_six_digits (n : Z) : string :=
  String (digit (n / 100000)) (String (digit (n / 10000)) (String (digit (n / 1000))
  (String (digit (n / 100)) (String (digit (n / 10)) (String (digit n) ""))))).

(** [generate_otp]: [str(random.randint(100000, 999999))] *)
Definition generate_otp (r : Random) : string * Random :=
  let '(n, r') := randint 100000 999999 r in (str_six_digits n, r').

(** Assigning [profile.otp_code] and [profile.otp_created_at], then
    [profile.save()]. *)
Definition Profile_save_otp (profile : Profile.t) (code : option string)
    (created_at : option Z) (a : AuthDB) : AuthDB :=
  mkAuth (Profile_save profile (base a))
         (match code with
          | Some c => <[Profile.id profile := c]> (otp_code a)
          | None => delete (Profile.id profile) (otp_code a)
          end)
         (match created_at with
          | Some t => <[Profile.id profile := t]> (otp_created_at a)
          | None => delete (Profile.id profile) (otp_created_at a)
          end).

Definition Order_clear_user (o : Order.t) : Order.t :=
  Order.mk (Order.order_number o) None (Order.first_name o) (Order.last_name o)
           (Order.phone o) (Order.email o) (Order.address o) (Order.status o)
           (Order.total_amount o) (Order.note o).

(** [user.delete()] with the [on_delete] rules of [models.py]: [Profile.user]
    and [Favorite.user] are [CASCADE], [Order.user] is [SET_NULL]. *)
Definition User_delete_rows (user : Z) (db : DB) : DB :=
  mkDB (products db)
       ((λ o, if bool_decide (Order.user o = Some user) then Order_clear_user o else o)
          <$> orders db)
       (order_items db)
       (filter (λ f, Favorite.user f ≠ user) (favorites db))
       (delete user (users db))
       (filter (λ p, Profile.user p ≠ user) (profiles db))
       (next_order_id db) (next_item_id db) (next_favorite_id db)
       (next_user_id db) (next_profile_id db).

Definition User_delete (user : Z) (a : AuthDB) : AuthDB :=
  let gone := Profile.id <$> profiles_of_user (base a) user in
  mkAuth (User_delete_rows user (base a))
         (filter (λ kv, kv.1 ∉ gone) (otp_code a))
         (filter (λ kv, kv.1 ∉ gone) (otp_created_at a)).

Inductive AuthResponse :=
| CodeSent (status : Z)      (* 201 or 200, "code_sent" *)
| RegisterInvalid            (* 400, "Ошибка валидации" *)
| MailFailed                 (* 500, the e-mail could not be sent *)
| FieldsRequired             (* 400, a required field is empty *)
| UserNotFound               (* 404, "Пользователь не найден" *)
| WrongCode                  (* 400, "Неверный код" *)
| CodeExpired                (* 400, "Код истек. Запросите новый." *)
| AlreadyActive              (* 400, "Аккаунт уже активирован" *)
| Verified (user : Z)        (* 200, "Регистрация завершена" *)
| AuthUnhandled (e : Exn).   (* 500, uncaught exception *)

(** [RegisterView.post].  [validation] is the outcome of
    [serializer.is_valid()] on the normalised body ([None]: invalid);
    [mail_ok] is what [send_otp_email] returns. *)
Definition RegisterView_post (validation : option RegisterData) (now : Z)
    (mail_ok : bool) (a : AuthDB) (r : Random) : AuthResponse * AuthDB * Random :=
  match validation with
  | None => (RegisterInvalid, a, r)
  | Some validated_data =>
      match RegisterSerializer_create validated_data (base a) with
      | (inl e, db1) => (AuthUnhandled e, set_base db1 a, r)
      | (inr user, db1) =>
          let '(otp, r1) := generate_otp r in
          match profile_of db1 user with
          | None => (AuthUnhandled DoesNotExist, set_base db1 a, r1)
          | Some profile =>
              let a1 := Profile_save_otp profile (Some otp) (Some now) (set_base db1 a) in
              if mail_ok then (CodeSent 201, a1, r1)
              else (MailFailed, User_delete user a1, r1)
          end
      end
  end.

(** The keys of the users whose e-mail matches, [filter(email__iexact=...)]. *)
Definition users_by_email (T : Text) (db : DB) (email : string) : list Z :=
  elements (dom (filter (λ kv, iexact T (User.email kv.2) email = true) (users db))).

(** [User.objects.get(email__iexact=email)] *)
Definition User_get_by_email (T : Text) (db : DB) (email : string) : Exn + Z :=
  match users_by_email T db email with
  | [] => inl DoesNotExist
  | [k] => inr k
  | _ => inl MultipleObjectsReturned
  end.

Definition User_activate (u : User.t) : User.t :=
  User.mk (User.username u) (User.email u) (User.first_name u) (User.last_name u) true.

(** [user.save()] on a stored user: the row is rewritten and [post_save] is
    sent with [created=False]. *)
Definition User_save (k : Z) (u : User.t) (db : DB) : option Exn * DB :=
  send post_save_User k false (set_users (insert k u) (next_user_id db) db).

(** Has the code of this profile expired at [now]?  No creation instant, no
    expiry. *)
Definition otp_expired (a : AuthDB) (profile : Profile.t) (now : Z) : bool :=
  match otp_created_at a !! Profile.id profile with
  | Some t => ten_minutes <? now - t
  | None => false
  end.

(** [VerifyOTPView.post]; [code] is [str(request.data.get('code', ''))]. *)
Definition VerifyOTPView_post (T : Text) (email code : string) (now : Z) (a : AuthDB)
  : AuthResponse * AuthDB :=
  let email := lower T (strip T email) in
  let code := strip T code in
  if bool_decide (email = "") || bool_decide (code = "") then (FieldsRequired, a)
  else
    match User_get_by_email T (base a) email with
    | inl DoesNotExist => (UserNotFound, a)
    | inl e => (AuthUnhandled e, a)
    | inr k =>
        match users (base a) !! k, profile_of (base a) k with
        | Some user, Some profile =>
            if bool_decide (otp_code a !! Profile.id profile ≠ Some code)
            then (WrongCode, a)
            else if otp_expired a profile now then (CodeExpired, a)
            else
              match User_save k (User_activate user) (base a) with
              | (Some e, db1) => (AuthUnhandled e, set_base db1 a)
              | (None, db1) =>
                  (Verified k, Profile_save_otp profile None None (set_base db1 a))
              end
        | _, _ => (AuthUnhandled DoesNotExist, a)
        end
    end.

(** [ResendOTPView.post] *)
Definition ResendOTPView_post (T : Text) (email : string) (now : Z) (mail_ok : bool)
    (a : AuthDB) (r : Random) : AuthResponse * AuthDB * Random :=
  let email := lower T (strip T email) in
  if bool_decide (email = "") then (FieldsRequired, a, r)
  else
    match User_get_by_email T (base a) email with
    | inl DoesNotExist => (UserNotFound, a, r)
    | inl e => (AuthUnhandled e, a, r)
    | inr k =>
        match users (base a) !! k with
        | None => (AuthUnhandled DoesNotExist, a, r)
        | Some user =>
            if User.is_active user then (AlreadyActive, a, r)
            else
              let '(otp, r1) := generate_otp r in
              match profile_of (base a) k with
              | None => (AuthUnhandled DoesNotExist, a, r1)
              | Some profile =>
                  let a1 := Profile_save_otp profile (Some otp) (Some now) a in
                  if mail_ok then (CodeSent 200, a1, r1) else (MailFailed, a1, r1)
              end
        end
    end.

(** Profile keys are distinct. *)
Definition profile_ids_unique (db : DB) : Prop :=
  NoDup (Profile.id <$> profiles db).

(** The user sequence is ahead of every key in use: no stored user,
    favorite or order refers to the next key. *)
Definition user_keys_below_sequence (db : DB) : Prop :=
  users db !! next_user_id db = None ∧
  Forall (λ f, Favorite.user f ≠ next_user_id db) (favorites db) ∧
  map_Forall (λ _ o, Order.user o ≠ Some (next_user_id db)) (orders db).

(** String primitives for the examples: no trimming, no case folding,
    comparison by equality. *)
Definition text_example : Text := mkText (λ s, s) (λ s, s) String.eqb.

Definition auth_empty : AuthDB := mkAuth db_empty ∅ ∅.

(** Registration of [register_example] at instant 0, the mail accepted. *)
Definition registered_example : AuthResponse * AuthDB * Random :=
  RegisterView_post (Some register_example) 0 true auth_empty rnd_example.

(** The one-time-code columns hold nothing for the next profile key. *)
Definition otp_below_sequence (a : AuthDB) : Prop :=
  otp_code a !! next_profile_id (base a) = None ∧
  otp_created_at a !! next_profile_id (base a) = None.

(** A second registration, under another user name. *)
Definition register_second : RegisterData :=
  mkRegister "merdan" "merdan@example.com" "Merdan" "Orazov" "+99365111111".

(** ** Reading a validation answer *)

(** A cart line that fails the checks of its own fields: its product is
    missing or inactive, or it asks for less than one unit. *)
Definition line_rejected (db : DB) (line : OrderItemData) : Prop :=
  get_active_product db (product_id line) = None ∨ quantity line < 1.

(** The texts a validation answer carries, wherever they stand in it. *)
Definition message_texts (m : FieldMessage) : list string :=
  match m with
  | Raised text => [text]
  | BelowMinValue _ => []
  end.

Definition dict_texts (d : list (string * list FieldMessage)) : list string :=
  flat_map (λ field, flat_map message_texts field.2) d.

Definition reported_texts (details : ItemsErrors) : list string :=
  match details with
  | PerItem dicts => flat_map dict_texts dicts
  | Messages msgs => msgs
  end.

(** Six units of product 7, one unit of the unknown product 8, nine units
    of product 7. *)
Definition cart_mixed : list OrderItemData := [mkItem 7%N 6; mkItem 8%N 1; mkItem 7%N 9].

(** Every stored stock fits its column. *)
Definition stock_in_range (db : DB) : Prop :=
  map_Forall (λ _ p, Product.stock p ≤ stock_max) (products db).


(** The store of [db_with_order PENDING] with the stock of product 7 at the
    top of its column. *)
Definition db_stock_full : DB :=
  mkDB {[ 7%N := Product.mk "A" 1000 2147483647 true ]} {[ 1 := order_example PENDING ]}
       [OrderItem.mk 1 1 (Some 7%N) "A" 1000 2] [] ∅ [] 2 2 1 1 1.

(** * Theorems *)

Lemma fold_validate_items_step db cart acc :
  fold_left (validate_items_step db) cart acc =
  (acc ++ map message (flat_map (spec_line_errors db) cart))%list.
Proof.
  revert acc. induction cart as [|line cart IH]; intros acc; simpl.
  - by rewrite app_nil_r.
  - rewrite IH. unfold validate_items_step, spec_line_errors.
    destruct (get_active_product db (product_id line)) as [p|]; simpl.
    + destruct (Product.stock p <? quantity line); simpl; [|done].
      by rewrite <- app_assoc.
    + by rewrite <- app_assoc.
Qed.

Lemma validate_items_refines db cart :
  validate_items db cart =
  match spec_validate db cart with
  | [] => inr cart
  | errs => inl (map message errs)
  end.
Proof.
  destruct cart as [|line cart]; [done|].
  unfold validate_items, spec_validate.
  rewrite fold_validate_items_step, app_nil_l.
  by destruct (flat_map (spec_line_errors db) (line :: cart)).
Qed.

(** ** Validation (C3) *)

Lemma item_errors_nil (db : DB) line :
  item_errors db line = [] ↔ ¬ line_rejected db line.
Proof.
  unfold item_errors, line_rejected, validate_product_id, validate_quantity.
  destruct (get_active_product db (product_id line)) as [p|]; simpl.
  - destruct (quantity line <? 1) eqn:Hq; simpl.
    + apply Z.ltb_lt in Hq. split; [done|]. intros H. exfalso. apply H. by right.
    + apply Z.ltb_ge in Hq. split; [|done]. intros _ [?|?]; [done|lia].
  - split; [done|]. intros H. exfalso. apply H. by left.
Qed.

Lemma any_nonempty_item_errors (db : DB) items :
  any_nonempty (map (item_errors db) items) = true ↔ Exists (line_rejected db) items.
Proof.
  unfold any_nonempty. rewrite existsb_exists, Exists_exists. split.
  - intros (d & (line & <- & Hline%list_elem_of_In)%in_map_iff & Hd).
    exists line. split; [done|].
    destruct (decide (item_errors db line = [])) as [He|He]; [by rewrite He in Hd|].
    unfold line_rejected.
    destruct (get_active_product db (product_id line)) as [p|] eqn:Hp; [|by left].
    destruct (decide (quantity line < 1)) as [|Hq]; [by right|].
    exfalso. apply He. apply item_errors_nil. unfold line_rejected. rewrite Hp.
    by intros [?|?].
  - intros (line & Hline%list_elem_of_In & Hrej).
    exists (item_errors db line). split; [by apply in_map|].
    destruct (item_errors db line) eqn:He; [|done].
    by apply item_errors_nil in He.
Qed.

(** The first stage: one rejected line is enough for the answer to hold the
    dictionaries of all lines, and [validate_items] is not called. *)
Lemma run_items_validation_rejected (db : DB) items :
  Exists (line_rejected db) items →
  run_items_validation db items = inl (PerItem (map (item_errors db) items)).
Proof.
  intros H. unfold run_items_validation.
  by rewrite (proj2 (any_nonempty_item_errors db items) H).
Qed.

(** The second stage, reached when no line is rejected. *)
Lemma run_items_validation_resolved (db : DB) items :
  Forall (λ line, ¬ line_rejected db line) items →
  run_items_validation db items =
  match spec_validate db items with
  | [] => inr items
  | errs => inl (Messages (map message errs))
  end.
Proof.
  intros H. unfold run_items_validation.
  destruct (any_nonempty (map (item_errors db) items)) eqn:Hany.
  - apply any_nonempty_item_errors, Exists_exists in Hany as (line & Hline & Hrej).
    rewrite Forall_forall in H. by destruct (H line Hline).
  - rewrite validate_items_refines. by destruct (spec_validate db items).
Qed.

Lemma lines_rejected_or_not (db : DB) items :
  Exists (line_rejected db) items ∨ Forall (λ line, ¬ line_rejected db line) items.
Proof.
  destruct (any_nonempty (map (item_errors db) items)) eqn:Hany.
  - left. by apply any_nonempty_item_errors.
  - right. apply Forall_forall. intros line Hline Hrej.
    assert (any_nonempty (map (item_errors db) items) = true) as Ht; [|congruence].
    apply any_nonempty_item_errors, Exists_exists. by exists line.
Qed.

(** With every line resolved, the algorithm of the specification collects
    no ProductUnavailable error. *)
Lemma spec_validate_resolved (db : DB) items e :
  Forall (λ line, ¬ line_rejected db line) items →
  e ∈ spec_validate db items →
  e = EmptyCart ∨ ∃ line p, line ∈ items ∧
                            get_active_product db (product_id line) = Some p ∧
                            Product.stock p < quantity line ∧
                            e = InsufficientStock (Product.name p).
Proof.
  intros Hall. unfold spec_validate. destruct items as [|l0 ls] eqn:Hitems.
  - intros ->%list_elem_of_singleton. by left.
  - rewrite <- Hitems in *. clear Hitems.
    intros (line & Hline%list_elem_of_In & He)%list_elem_of_In%in_flat_map.
    right. exists line. rewrite Forall_forall in Hall.
    pose proof (Hall line Hline) as Hok. unfold line_rejected in Hok.
    unfold spec_line_errors in He.
    destruct (get_active_product db (product_id line)) as [p|]; [|by destruct Hok; left].
    exists p. destruct (Product.stock p <? quantity line) eqn:Hlt; [|done].
    destruct He as [<-|[]]. apply Z.ltb_lt in Hlt. done.
Qed.

(** The only text a line's dictionary carries is the not-found message. *)
Lemma dict_texts_item_errors (db : DB) line :
  dict_texts (item_errors db line)
  = match get_active_product db (product_id line) with
    | Some _ => []
    | None => [msg_not_found]
    end.
Proof.
  unfold dict_texts, item_errors, validate_product_id, validate_quantity.
  destruct (get_active_product db (product_id line));
    by destruct (quantity line <? 1).
Qed.

Lemma reported_texts_per_item (db : DB) items :
  Forall (λ t, t = msg_not_found)
         (reported_texts (PerItem (map (item_errors db) items))).
Proof.
  simpl. induction items as [|line items IH]; [constructor|].
  simpl. apply Forall_app. split; [|exact IH].
  rewrite dict_texts_item_errors.
  destruct (get_active_product db (product_id line)); by repeat constructor.
Qed.

Lemma msg_insufficient_not_found name : msg_insufficient name ≠ msg_not_found.
Proof. unfold msg_not_found, msg_insufficient. discriminate. Qed.

(** C3, counterexample.  The claim has a failed validation report every
    error the algorithm of the specification collects.  In the one-product
    store (product 7, five in stock) the cart [cart_mixed] makes that
    algorithm collect three errors: insufficient stock for the first line, an
    unavailable product for the second, insufficient stock for the third.
    The request is answered with the second one alone, at the position of its
    line: the per-line checks of the fields run first, and since one line
    fails them [validate_items], the only place where stock is compared, is
    not run.  So not every collected error is reported. *)
Lemma createOrder_drops_stock_errors :
  spec_validate db_one_product cart_mixed
    = [InsufficientStock "A"; ProductUnavailable 8%N; InsufficientStock "A"] ∧
  OrderCreateView_post date_example None (data_example cart_mixed) db_one_product
    rnd_example
    = (ValidationFailed (PerItem [[]; [("product_id", [Raised msg_not_found])]; []]),
       db_one_product, rnd_example) ∧
  ¬ (∀ now user data (db : DB) r details db' r',
       OrderCreateView_post now user data db r = (ValidationFailed details, db', r') →
       ∀ e, e ∈ spec_validate db (d_items data) → message e ∈ reported_texts details).
Proof.
  split; [reflexivity|]. split; [reflexivity|].
  intros H.
  specialize (H date_example None (data_example cart_mixed) db_one_product rnd_example
                _ _ _ eq_refl (InsufficientStock "A")).
  assert (message (InsufficientStock "A") ∈ [msg_not_found]) as Hin
    by (apply H; left).
  apply list_elem_of_singleton in Hin. by apply (msg_insufficient_not_found "A").
Qed.

(** C3, as amended.  The validation of [createOrder] has two stages.
    First every cart line is checked on its own: a line whose product is
    missing or inactive gets the not-found message under [product_id], a line
    asking for less than one unit gets the minimum-value message under
    [quantity].  If some line fails, the request is refused with the
    dictionaries of all lines, by position; stock is not compared, and the
    not-found message is the only text in the answer.  Only when every line
    passes does [validate_items] run, and then the answer is that of the
    algorithm of the specification: the EmptyCart message for an empty cart,
    otherwise one InsufficientStock message naming the product for every line
    whose stock is below the quantity, all of them, in cart order; no error
    of the algorithm is left out and a cart without errors is accepted.  A
    refused request leaves the store and the random generator as they
    were. *)
Theorem createOrder_validation_two_stages now user data (db : DB) r :
  (Exists (line_rejected db) (d_items data) →
   OrderCreateView_post now user data db r
     = (ValidationFailed (PerItem (map (item_errors db) (d_items data))), db, r) ∧
   (∀ line, line ∈ d_items data →
      (("product_id", [Raised msg_not_found]) ∈ item_errors db line
         ↔ get_active_product db (product_id line) = None) ∧
      (("quantity", [BelowMinValue 1]) ∈ item_errors db line ↔ quantity line < 1) ∧
      (item_errors db line = [] ↔ ¬ line_rejected db line)) ∧
   Forall (λ t, t = msg_not_found)
          (reported_texts (PerItem (map (item_errors db) (d_items data))))) ∧
  (Forall (λ line, ¬ line_rejected db line) (d_items data) →
   (∀ e, e ∈ spec_validate db (d_items data) →
      e = EmptyCart ∨ ∃ line p, line ∈ d_items data ∧
                                get_active_product db (product_id line) = Some p ∧
                                Product.stock p < quantity line ∧
                                e = InsufficientStock (Product.name p)) ∧
   match spec_validate db (d_items data) with
   | [] => is_valid db data = inr data
   | errs =>
       OrderCreateView_post now user data db r
         = (ValidationFailed (Messages (map message errs)), db, r)
   end) ∧
  (∀ details db' r',
     OrderCreateView_post now user data db r = (ValidationFailed details, db', r') →
     db' = db ∧ r' = r).
Proof.
  split; [|split].
  - intros Hrej. split; [|split].
    + unfold OrderCreateView_post, is_valid.
      by rewrite (run_items_validation_rejected db (d_items data) Hrej).
    + intros line _. split; [|split; [|apply item_errors_nil]].
      * unfold item_errors, validate_product_id, validate_quantity.
        destruct (get_active_product db (product_id line)) as [p|]; simpl.
        -- split; [|done]. destruct (quantity line <? 1); simpl; [|by intros ?%elem_of_nil].
           by intros [= ]%list_elem_of_singleton.
        -- split; [done|]. intros _. left.
      * unfold item_errors, validate_product_id, validate_quantity.
        destruct (get_active_product db (product_id line)) as [p|]; simpl;
          destruct (quantity line <? 1) eqn:Hq; simpl.
        -- apply Z.ltb_lt in Hq. split; [done|]. intros _. left.
        -- apply Z.ltb_ge in Hq. split; [by intros ?%elem_of_nil|lia].
        -- apply Z.ltb_lt in Hq. split; [done|]. intros _. right. left.
        -- apply Z.ltb_ge in Hq. split; [|lia].
           by intros [= ]%list_elem_of_singleton.
    + apply reported_texts_per_item.
  - intros Hok. split; [intros e; by apply spec_validate_resolved|].
    pose proof (run_items_validation_resolved db (d_items data) Hok) as Hrun.
    unfold OrderCreateView_post, is_valid. rewrite Hrun.
    by destruct (spec_validate db (d_items data)).
  - intros details db' r'. unfold OrderCreateView_post.
    destruct (is_valid db data) as [e|validated]; [by intros [= _ <- <-]|].
    by destruct (create now user validated db r) as [[[e|order] db1] r1].
Qed.

Lemma createOrder_validation_two_stages_witness :
  OrderCreateView_post date_example None (data_example cart_mixed) db_one_product
    rnd_example
  = (ValidationFailed
       (PerItem (map (item_errors db_one_product) cart_mixed)),
     db_one_product, rnd_example) ∧
  OrderCreateView_post date_example None
    (data_example [mkItem 7%N 6; mkItem 7%N 1; mkItem 7%N 9]) db_one_product rnd_example
  = (ValidationFailed (Messages [msg_insufficient "A"; msg_insufficient "A"]),
     db_one_product, rnd_example).
Proof.
  split.
  - apply (proj1 (createOrder_validation_two_stages date_example None
                    (data_example cart_mixed) db_one_product rnd_example)).
    apply Exists_cons_tl, Exists_cons_hd. by left.
  - assert (Forall (λ line, ¬ line_rejected db_one_product line)
                   [mkItem 7%N 6; mkItem 7%N 1; mkItem 7%N 9]) as Hok.
    { repeat constructor; intros [H|H]; try discriminate H; simpl in H; lia. }
    destruct (proj1 (proj2 (createOrder_validation_two_stages date_example None
                              (data_example [mkItem 7%N 6; mkItem 7%N 1; mkItem 7%N 9])
                              db_one_product rnd_example)) Hok) as [_ H].
    exact H.
Defined.

(** ** Cancellation: state machine and ownership (C5, C8) *)

(** C5.  [cancelOrder] succeeds only for an order of the requester whose
    status is pending or confirmed; from processing, shipped, delivered or
    cancelled it answers that the order cannot be cancelled, and the whole
    store (every status, every stock) is unchanged. *)
Theorem cancelOrder_state_machine now user id (db : DB) r :
  (∀ db' r', OrderCancelView_post now user id db r = (OrderCancelled, db', r') →
     ∃ order, orders db !! id = Some order ∧ Order.user order = Some user ∧
              Order.status order ∈ [PENDING; CONFIRMED]) ∧
  (∀ order, orders db !! id = Some order → Order.user order = Some user →
     Order.status order ∈ [PROCESSING; SHIPPED; DELIVERED; CANCELLED] →
     OrderCancelView_post now user id db r = (OrderNotCancellable, db, r)).
Proof.
  unfold OrderCancelView_post. split.
  - intros db' r'. destruct (orders db !! id) as [order|]; [|done].
    case_bool_decide as Hu; [|done].
    destruct (cancellable (Order.status order)) eqn:Hc; simpl; [|done].
    intros _. exists order. split; [done|]. split; [done|].
    unfold cancellable in Hc. by apply bool_decide_eq_true in Hc.
  - intros order -> Hu Hs. rewrite bool_decide_eq_true_2 by done.
    destruct (Order.status order); try done;
      exfalso; revert Hs; by apply (bool_decide_eq_false_1 _).
Qed.

Lemma cancelOrder_state_machine_witness :
  OrderCancelView_post date_example 1 1 (db_with_order SHIPPED) rnd_example
  = (OrderNotCancellable, db_with_order SHIPPED, rnd_example).
Proof.
  apply (proj2 (cancelOrder_state_machine date_example 1 1 (db_with_order SHIPPED)
                  rnd_example) (order_example SHIPPED)).
  - reflexivity.
  - reflexivity.
  - set_solver.
Defined.

(** C8.  [cancelOrder] answers not-found both when no order has the given
    id and when the order belongs to someone else; the two answers are the
    same response with the store unchanged, and the response is the one the
    requester would get were the foreign order not stored at all. *)
Theorem cancelOrder_not_found_uniform now user id (db : DB) r :
  (orders db !! id = None →
     OrderCancelView_post now user id db r = (OrderNotFound, db, r)) ∧
  (∀ order, orders db !! id = Some order → Order.user order ≠ Some user →
     OrderCancelView_post now user id db r = (OrderNotFound, db, r) ∧
     (OrderCancelView_post now user id (set_orders (delete id) db) r).1.1
       = OrderNotFound).
Proof.
  unfold OrderCancelView_post. split.
  - by intros ->.
  - intros order Ho Hu. rewrite Ho. rewrite bool_decide_eq_false_2 by done.
    split; [done|]. cbn. by rewrite lookup_delete_eq.
Qed.

Lemma cancelOrder_not_found_uniform_witness :
  OrderCancelView_post date_example 2 5 (db_with_order PENDING) rnd_example
    = (OrderNotFound, db_with_order PENDING, rnd_example) ∧
  OrderCancelView_post date_example 2 1 (db_with_order PENDING) rnd_example
    = (OrderNotFound, db_with_order PENDING, rnd_example).
Proof.
  split.
  - apply (proj1 (cancelOrder_not_found_uniform date_example 2 5
                    (db_with_order PENDING) rnd_example)).
    reflexivity.
  - apply (proj2 (cancelOrder_not_found_uniform date_example 2 1
                    (db_with_order PENDING) rnd_example) (order_example PENDING)).
    + reflexivity.
    + discriminate.
Defined.

(** ** Favorites (C10) *)

Lemma favorite_rows_at_most_one (l : list Favorite.t) u p :
  NoDup ((λ f, (Favorite.user f, Favorite.product f)) <$> l) →
  (length (filter (λ f, Favorite.user f = u ∧ Favorite.product f = p) l) ≤ 1)%nat.
Proof.
  induction l as [|f l IH]; intros Hnd; [simpl; lia|].
  rewrite fmap_cons in Hnd. apply NoDup_cons in Hnd as [Hnotin Hnd].
  rewrite filter_cons. case_decide as Hf; [|by apply IH].
  destruct (filter _ l) as [|g rest] eqn:Hfl; [simpl; lia|].
  exfalso. apply Hnotin.
  assert (g ∈ filter (λ f, Favorite.user f = u ∧ Favorite.product f = p) l) as Hg
    by (rewrite Hfl; left).
  apply list_elem_of_filter in Hg as [[Hgu Hgp] Hgl].
  apply list_elem_of_fmap. exists g. destruct Hf as [-> ->]. by rewrite Hgu, Hgp.
Qed.

Lemma favorite_post_existing user pid (db : DB) p f :
  products db !! pid = Some p → Product.is_active p = true →
  favorite_rows db user pid = [f] →
  FavoriteToggleView_post user pid db = (FavoriteExists, db).
Proof.
  intros Hp Ha Hrows. unfold FavoriteToggleView_post, validate_product_id, get_active_product.
  rewrite Hp, Ha, Hp. unfold Favorite_get_or_create.
  unfold favorite_rows in Hrows. by rewrite Hrows.
Qed.

Lemma favorite_post_new user pid (db : DB) p :
  products db !! pid = Some p → Product.is_active p = true →
  favorite_rows db user pid = [] →
  ∃ db', FavoriteToggleView_post user pid db = (FavoriteAdded, db') ∧
         products db' = products db ∧
         favorites db' = (favorites db ++ [Favorite.mk (next_favorite_id db) user pid])%list.
Proof.
  intros Hp Ha Hrows. unfold FavoriteToggleView_post, validate_product_id, get_active_product.
  rewrite Hp, Ha, Hp. unfold Favorite_get_or_create.
  unfold favorite_rows in Hrows. rewrite Hrows. eexists. split; [done|]. done.
Qed.

Lemma favorite_post_once user pid (db : DB) p :
  favorites_unique db →
  products db !! pid = Some p → Product.is_active p = true →
  ∃ f, favorite_rows (FavoriteToggleView_post user pid db).2 user pid = [f] ∧
       favorites_unique (FavoriteToggleView_post user pid db).2 ∧
       products (FavoriteToggleView_post user pid db).2 = products db.
Proof.
  intros Hu Hp Ha.
  pose proof (favorite_rows_at_most_one (favorites db) user pid Hu) as Hle.
  destruct (favorite_rows db user pid) as [|f rest] eqn:Hrows.
  - destruct (favorite_post_new user pid db p Hp Ha Hrows) as (db' & -> & Hprod & Hfav).
    simpl. exists (Favorite.mk (next_favorite_id db) user pid).
    unfold favorite_rows, favorites_unique in *. rewrite Hfav. split; [|split; [|done]].
    + rewrite filter_app, Hrows. simpl. rewrite filter_cons.
      by rewrite decide_True.
    + rewrite fmap_app. apply NoDup_app. split; [done|]. split; [|apply NoDup_singleton].
      intros k Hk Hk'. apply list_elem_of_singleton in Hk'. subst k. simpl in Hk.
      apply list_elem_of_fmap in Hk as (g & Hg & Hgl).
      assert (g ∈ filter (λ f, Favorite.user f = user ∧ Favorite.product f = pid)
                         (favorites db)) as Hin.
      { apply list_elem_of_filter. split; [|done]. by inversion Hg. }
      rewrite Hrows in Hin. by apply not_elem_of_nil in Hin.
  - unfold favorite_rows in Hrows, Hle. rewrite Hrows in Hle.
    destruct rest; [|simpl in Hle; lia].
    rewrite (favorite_post_existing user pid db p f Hp Ha Hrows). simpl.
    exists f. done.
Qed.

(** C10.  Adding a favorite is idempotent.  For a store that respects the
    uniqueness of (user, product) and an existing active product: after any
    number [S n] of add requests exactly one Favorite row for the pair
    exists, and one more request creates nothing, answers that the favorite
    already exists, and leaves the store unchanged. *)
Theorem favorite_add_idempotent user pid (db : DB) p n :
  favorites_unique db →
  products db !! pid = Some p → Product.is_active p = true →
  let db' := add_favorite_times (S n) user pid db in
  length (favorite_rows db' user pid) = 1%nat ∧
  FavoriteToggleView_post user pid db' = (FavoriteExists, db').
Proof.
  intros Hu Hp Ha.
  assert (∀ m, let d := add_favorite_times (S m) user pid db in
               (∃ f, favorite_rows d user pid = [f]) ∧ favorites_unique d ∧
               products d = products db) as Hall.
  { induction m as [|m IH].
    - destruct (favorite_post_once user pid db p Hu Hp Ha) as (f & Hf & Hu' & Hp').
      split; [by exists f|done].
    - destruct IH as ((f & Hf) & Hu' & Hp').
      set (d := add_favorite_times (S m) user pid db) in *.
      assert (products d !! pid = Some p) as Hpd by (by rewrite Hp').
      change (add_favorite_times (S (S m)) user pid db)
        with (FavoriteToggleView_post user pid d).2.
      cbv zeta. rewrite (favorite_post_existing user pid d p f Hpd Ha Hf). simpl.
      split; [by exists f|done]. }
  destruct (Hall n) as ((f & Hf) & Hu' & Hp'). cbv zeta.
  split; [by rewrite Hf|].
  apply (favorite_post_existing _ _ _ p f); [by rewrite Hp'|done|done].
Qed.

Lemma favorite_add_idempotent_witness :
  length (favorite_rows (add_favorite_times 3 1 7%N db_one_product) 1 7%N) = 1%nat ∧
  FavoriteToggleView_post 1 7%N (add_favorite_times 3 1 7%N db_one_product)
    = (FavoriteExists, add_favorite_times 3 1 7%N db_one_product).
Proof.
  apply (favorite_add_idempotent 1 7%N db_one_product (Product.mk "A" 1000 5 true) 2).
  - apply NoDup_nil_2.
  - reflexivity.
  - reflexivity.
Defined.

(** ** Order creation: the two loops *)

Lemma fold_left_add_costs {A} (f : A → Z) (l : list A) (a : Z) :
  fold_left (λ total x, total + f x) l a = a + sum_Z (map f l).
Proof.
  revert a. induction l as [|x l IH]; intros a; simpl; [lia|].
  rewrite IH. unfold sum_Z. lia.
Qed.

Lemma filter_none {A} (P : A → Prop) `{∀ x, Decision (P x)} (l : list A) :
  Forall (λ x, ¬ P x) l → filter P l = [].
Proof.
  induction 1 as [|x l Hx _ IH]; [done|].
  by rewrite filter_cons, decide_False.
Qed.

Lemma filter_all {A} (P : A → Prop) `{∀ x, Decision (P x)} (l : list A) :
  Forall P l → filter P l = l.
Proof.
  induction 1 as [|x l Hx _ IH]; [done|].
  by rewrite filter_cons, decide_True, IH.
Qed.

(** What the first loop returns: the running total grows by the cost of the
    cart at store prices, and one fetched object per line is appended. *)
Lemma collect_products_spec (db : DB) items total pdata total' pdata' :
  collect_products db items total pdata = inr (total', pdata') →
  ∃ new,
    pdata' = (pdata ++ new)%list ∧
    total' = total + sum_Z (map (line_total db) items) ∧
    data_total new = sum_Z (map (line_total db) items) ∧
    Forall2 (λ item d, products db !! product_id item = Some d.1.2 ∧
                       d.1.1 = product_id item ∧ d.2 = quantity item) items new.
Proof.
  revert total pdata. induction items as [|item items IH]; intros total pdata; simpl.
  - intros [= <- <-]. exists []. rewrite app_nil_r. unfold data_total, sum_Z. simpl.
    repeat split; [lia | constructor].
  - unfold line_total at 1 3.
    destruct (products db !! product_id item) as [p|] eqn:Hp; [|done].
    intros H. apply IH in H as (new & -> & -> & Hdt & Hall).
    exists (((product_id item, p), quantity item) :: new).
    rewrite <- app_assoc. simpl. unfold data_total in *. simpl.
    unfold sum_Z in *. simpl. rewrite Hdt.
    repeat split; [lia | by constructor].
Qed.

Lemma create_line_orders order (db : DB) d :
  orders (create_line order db d) = orders db ∧
  next_order_id (create_line order db d) = next_order_id db.
Proof. by destruct d as [[pid p] q]. Qed.

Lemma fold_create_line_orders order pdata (db : DB) :
  orders (fold_left (create_line order) pdata db) = orders db ∧
  next_order_id (fold_left (create_line order) pdata db) = next_order_id db.
Proof.
  revert db. induction pdata as [|d pdata IH]; intros db; simpl; [done|].
  destruct (IH (create_line order db d)) as [-> ->]. apply create_line_orders.
Qed.

(** The second loop appends one line item per remembered object, all of
    them attached to the order, with the object's price and the quantity. *)
Lemma fold_create_line_items order pdata (db : DB) :
  ∃ new,
    order_items (fold_left (create_line order) pdata db) = (order_items db ++ new)%list ∧
    Forall2 (λ d i, OrderItem.order i = order.1 ∧
                    OrderItem.product i = Some d.1.1 ∧
                    OrderItem.price i = Product.price d.1.2 ∧
                    OrderItem.product_name i = Product.name d.1.2 ∧
                    OrderItem.quantity i = d.2) pdata new.
Proof.
  revert db. induction pdata as [|d pdata IH]; intros db; simpl.
  - exists []. by rewrite app_nil_r.
  - destruct (IH (create_line order db d)) as (new & -> & Hall).
    destruct d as [[pid p] q]. simpl.
    eexists (_ :: new). rewrite <- app_assoc. split; [done|].
    by constructor.
Qed.

Lemma Order_save_insert now o (db : DB) r order db' r' :
  Order_save now None o db r = (inr order, db', r') →
  order.1 = next_order_id db ∧
  orders db' = <[order.1 := order.2]> (orders db) ∧
  products db' = products db ∧ order_items db' = order_items db ∧
  next_item_id db' = next_item_id db ∧
  Order.total_amount order.2 = Order.total_amount o ∧
  Order.user order.2 = Order.user o ∧ Order.status order.2 = Order.status o.
Proof.
  unfold Order_save.
  destruct (if bool_decide (Order.order_number o = "") then _ else _) as [number r1].
  destruct (order_number_taken db None number); [done|].
  intros [= <- <- <-]. done.
Qed.

(** ** The total of a created order (C7) *)

(** C7.  For every successfully created order, [total_amount] is the exact
    sum of price times quantity over the products resolved for the cart
    lines, and equals the sum of [item.price * item.quantity] over the line
    items stored for the order ([Order.get_total]); amounts are integers of
    hundredths, so no rounding takes place. *)
Theorem createOrder_total_amount now user data (db : DB) r order db' r' :
  items_below_sequence db →
  OrderCreateView_post now user data db r = (OrderCreated order, db', r') →
  Order.total_amount order.2 = sum_Z (map (line_total db) (d_items data)) ∧
  Order.total_amount order.2 = Order_get_total db' order.1 ∧
  orders db' !! order.1 = Some order.2.
Proof.
  intros Hseq. unfold OrderCreateView_post, is_valid.
  destruct (run_items_validation db (d_items data)); [done|].
  unfold create.
  destruct (collect_products db (d_items data) 0 []) as [e|[total pdata]] eqn:Hc; [done|].
  destruct (Order_save now None _ db r) as [[[e|order1] db1] r1] eqn:Hs; [done|].
  intros [= <- <- <-].
  apply collect_products_spec in Hc as (new & -> & -> & Hdt & Hall).
  apply Order_save_insert in Hs as (Hid & Hord & Hprod & Hitems & _ & Htot & _).
  simpl in Htot. simpl app.
  destruct (fold_create_line_items order1 new db1) as (items & Hfi & Hfa).
  destruct (fold_create_line_orders order1 new db1) as [Hfo _].
  split; [rewrite Htot; lia|]. split.
  - unfold Order_get_total, order_items_of. rewrite Hfi, filter_app, Hitems.
    assert (filter (λ i, OrderItem.order i = order1.1) (order_items db) = []) as ->.
    { apply filter_none. rewrite Hid. eapply Forall_impl; [exact Hseq|].
      simpl. intros i Hi. lia. }
    assert (filter (λ i, OrderItem.order i = order1.1) items = items) as ->.
    { apply filter_all. clear -Hfa. induction Hfa as [|d i ds is_ [Ho _] _ IH]; by constructor. }
    rewrite fold_left_add_costs. rewrite Htot, <- Hdt. unfold data_total.
    f_equal.
    clear -Hfa. induction Hfa as [|d i ds is_ (_ & _ & Hp & _ & Hq) _ IH]; [done|].
    simpl. unfold sum_Z in *. simpl. rewrite IH. unfold OrderItem.get_cost.
    by rewrite Hp, Hq.
  - rewrite Hfo, Hord. apply lookup_insert_eq.
Qed.

Lemma createOrder_total_amount_witness :
  ∃ order db' r',
    OrderCreateView_post date_example (Some 1)
      (data_example [mkItem 7%N 2; mkItem 7%N 1]) db_one_product rnd_example
    = (OrderCreated order, db', r') ∧
    Order.total_amount order.2 = 3000 ∧ Order_get_total db' order.1 = 3000.
Proof.
  do 3 eexists. split; [reflexivity|].
  match goal with
  | |- Order.total_amount (?o).2 = _ ∧ Order_get_total ?d _ = _ =>
      destruct (createOrder_total_amount date_example (Some 1)
                  (data_example [mkItem 7%N 2; mkItem 7%N 1]) db_one_product
                  rnd_example o d _ (Forall_nil_2 _) eq_refl) as (H1 & H2 & _)
  end.
  split; [exact H1 | by rewrite <- H2].
Defined.

(** ** Stock never goes negative (C2) *)

Lemma Order_save_tables now pk o (db : DB) r :
  products (Order_save now pk o db r).1.2 = products db ∧
  order_items (Order_save now pk o db r).1.2 = order_items db.
Proof.
  unfold Order_save.
  destruct (if bool_decide (Order.order_number o = "") then _ else _) as [number r1].
  destruct pk as [k|].
  - by destruct (order_number_taken db (Some k) number).
  - by destruct (order_number_taken db None number).
Qed.

(** A cart that passed [is_valid]: every line names an active product with
    enough stock and asks for at least one unit. *)
Lemma is_valid_lines (db : DB) data validated :
  is_valid db data = inr validated →
  validated = data ∧
  Forall (λ item, 1 ≤ quantity item ∧
                  ∃ p, products db !! product_id item = Some p ∧
                       Product.is_active p = true ∧ quantity item ≤ Product.stock p)
         (d_items data).
Proof.
  unfold is_valid, run_items_validation.
  destruct (any_nonempty _) eqn:Hany; [done|].
  rewrite validate_items_refines.
  destruct (spec_validate db (d_items data)) eqn:Hsv; [|done].
  intros [= <-]. split; [done|].
  unfold spec_validate in Hsv. destruct (d_items data) as [|i0 rest] eqn:Hitems; [done|].
  rewrite <- Hitems in *. clear Hitems.
  apply Forall_forall. intros item Hin.
  split.
  - unfold any_nonempty in Hany.
    destruct (decide (1 ≤ quantity item)) as [|Hq]; [done|]. exfalso.
    assert (existsb (λ d : list (string * list FieldMessage),
                       match d with [] => false | _ => true end)
                    (map (item_errors db) (d_items data)) = true) as Ht; [|congruence].
    apply existsb_exists. exists (item_errors db item). split.
    + apply in_map, list_elem_of_In, Hin.
    + assert ((quantity item <? 1) = true) as Hlt by (apply Z.ltb_lt; lia).
      unfold item_errors, validate_quantity. rewrite Hlt.
      by destruct (validate_product_id db (product_id item)).
  - assert (spec_line_errors db item = []) as Hline.
    { apply list_elem_of_In in Hin.
      destruct (spec_line_errors db item) as [|e es] eqn:He; [done|]. exfalso.
      assert (In e (flat_map (spec_line_errors db) (d_items data))) as Hf.
      { apply in_flat_map. exists item. split; [done|]. rewrite He. by left. }
      by rewrite Hsv in Hf. }
    unfold spec_line_errors, get_active_product in Hline.
    destruct (products db !! product_id item) as [p|]; [|done].
    destruct (Product.is_active p) eqn:Ha; [|done].
    destruct (Product.stock p <? quantity item) eqn:Hlt; [done|].
    exists p. apply Z.ltb_ge in Hlt. done.
Qed.

Lemma create_line_nonneg order (db : DB) d :
  stock_nonneg db → d.2 ≤ Product.stock d.1.2 →
  stock_nonneg (create_line order db d).
Proof.
  destruct d as [[pid p] q]. unfold stock_nonneg. simpl. intros Hn Hq.
  apply map_Forall_insert_2; [simpl; lia|done].
Qed.

Lemma fold_create_line_nonneg order pdata (db : DB) :
  stock_nonneg db → Forall (λ d, d.2 ≤ Product.stock d.1.2) pdata →
  stock_nonneg (fold_left (create_line order) pdata db).
Proof.
  revert db. induction pdata as [|d pdata IH]; intros db Hn Hall; simpl; [done|].
  apply Forall_cons in Hall as [Hd Hall].
  apply IH; [by apply create_line_nonneg|done].
Qed.

Lemma restock_nonneg items (db : DB) :
  stock_nonneg db → Forall (λ i, 0 ≤ OrderItem.quantity i) items →
  stock_nonneg (restock items db).2 ∧
  order_items (restock items db).2 = order_items db ∧
  orders (restock items db).2 = orders db.
Proof.
  revert db. induction items as [|item items IH]; intros db Hn Hall; simpl; [done|].
  apply Forall_cons in Hall as [Hq Hall].
  destruct (OrderItem.product item) as [pid|]; [|by apply IH].
  destruct (products db !! pid) as [p|] eqn:Hp; [|done].
  destruct (stock_max <? _); [done|].
  set (db1 := Product_save
                (pid, Product.with_stock (Product.stock p + OrderItem.quantity item) p) db).
  assert (stock_nonneg db1) as Hn1.
  { unfold stock_nonneg, db1, Product_save. simpl.
    apply map_Forall_insert_2; [|done]. simpl.
    specialize (Hn pid p Hp). simpl in Hn. lia. }
  destruct (IH db1 Hn1 Hall) as (H1 & H2 & H3). by rewrite H2, H3.
Qed.

Lemma order_items_of_quantities (db : DB) id :
  quantities_positive db → Forall (λ i, 0 ≤ OrderItem.quantity i) (order_items_of db id).
Proof.
  intros Hq. unfold order_items_of. apply Forall_forall. intros i Hi.
  apply list_elem_of_filter in Hi as [_ Hi].
  unfold quantities_positive in Hq. rewrite Forall_forall in Hq.
  specialize (Hq i Hi). lia.
Qed.

Lemma collected_within_stock (db : DB) data validated total pdata :
  is_valid db data = inr validated →
  collect_products db (d_items data) 0 [] = inr (total, pdata) →
  Forall (λ d, 1 ≤ d.2 ∧ d.2 ≤ Product.stock d.1.2) pdata.
Proof.
  intros Hv Hc. apply is_valid_lines in Hv as [_ Hlines].
  apply collect_products_spec in Hc as (new & -> & _ & _ & Hall). simpl.
  induction Hall as [|item d items ds (Hp & _ & Hq) _ IH]; [constructor|].
  apply Forall_cons in Hlines as [(Hq1 & p & Hp' & _ & Hs) Hlines].
  constructor; [|by apply IH].
  rewrite Hp in Hp'. injection Hp' as <-. rewrite Hq. done.
Qed.

(** C2.  In a store whose stocks are non-negative (and whose line items
    have positive quantities), neither [createOrder], for any request at
    all, nor [cancelOrder] produces a negative stock: the store they leave
    satisfies the invariant again, and so does the store after each single
    write of the two loops (the writes of the first [k] lines, for every
    [k]).  Carts naming a product on several lines are included: each line
    writes the stock read before the loop minus its own quantity. *)
Theorem stock_never_negative (db : DB) :
  stock_nonneg db → quantities_positive db →
  (∀ now user data r,
     stock_nonneg (OrderCreateView_post now user data db r).1.2 ∧
     quantities_positive (OrderCreateView_post now user data db r).1.2) ∧
  (∀ data validated total pdata order db1 k,
     is_valid db data = inr validated →
     collect_products db (d_items data) 0 [] = inr (total, pdata) →
     products db1 = products db →
     stock_nonneg (fold_left (create_line order) (take k pdata) db1)) ∧
  (∀ now user id r,
     stock_nonneg (OrderCancelView_post now user id db r).1.2 ∧
     quantities_positive (OrderCancelView_post now user id db r).1.2) ∧
  (∀ id k, stock_nonneg (restock (take k (order_items_of db id)) db).2).
Proof.
  intros Hn Hq. split; [|split; [|split]].
  - intros now user data r. unfold OrderCreateView_post.
    destruct (is_valid db data) as [e|validated] eqn:Hv; [done|].
    destruct (is_valid_lines _ _ _ Hv) as [-> _].
    unfold create.
    destruct (collect_products db (d_items data) 0 []) as [e|[total pdata]] eqn:Hc; [done|].
    pose proof (collected_within_stock _ _ _ _ _ Hv Hc) as Hall.
    pose proof (Order_save_tables now None
                  (Order.mk "" user (d_first_name data) (d_last_name data)
                     (d_phone data) (d_email data) (d_address data) PENDING total
                     (d_note data)) db r) as [Hp Hi].
    destruct (Order_save now None _ db r) as [[[e|order] db1] r1]; simpl in *.
    + unfold stock_nonneg, quantities_positive. by rewrite Hp, Hi.
    + split.
      * apply fold_create_line_nonneg; [unfold stock_nonneg; by rewrite Hp|].
        eapply Forall_impl; [exact Hall|]. simpl. by intros d [_ ?].
      * unfold quantities_positive.
        destruct (fold_create_line_items order pdata db1) as (new & -> & Hnew).
        apply Forall_app. split; [by rewrite Hi|].
        clear -Hnew Hall. induction Hnew as [|d i ds is_ (_ & _ & _ & _ & Hqi) _ IH];
          [constructor|].
        apply Forall_cons in Hall as [[Hd _] Hall].
        constructor; [by rewrite Hqi|by apply IH].
  - intros data validated total pdata order db1 k Hv Hc Hp.
    apply fold_create_line_nonneg; [unfold stock_nonneg; by rewrite Hp|].
    apply Forall_take. eapply Forall_impl; [exact (collected_within_stock _ _ _ _ _ Hv Hc)|].
    simpl. by intros d [_ ?].
  - intros now user id r. unfold OrderCancelView_post.
    destruct (orders db !! id) as [order|]; [|done].
    case_bool_decide; [|done].
    destruct (negb (cancellable (Order.status order))); [done|].
    destruct (restock_nonneg (order_items_of db id) db Hn
                (order_items_of_quantities db id Hq)) as (Hn1 & Hi1 & _).
    destruct (restock (order_items_of db id) db) as [[e|] db1]; simpl in *.
    + unfold quantities_positive. by rewrite Hi1.
    + pose proof (Order_save_tables now (Some id) (Order.with_status CANCELLED order)
                    db1 r) as [Hp Hi].
      destruct (Order_save now (Some id) _ db1 r) as [[[e|o] db2] r2]; simpl in *;
        unfold stock_nonneg, quantities_positive; by rewrite Hp, Hi, Hi1.
  - intros id k. apply restock_nonneg; [done|].
    apply Forall_take, order_items_of_quantities, Hq.
Qed.

Lemma stock_never_negative_witness :
  stock_nonneg
    (OrderCreateView_post date_example (Some 1)
       (data_example [mkItem 7%N 3; mkItem 7%N 3]) db_one_product rnd_example).1.2 ∧
  stock_nonneg
    (OrderCancelView_post date_example 1 1 (db_with_order PENDING) rnd_example).1.2.
Proof.
  assert (stock_nonneg db_one_product) as H1
    by (apply map_Forall_insert_2; [simpl; lia | apply map_Forall_empty]).
  assert (stock_nonneg (db_with_order PENDING)) as H2
    by (apply map_Forall_insert_2; [simpl; lia | apply map_Forall_empty]).
  assert (quantities_positive (db_with_order PENDING)) as H3
    by (repeat constructor; simpl; lia).
  split.
  - apply (proj1 (stock_never_negative db_one_product H1 (Forall_nil_2 _))).
  - apply (proj1 (proj2 (proj2 (stock_never_negative (db_with_order PENDING) H2 H3)))).
Defined.

(** ** Order numbers (C4) *)

Lemma is_digit_digit n : is_digit (digit n) = true.
Proof.
  unfold digit. pose proof (Z.mod_pos_bound n 10 ltac:(lia)) as Hb.
  assert (n mod 10 = 0 ∨ n mod 10 = 1 ∨ n mod 10 = 2 ∨ n mod 10 = 3 ∨ n mod 10 = 4 ∨
          n mod 10 = 5 ∨ n mod 10 = 6 ∨ n mod 10 = 7 ∨ n mod 10 = 8 ∨ n mod 10 = 9)
    as Hc by lia.
  repeat (destruct Hc as [-> | Hc]; [reflexivity|]). by rewrite Hc.
Qed.

Lemma literal_then_append lit k s : literal_then lit k (lit +:+ s) = k s.
Proof.
  induction lit as [|c lit IH]; simpl; [done|].
  by rewrite bool_decide_eq_true_2, IH.
Qed.

Lemma digits_then_append s k t :
  all_digits s = true → digits_then (String.length s) k (s +:+ t) = k t.
Proof.
  induction s as [|c s IH]; simpl; [done|].
  intros [Hc Hs]%andb_prop. by rewrite Hc, IH.
Qed.

Lemma strftime_Ymd_digits t :
  all_digits (strftime_Ymd t) = true ∧ String.length (strftime_Ymd t) = 8%nat.
Proof. unfold strftime_Ymd. simpl. by rewrite !is_digit_digit. Qed.

Lemma random_digits_digits n r :
  all_digits (random_digits n r).1 = true ∧ String.length (random_digits n r).1 = n.
Proof.
  revert r. induction n as [|n IH]; intros r; [done|].
  cbn [random_digits]. unfold randint.
  destruct (IH (mkRandom (source r) (S (drawn r)))) as [Ha Hl].
  destruct (random_digits n _) as [s r2]. simpl in *.
  change ("" +:+ s) with s.
  by rewrite is_digit_digit, Ha, Hl.
Qed.

Lemma generate_order_number_eq now r :
  (generate_order_number now r).1 =
  "NS-" +:+ strftime_Ymd now +:+ "-" +:+ (random_digits 4 r).1.
Proof. unfold generate_order_number. by destruct (random_digits 4 r). Qed.

Lemma append_empty_r s : s +:+ "" = s.
Proof.
  induction s as [|c s IH]; [done|].
  change (String c (s +:+ "") = String c s). by rewrite IH.
Qed.

Lemma generated_number_format now r :
  matches_NS_date_dash_random (generate_order_number now r).1 = true ∧
  matches_NS_date_random (generate_order_number now r).1 = false.
Proof.
  rewrite generate_order_number_eq.
  destruct (strftime_Ymd_digits now) as [Hd Hdl].
  destruct (random_digits_digits 4 r) as [Hr Hrl].
  unfold matches_NS_date_dash_random, matches_NS_date_random.
  rewrite !literal_then_append. rewrite <- Hdl at 1 2.
  rewrite !digits_then_append by done. split.
  - rewrite literal_then_append.
    rewrite <- (append_empty_r (random_digits 4 r).1), <- Hrl at 1.
    by rewrite digits_then_append.
  - reflexivity.
Qed.

Lemma unique_order_numbers_ext (db db' : DB) :
  orders db' = orders db → unique_order_numbers db → unique_order_numbers db'.
Proof. unfold unique_order_numbers. by intros ->. Qed.

Lemma unique_order_numbers_insert (db db' : DB) self k row :
  unique_order_numbers db →
  orders db' = <[k := row]> (orders db) →
  order_number_taken db self (Order.order_number row) = false →
  self = None ∨ self = Some k →
  unique_order_numbers db'.
Proof.
  intros Hu Hord Htaken Hself k1 k2 o1 o2. rewrite Hord.
  unfold order_number_taken in Htaken. apply bool_decide_eq_false in Htaken.
  assert (∀ j o, j ≠ k → orders db !! j = Some o →
                 Order.order_number o ≠ Order.order_number row) as Hfresh.
  { intros j o Hj Ho Heq. apply Htaken. exists j, o. split; [done|]. split; [|done].
    destruct Hself as [-> | ->]; congruence. }
  intros [[<- <-] | [Hk1 H1]]%lookup_insert_Some [[<- <-] | [Hk2 H2]]%lookup_insert_Some Heq.
  - done.
  - exfalso. by apply (Hfresh k2 o2).
  - exfalso. by apply (Hfresh k1 o1).
  - by apply (Hu k1 k2 o1 o2).
Qed.

Lemma Order_save_unique now pk o (db : DB) r :
  unique_order_numbers db → unique_order_numbers (Order_save now pk o db r).1.2.
Proof.
  intros Hu. unfold Order_save.
  destruct (if bool_decide (Order.order_number o = "") then _ else _) as [number r1].
  destruct pk as [k|].
  - destruct (order_number_taken db (Some k) number) eqn:Ht; [done|]. simpl.
    eapply (unique_order_numbers_insert db _ (Some k) k); [done|done|done|by right].
  - destruct (order_number_taken db None number) eqn:Ht; simpl.
    + by apply (unique_order_numbers_ext db).
    + eapply (unique_order_numbers_insert db _ None); [done|done|done|by left].
Qed.

Lemma restock_orders_same items (db : DB) :
  orders (restock items db).2 = orders db ∧
  order_items (restock items db).2 = order_items db.
Proof.
  revert db. induction items as [|item items IH]; intros db; simpl; [done|].
  destruct (OrderItem.product item) as [pid|]; [|apply IH].
  destruct (products db !! pid) as [p|]; [|done].
  destruct (stock_max <? _); [done|].
  destruct (IH (Product_save
                  (pid, Product.with_stock (Product.stock p + OrderItem.quantity item) p)
                  db)) as [-> ->]. done.
Qed.

Lemma collect_products_total (db : DB) items total pdata :
  Forall (λ item, is_Some (products db !! product_id item)) items →
  ∃ res, collect_products db items total pdata = inr res.
Proof.
  revert total pdata. induction items as [|item items IH]; intros total pdata Hall; simpl.
  - by eexists.
  - apply Forall_cons in Hall as [[p Hp] Hall]. rewrite Hp. by apply IH.
Qed.

Lemma Order_save_new now o (db : DB) r :
  Order.order_number o = "" →
  Order_save now None o db r =
  let number := (generate_order_number now r).1 in
  let r' := (generate_order_number now r).2 in
  let db1 := set_next_order_id (next_order_id db + 1) db in
  if order_number_taken db None number then (inl IntegrityError, db1, r')
  else (inr (next_order_id db, Order.with_order_number number o),
        set_orders (insert (next_order_id db) (Order.with_order_number number o)) db1, r').
Proof.
  intros Ho. unfold Order_save. rewrite bool_decide_eq_true_2 by done.
  by destruct (generate_order_number now r).
Qed.

(** C4, counterexample.  The first order created in the one-product store on
    2024-03-07 gets the number [NS-20240307-3456]: a hyphen separates the date
    from the random digits, so the number does not match [NS-\\d{8}\\d{4}].
    A second request on the same day that draws the same four digits is not
    given another number: it ends in an integrity error. *)
Lemma order_number_hyphen_and_no_regeneration :
  (∃ o db' r',
     OrderCreateView_post date_example None (data_example [mkItem 7%N 1])
       db_one_product rnd_example = (OrderCreated (1, o), db', r') ∧
     Order.order_number o = "NS-20240307-3456" ∧
     matches_NS_date_random (Order.order_number o) = false ∧
     (OrderCreateView_post date_example None (data_example [mkItem 7%N 1])
        db' rnd_example).1.1 = Unhandled IntegrityError).
Proof. do 3 eexists. split; [reflexivity|]. repeat split; reflexivity. Qed.

(** C4, as amended.  Every created order's number is
    [NS-<YYYYMMDD>-<4 random digits>], matching [NS-\\d{8}-\\d{4}] and not
    [NS-\\d{8}\\d{4}], with the date of creation, and it is held by no order
    stored before.  A generated number that is already stored is not
    regenerated: the request ends in an integrity error and no order row,
    line item or stock is written.  So order numbers stay unique over all
    stored orders, across [createOrder] and [cancelOrder]. *)
Theorem order_number_format_and_uniqueness now user data (db : DB) r :
  valid_date now →
  (∀ order db' r',
     OrderCreateView_post now user data db r = (OrderCreated order, db', r') →
     Order.order_number order.2
       = "NS-" +:+ strftime_Ymd now +:+ "-" +:+ (random_digits 4 r).1 ∧
     matches_NS_date_dash_random (Order.order_number order.2) = true ∧
     matches_NS_date_random (Order.order_number order.2) = false ∧
     order_number_taken db None (Order.order_number order.2) = false) ∧
  (∀ validated,
     is_valid db data = inr validated →
     order_number_taken db None (generate_order_number now r).1 = true →
     (OrderCreateView_post now user data db r).1.1 = Unhandled IntegrityError ∧
     orders (OrderCreateView_post now user data db r).1.2 = orders db ∧
     products (OrderCreateView_post now user data db r).1.2 = products db ∧
     order_items (OrderCreateView_post now user data db r).1.2 = order_items db) ∧
  (unique_order_numbers db →
     unique_order_numbers (OrderCreateView_post now user data db r).1.2 ∧
     ∀ requester id,
       unique_order_numbers (OrderCancelView_post now requester id db r).1.2).
Proof.
  intros _. split; [|split].
  - intros order db' r'. unfold OrderCreateView_post.
    destruct (is_valid db data) as [e|validated]; [done|]. unfold create.
    destruct (collect_products db (d_items validated) 0 []) as [e|[total pdata]]; [done|].
    rewrite Order_save_new by done. cbv zeta.
    destruct (order_number_taken db None (generate_order_number now r).1) eqn:Ht; [done|].
    intros Heq.
    assert (Order.order_number order.2 = (generate_order_number now r).1) as ->
      by (by injection Heq as <- _ _).
    destruct (generated_number_format now r) as [Hf1 Hf2].
    split; [apply generate_order_number_eq|done].
  - intros validated Hv Ht. unfold OrderCreateView_post. rewrite Hv.
    destruct (is_valid_lines _ _ _ Hv) as [-> Hlines]. unfold create.
    destruct (collect_products_total db (d_items data) 0 []) as [[total pdata] ->].
    { eapply Forall_impl; [exact Hlines|]. simpl. intros item (_ & p & Hp & _). by exists p. }
    rewrite Order_save_new by done. cbv zeta. by rewrite Ht.
  - intros Hu. split.
    + unfold OrderCreateView_post.
      destruct (is_valid db data) as [e|validated]; [done|]. unfold create.
      destruct (collect_products db (d_items validated) 0 []) as [e|[total pdata]]; [done|].
      pose proof (Order_save_unique now None
                    (Order.mk "" user (d_first_name validated) (d_last_name validated)
                       (d_phone validated) (d_email validated) (d_address validated)
                       PENDING total (d_note validated)) db r Hu) as Hu1.
      destruct (Order_save now None _ db r) as [[[e|order] db1] r1]; simpl in *; [done|].
      eapply unique_order_numbers_ext; [|exact Hu1].
      apply fold_create_line_orders.
    + intros requester id. unfold OrderCancelView_post.
      destruct (orders db !! id) as [order|]; [|done].
      case_bool_decide; [|done].
      destruct (negb (cancellable (Order.status order))); [done|].
      destruct (restock_orders_same (order_items_of db id) db) as [Ho _].
      destruct (restock (order_items_of db id) db) as [[e|] db1]; simpl in *.
      * by apply (unique_order_numbers_ext db).
      * pose proof (Order_save_unique now (Some id) (Order.with_status CANCELLED order)
                      db1 r (unique_order_numbers_ext db db1 Ho Hu)) as Hu2.
        by destruct (Order_save now (Some id) _ db1 r) as [[[e|o] db2] r2].
Qed.

Lemma order_number_format_and_uniqueness_witness :
  valid_date date_example ∧
  ∃ order db' r',
    OrderCreateView_post date_example None (data_example [mkItem 7%N 1])
      db_one_product rnd_example = (OrderCreated order, db', r') ∧
    matches_NS_date_dash_random (Order.order_number order.2) = true.
Proof.
  assert (valid_date date_example) as Hd by (unfold valid_date; simpl; lia).
  split; [exact Hd|]. do 3 eexists. split; [reflexivity|].
  match goal with
  | |- matches_NS_date_dash_random (Order.order_number (?o).2) = true =>
      destruct (proj1 (order_number_format_and_uniqueness date_example None
                         (data_example [mkItem 7%N 1]) db_one_product rnd_example Hd)
                  o _ _ eq_refl) as (_ & H & _)
  end.
  exact H.
Defined.

(** ** Status assignments (C6) *)

Lemma queryset_update_status_lookup selected s (db : DB) k :
  orders (queryset_update_status selected s db) !! k =
  (λ o, if bool_decide (k ∈ selected) then Order.with_status s o else o)
    <$> orders db !! k.
Proof.
  unfold queryset_update_status. simpl. rewrite map_lookup_imap.
  by destruct (orders db !! k).
Qed.

(** C6, counterexample.  The administrative actions assign without looking
    at the current status: [mark_confirmed] takes a delivered order and a
    cancelled order to confirmed, and [mark_cancelled] takes a shipped order
    to cancelled. *)
Lemma admin_actions_ignore_status :
  Order.status <$> orders (mark_confirmed {[1]} (db_with_order DELIVERED)) !! 1
    = Some CONFIRMED ∧
  Order.status <$> orders (mark_confirmed {[1]} (db_with_order CANCELLED)) !! 1
    = Some CONFIRMED ∧
  Order.status <$> orders (mark_cancelled {[1]} (db_with_order SHIPPED)).2 !! 1
    = Some CANCELLED.
Proof. repeat split; vm_compute; reflexivity. Qed.

(** C6, as amended.  The requester-facing [cancelOrder] changes the status
    of no order other than the one named, and changes that one only from
    pending or confirmed, only to cancelled.  The administrative actions
    [mark_confirmed], [mark_processing], [mark_shipped] and [mark_delivered]
    assign their status to every selected order whatever its current status,
    delivered and cancelled included. *)
Theorem status_assignments (db : DB) :
  (∀ now user id r k o o',
     orders db !! k = Some o →
     orders (OrderCancelView_post now user id db r).1.2 !! k = Some o' →
     Order.status o' ≠ Order.status o →
     k = id ∧ Order.status o ∈ [PENDING; CONFIRMED] ∧ Order.status o' = CANCELLED) ∧
  (∀ action s,
     (action, s) ∈ [(mark_confirmed, CONFIRMED); (mark_processing, PROCESSING);
                    (mark_shipped, SHIPPED); (mark_delivered, DELIVERED)] →
     ∀ (selected : gset Z) k o,
       k ∈ selected → orders db !! k = Some o →
       orders (action selected db) !! k = Some (Order.with_status s o)).
Proof.
  split.
  - intros now user id r k o o' Ho. unfold OrderCancelView_post.
    destruct (orders db !! id) as [order|] eqn:Hid; [|simpl; congruence].
    case_bool_decide; [|simpl; congruence].
    destruct (cancellable (Order.status order)) eqn:Hc; simpl; [|congruence].
    destruct (restock_orders_same (order_items_of db id) db) as [Hsame _].
    destruct (restock (order_items_of db id) db) as [[e|] db1]; simpl in *;
      [rewrite Hsame; congruence|].
    unfold Order_save.
    destruct (if bool_decide _ then _ else _) as [number r1] eqn:Hnum.
    destruct (order_number_taken db1 (Some id) number); simpl;
      [rewrite Hsame; congruence|].
    rewrite Hsame. intros [[<- <-] | [Hk Ho']]%lookup_insert_Some Hne; [|congruence].
    rewrite Hid in Ho. injection Ho as <-. split; [done|].
    unfold cancellable in Hc. apply bool_decide_eq_true in Hc. done.
  - intros action s Hin selected k o Hk Ho.
    assert (action = λ sel d, queryset_update_status sel s d) as ->.
    { repeat (apply elem_of_cons in Hin as [[= -> ->] | Hin]; [done|]).
      by apply not_elem_of_nil in Hin. }
    rewrite queryset_update_status_lookup, Ho. simpl.
    by rewrite bool_decide_eq_true_2.
Qed.

Lemma status_assignments_witness :
  orders (mark_delivered {[1]} (db_with_order CANCELLED)) !! 1
    = Some (Order.with_status DELIVERED (order_example CANCELLED)) ∧
  Order.status (order_example PENDING) ∈ [PENDING; CONFIRMED].
Proof.
  split.
  - apply (proj2 (status_assignments (db_with_order CANCELLED)) mark_delivered DELIVERED).
    + do 3 right. left.
    + by apply elem_of_singleton.
    + reflexivity.
  - apply (proj1 (status_assignments (db_with_order PENDING)) date_example 1 1
             rnd_example 1 (order_example PENDING) (order_example CANCELLED)).
    + reflexivity.
    + reflexivity.
    + discriminate.
Defined.

(** ** Accounts: one profile per created user (C9) *)

(** The two receivers after the insertion of user [k]: exactly one profile
    row is appended, and it references [k]. *)
Lemma send_post_save_created (db : DB) k :
  Forall (λ p, Profile.user p ≠ k ∧ Profile.id p ≠ next_profile_id db) (profiles db) →
  ∃ db', send post_save_User k true db = (None, db') ∧
         users db' = users db ∧
         profiles db' = (profiles db ++ [Profile.mk (next_profile_id db) k ""])%list ∧
         next_profile_id db' = next_profile_id db + 1 ∧
         next_user_id db' = next_user_id db.
Proof.
  intros Hall. simpl. unfold create_user_profile, Profile_create.
  rewrite bool_decide_eq_false_2.
  2:{ intros (p & Hp & Hpk)%Exists_exists. rewrite Forall_forall in Hall.
      by destruct (Hall p Hp). }
  unfold save_user_profile, profile_of. simpl.
  rewrite filter_app, (filter_none _ (profiles db)).
  2:{ eapply Forall_impl; [exact Hall|]. simpl. by intros p [? _]. }
  rewrite filter_cons, decide_True by done. simpl.
  eexists. split; [reflexivity|]. simpl. repeat split.
  rewrite map_app. simpl. rewrite bool_decide_eq_true_2 by done. f_equal.
  rewrite <- (map_id (profiles db)) at 2. apply map_ext_in.
  intros p Hp%list_elem_of_In. rewrite bool_decide_eq_false_2; [done|].
  rewrite Forall_forall in Hall. by destruct (Hall p Hp).
Qed.

Lemma create_user_spec u (db : DB) :
  accounts_consistent db →
  (∀ e db', create_user u db = (inl e, db') →
            users db' = users db ∧ profiles db' = profiles db) ∧
  (∀ k db', create_user u db = (inr k, db') →
            k = next_user_id db ∧
            users db' = <[k := u]> (users db) ∧
            profiles db' = (profiles db ++ [Profile.mk (next_profile_id db) k ""])%list ∧
            next_user_id db' = k + 1 ∧ next_profile_id db' = next_profile_id db + 1).
Proof.
  intros Hc. unfold create_user.
  case_bool_decide as Htaken; [split; [by intros e db' [= <- <-]|done]|].
  destruct (send_post_save_created
              (set_users (insert (next_user_id db) u) (next_user_id db + 1) db)
              (next_user_id db)) as (db1 & -> & Hu & Hp & Hnp & Hnu).
  { simpl. eapply Forall_impl; [exact Hc|]. simpl. intros p [? ?]. lia. }
  split; [done|]. intros k db' [= <- <-]. by rewrite Hu, Hp, Hnp, Hnu.
Qed.

Lemma consistent_fresh (db : DB) :
  accounts_consistent db →
  Forall (λ p, Profile.user p ≠ next_user_id db ∧ Profile.id p ≠ next_profile_id db)
         (profiles db).
Proof. intros Hc. eapply Forall_impl; [exact Hc|]. simpl. intros p [? ?]. lia. Qed.

Lemma create_user_frame u (db : DB) :
  products (create_user u db).2 = products db ∧
  orders (create_user u db).2 = orders db ∧
  order_items (create_user u db).2 = order_items db ∧
  favorites (create_user u db).2 = favorites db.
Proof.
  unfold create_user. case_bool_decide; [done|].
  simpl. unfold create_user_profile, Profile_create.
  case_bool_decide; simpl; [done|].
  unfold save_user_profile. by destruct (profile_of _ _).
Qed.

Lemma create_user_taken u (db : DB) e db' :
  accounts_consistent db → create_user u db = (inl e, db') →
  e = IntegrityError ∧
  map_Exists (λ _ v, User.username v = User.username u) (users db).
Proof.
  intros Hc. unfold create_user. case_bool_decide as Ht; [by intros [= <- <-]|].
  destruct (send_post_save_created
              (set_users (insert (next_user_id db) u) (next_user_id db + 1) db)
              (next_user_id db)) as (db1 & -> & _).
  { simpl. eapply Forall_impl; [exact Hc|]. simpl. intros p [? ?]. lia. }
  done.
Qed.

Lemma create_user_free u (db : DB) k db' :
  create_user u db = (inr k, db') →
  ¬ map_Exists (λ _ v, User.username v = User.username u) (users db).
Proof. unfold create_user. by case_bool_decide. Qed.

(** The tables after [RegisterSerializer.create], outcome by outcome. *)
Lemma RegisterSerializer_create_tables data (db : DB) :
  accounts_consistent db →
  products (RegisterSerializer_create data db).2 = products db ∧
  orders (RegisterSerializer_create data db).2 = orders db ∧
  order_items (RegisterSerializer_create data db).2 = order_items db ∧
  favorites (RegisterSerializer_create data db).2 = favorites db ∧
  match (RegisterSerializer_create data db).1 with
  | inl e =>
      (e = IntegrityError ∧
       map_Exists (λ _ v, User.username v = g_username data) (users db) ∧
       users (RegisterSerializer_create data db).2 = users db ∧
       profiles (RegisterSerializer_create data db).2 = profiles db) ∨
      (e = DataError ∧ (phone_max_length < utf8_length (g_phone data))%nat ∧
       ¬ map_Exists (λ _ v, User.username v = g_username data) (users db) ∧
       users (RegisterSerializer_create data db).2
         = <[next_user_id db :=
               User.mk (g_username data) (g_email data) (g_first_name data)
                       (g_last_name data) false]> (users db) ∧
       profiles (RegisterSerializer_create data db).2
         = (profiles db ++ [Profile.mk (next_profile_id db) (next_user_id db) ""])%list)
  | inr k =>
      k = next_user_id db ∧
      users (RegisterSerializer_create data db).2
        = <[k := User.mk (g_username data) (g_email data) (g_first_name data)
                         (g_last_name data) false]> (users db) ∧
      profiles (RegisterSerializer_create data db).2
        = (profiles db ++ [Profile.mk (next_profile_id db) k (g_phone data)])%list ∧
      next_profile_id (RegisterSerializer_create data db).2 = next_profile_id db + 1 ∧
      (utf8_length (g_phone data) ≤ phone_max_length)%nat ∧
      ¬ map_Exists (λ _ v, User.username v = g_username data) (users db)
  end.
Proof.
  intros Hc. unfold RegisterSerializer_create.
  set (u := User.mk _ _ _ _ _).
  destruct (create_user_frame u db) as (Hpr & Ho & Hi & Hf).
  pose proof (create_user_spec u db Hc) as [Hfail Hok].
  destruct (create_user u db) as [[e|k] db1] eqn:Hcu; simpl in Hpr, Ho, Hi, Hf.
  - simpl. destruct (Hfail e db1 eq_refl) as [Hu Hp].
    destruct (create_user_taken u db e db1 Hc Hcu) as [-> Ht].
    refine (conj Hpr (conj Ho (conj Hi (conj Hf _)))). left. done.
  - destruct (Hok k db1 eq_refl) as (-> & Hu & Hp & _ & Hnp).
    pose proof (create_user_free u db _ _ Hcu) as Hfree.
    assert (profile_of db1 (next_user_id db)
            = Some (Profile.mk (next_profile_id db) (next_user_id db) "")) as Hpo.
    { unfold profile_of. rewrite Hp, filter_app, (filter_none _ (profiles db)).
      - by rewrite filter_cons, decide_True.
      - eapply Forall_impl; [exact (consistent_fresh db Hc)|]. simpl. by intros p [? _]. }
    rewrite Hpo. destruct (phone_max_length <? utf8_length (g_phone data))%nat eqn:Hlen.
    + apply Nat.ltb_lt in Hlen. simpl.
      refine (conj Hpr (conj Ho (conj Hi (conj Hf _)))). right. done.
    + apply Nat.ltb_ge in Hlen. simpl. rewrite Hp, map_app. simpl.
      rewrite bool_decide_eq_true_2 by done.
      repeat split; try done. f_equal.
      rewrite <- (map_id (profiles db)) at 2. apply map_ext_in.
      intros q Hq%list_elem_of_In. rewrite bool_decide_eq_false_2; [done|].
      pose proof (consistent_fresh db Hc) as Hfresh. rewrite Forall_forall in Hfresh.
      by destruct (Hfresh q Hq).
Qed.

Lemma profiles_of_user_appended (db db' : DB) p :
  accounts_consistent db → Profile.user p = next_user_id db →
  profiles db' = (profiles db ++ [p])%list →
  profiles_of_user db' (next_user_id db) = [p].
Proof.
  intros Hc Hp Heq. unfold profiles_of_user.
  rewrite Heq, filter_app, (filter_none _ (profiles db)).
  - by rewrite filter_cons, decide_True.
  - eapply Forall_impl; [exact (consistent_fresh db Hc)|]. simpl. by intros q [? _].
Qed.




(** ** Conservation of stock over create and cancel (C1) *)

(** C1, at a cart that names product 7 on two lines (2 units, then 1 unit)
    against a stock of 5.  Conservation asks for a stock of 2 after the order
    and 5 after its cancellation.  The code leaves 4 after the order, since
    each line writes the stock read before the loop minus its own quantity
    and the last write wins, and 7 after the cancellation, since the restock
    loop adds every line to the stock it reads afresh. *)
Theorem duplicate_lines_break_conservation :
  Product.stock <$> products db_one_product !! 7%N = Some 5 ∧
  (∃ o, created_twice.1.1 = OrderCreated (1, o)) ∧
  OrderItem.quantity <$> order_items_of created_twice.1.2 1 = [2; 1] ∧
  Product.stock <$> products created_twice.1.2 !! 7%N = Some 4 ∧
  cancelled_twice.1.1 = OrderCancelled ∧
  Product.stock <$> products cancelled_twice.1.2 !! 7%N = Some 7.
Proof.
  vm_compute. split; [reflexivity|]. split; [eexists; reflexivity|].
  repeat split; reflexivity.
Qed.

(** *** Carts without a repeated product

    For such carts the create loop and the restock loop mirror each other
    and the pair conserves stock exactly. *)

Lemma fold_create_line_products order pdata (db : DB) :
  NoDup ((λ d : Product.instance * Z, d.1.1) <$> pdata) →
  (∀ d, d ∈ pdata →
     products (fold_left (create_line order) pdata db) !! d.1.1
       = Some (Product.with_stock (Product.stock d.1.2 - d.2) d.1.2)) ∧
  (∀ pid, pid ∉ (λ d : Product.instance * Z, d.1.1) <$> pdata →
     products (fold_left (create_line order) pdata db) !! pid = products db !! pid).
Proof.
  revert db. induction pdata as [|d pdata IH]; intros db Hnd.
  - split; [by intros d Hd%not_elem_of_nil|done].
  - rewrite fmap_cons in Hnd. apply NoDup_cons in Hnd as [Hd Hnd]. simpl.
    destruct (IH (create_line order db d) Hnd) as [IH1 IH2].
    assert (products (create_line order db d) !! d.1.1
            = Some (Product.with_stock (Product.stock d.1.2 - d.2) d.1.2)) as Hself
      by (destruct d as [[pid p] q]; apply lookup_insert_eq).
    split.
    + intros d' [-> | Hd']%elem_of_cons; [|by apply IH1].
      by rewrite IH2.
    + intros pid Hpid. try rewrite fmap_cons in Hpid.
      apply not_elem_of_cons in Hpid as [Hne Hpid]. rewrite IH2 by done.
      destruct d as [[pid' p] q]. simpl in *. by apply lookup_insert_ne.
Qed.

Lemma restock_distinct items (db : DB) :
  NoDup (OrderItem.product <$> items) →
  Forall (λ i, ∃ pid p, OrderItem.product i = Some pid ∧ products db !! pid = Some p ∧
                        Product.stock p + OrderItem.quantity i ≤ stock_max)
         items →
  ∃ db', restock items db = (None, db') ∧
    (∀ i pid, i ∈ items → OrderItem.product i = Some pid →
       products db' !! pid
       = (λ p, Product.with_stock (Product.stock p + OrderItem.quantity i) p)
           <$> products db !! pid) ∧
    (∀ pid, Some pid ∉ OrderItem.product <$> items →
       products db' !! pid = products db !! pid).
Proof.
  revert db. induction items as [|item items IH]; intros db Hnd Hall.
  - exists db. split; [done|]. split; [by intros i pid Hi%not_elem_of_nil|done].
  - rewrite fmap_cons in Hnd. apply NoDup_cons in Hnd as [Hitem Hnd].
    apply Forall_cons in Hall as [(pid0 & p0 & Hpid0 & Hp0 & Hb0) Hall].
    simpl. rewrite Hpid0, Hp0.
    rewrite (proj2 (Z.ltb_ge _ _) Hb0).
    set (db1 := Product_save
                  (pid0, Product.with_stock (Product.stock p0 + OrderItem.quantity item) p0)
                  db).
    assert (∀ pid, pid ≠ pid0 → products db1 !! pid = products db !! pid) as Hother
      by (intros pid Hne; by apply lookup_insert_ne).
    destruct (IH db1 Hnd) as (db' & Hr & H1 & H2).
    { apply Forall_forall. intros i Hi. rewrite Forall_forall in Hall.
      destruct (Hall i Hi) as (pid & p & Hpid & Hp & Hb).
      exists pid, p. split; [done|]. split; [|done]. rewrite Hother; [done|].
      intros ->. apply Hitem. rewrite Hpid0, <- Hpid. by apply list_elem_of_fmap_2. }
    exists db'. split; [done|]. split.
    + intros i pid [-> | Hi]%elem_of_cons Hpid.
      * rewrite Hpid0 in Hpid. injection Hpid as <-.
        rewrite H2 by (by rewrite <- Hpid0).
        unfold db1, Product_save. simpl. by rewrite lookup_insert_eq, Hp0.
      * rewrite (H1 i pid Hi Hpid). rewrite Hother; [done|].
        intros ->. apply Hitem. rewrite Hpid0, <- Hpid. by apply list_elem_of_fmap_2.
    + intros pid Hpid. try rewrite fmap_cons in Hpid.
      apply not_elem_of_cons in Hpid as [Hne Hpid]. rewrite H2 by done.
      apply Hother. intros ->. congruence.
Qed.

Lemma Order_save_update now k o (db : DB) r :
  Order.order_number o ≠ "" →
  order_number_taken db (Some k) (Order.order_number o) = false →
  ∃ db', Order_save now (Some k) o db r = (inr (k, o), db', r) ∧
         products db' = products db ∧ orders db' = <[k := o]> (orders db).
Proof.
  intros Hne Ht. unfold Order_save. rewrite bool_decide_eq_false_2 by done. rewrite Ht.
  assert (Order.with_order_number (Order.order_number o) o = o) as -> by (by destruct o).
  eexists. split; [done|]. done.
Qed.

(** Line items whose product reference is null take no part in the restock
    and do not stop it. *)
Lemma restock_skips_null items (db : DB) :
  restock items db = restock (filter (λ i, OrderItem.product i ≠ None) items) db.
Proof.
  revert db. induction items as [|item items IH]; intros db; [done|].
  rewrite filter_cons. simpl. destruct (OrderItem.product item) as [pid|] eqn:Hp.
  - rewrite decide_True by done. simpl. rewrite Hp.
    destruct (products db !! pid); [|done].
    destruct (stock_max <? _); [done|apply IH].
  - rewrite decide_False by (intros H; by apply H). apply IH.
Qed.

(** A created order whose cart names no product twice, in a store whose
    stocks fit their column: every line's product has its stock decremented
    by exactly the line's quantity, and the owner's cancellation right
    afterwards succeeds and gives every product back the row it had before
    the order. *)
Lemma create_then_cancel_conserves_distinct now now' user data (db : DB) r order db1 r1 :
  items_below_sequence db → stock_in_range db →
  NoDup (product_id <$> d_items data) →
  OrderCreateView_post now (Some user) data db r = (OrderCreated order, db1, r1) →
  (∀ item, item ∈ d_items data →
     ∃ p, products db !! product_id item = Some p ∧
          products db1 !! product_id item
          = Some (Product.with_stock (Product.stock p - quantity item) p)) ∧
  ∃ db2 r2, OrderCancelView_post now' user order.1 db1 r1 = (OrderCancelled, db2, r2) ∧
            products db2 = products db.
Proof.
  intros Hseq Hrange Hnd. unfold OrderCreateView_post.
  destruct (is_valid db data) as [e|validated] eqn:Hv; [done|].
  destruct (is_valid_lines _ _ _ Hv) as [-> _]. unfold create.
  destruct (collect_products db (d_items data) 0 []) as [e|[total pdata]] eqn:Hc; [done|].
  apply collect_products_spec in Hc as (new & -> & _ & _ & Hres). simpl app.
  rewrite Order_save_new by done. cbv zeta.
  set (number := (generate_order_number now r).1).
  destruct (order_number_taken db None number) eqn:Htaken; [done|].
  set (row := Order.with_order_number number _).
  set (db0 := set_orders _ _).
  intros [= <- <- <-]. simpl fst.
  assert ((λ d : Product.instance * Z, d.1.1) <$> new = product_id <$> d_items data)
    as Hpids.
  { clear -Hres. induction Hres as [|item d items ds (_ & Hd & _) _ IH]; [done|].
    rewrite !fmap_cons. f_equal; [exact Hd|exact IH]. }
  destruct (fold_create_line_products (next_order_id db, row) new db0) as [Hin Hout];
    [by rewrite Hpids|].
  destruct (fold_create_line_items (next_order_id db, row) new db0) as (items & Hfi & Hfa).
  destruct (fold_create_line_orders (next_order_id db, row) new db0) as [Hfo _].
  set (dbc := fold_left (create_line (next_order_id db, row)) new db0) in *.
  (* the products of the cart lines after the order *)
  assert (∀ item, item ∈ d_items data →
            ∃ p, products db !! product_id item = Some p ∧
                 products dbc !! product_id item
                 = Some (Product.with_stock (Product.stock p - quantity item) p)) as Hlines.
  { intros item Hitem. apply list_elem_of_lookup in Hitem as [n Hn].
    destruct (Forall2_lookup_l _ _ _ _ _ Hres Hn) as (d & Hd & Hp & Hdp & Hdq).
    exists d.1.2. split; [done|].
    rewrite <- Hdp, <- Hdq. apply Hin. by eapply list_elem_of_lookup_2. }
  split; [exact Hlines|].
  (* the cancellation *)
  unfold OrderCancelView_post.
  assert (orders dbc !! next_order_id db = Some row) as Hrow
    by (rewrite Hfo; apply lookup_insert_eq).
  rewrite Hrow. rewrite bool_decide_eq_true_2 by done.
  change (negb (cancellable (Order.status row))) with false. cbv iota.
  assert (order_items_of dbc (next_order_id db) = items) as Hitems.
  { unfold order_items_of. rewrite Hfi, filter_app.
    rewrite (filter_none _ (order_items db0)), app_nil_l.
    - apply filter_all. clear -Hfa.
      induction Hfa as [|d i ds is_ [Ho _] _ IH]; by constructor.
    - eapply Forall_impl; [exact Hseq|]. simpl. intros i Hi. lia. }
  rewrite Hitems.
  assert (OrderItem.product <$> items = Some <$> (product_id <$> d_items data)) as Hprods.
  { rewrite <- Hpids. clear -Hfa.
    induction Hfa as [|d i ds is_ (_ & Hp & _) _ IH]; [done|].
    rewrite !fmap_cons. f_equal; [exact Hp|exact IH]. }
  destruct (restock_distinct items dbc) as (dbr & Hrs & Hr1 & Hr2).
  { rewrite Hprods. apply (NoDup_fmap_2 _), Hnd. }
  { apply Forall_forall. intros i Hi.
    apply list_elem_of_lookup in Hi as [n Hn].
    destruct (Forall2_lookup_r _ _ _ _ _ Hfa Hn) as (d & Hd & _ & Hp & _ & _ & Hiq).
    destruct (Forall2_lookup_r _ _ _ _ _ Hres Hd) as (item & Hitem & _ & Hdp & Hdq).
    destruct (Hlines item) as (p & Hpdb & Hpc); [by eapply list_elem_of_lookup_2|].
    exists d.1.1, (Product.with_stock (Product.stock p - quantity item) p).
    split; [done|]. rewrite Hdp. split; [done|].
    rewrite Hiq, Hdq. simpl. specialize (Hrange _ _ Hpdb). simpl in Hrange. lia. }
  pose proof (restock_orders_same items dbc) as [Hso _].
  rewrite Hrs in Hso |- *. simpl in Hso.
  match goal with
  | |- context [Order_save now' _ _ dbr ?rr] =>
      destruct (Order_save_update now' (next_order_id db)
                  (Order.with_status CANCELLED row) dbr rr) as (db2 & -> & Hp2 & _)
  end.
  { change (number ≠ ""). unfold number. by rewrite generate_order_number_eq. }
  { change (order_number_taken dbr (Some (next_order_id db)) number = false).
    unfold order_number_taken in *. apply bool_decide_eq_false.
    apply bool_decide_eq_false in Htaken.
    intros (k & o & Hk & Hne & Heq). apply Htaken.
    rewrite Hso, Hfo in Hk. unfold db0 in Hk. simpl in Hk.
    apply lookup_insert_Some in Hk as [[Hkk _] | [_ Hk]]; [congruence|].
    by exists k, o. }
  exists db2. eexists. split; [done|].
  rewrite Hp2. apply map_eq. intros pid.
  destruct (decide (pid ∈ product_id <$> d_items data)) as [Hpid|Hpid].
  - apply list_elem_of_fmap in Hpid as (item & -> & Hitem).
    destruct (Hlines item Hitem) as (p & Hp & Hpc).
    apply list_elem_of_lookup in Hitem as [n Hn].
    destruct (Forall2_lookup_l _ _ _ _ _ Hres Hn) as (d & Hd & _ & Hdp & Hdq).
    destruct (Forall2_lookup_l _ _ _ _ _ Hfa Hd) as (i & Hi & _ & Hip & _ & _ & Hiq).
    rewrite (Hr1 i (product_id item));
      [|by eapply list_elem_of_lookup_2|by rewrite Hip, Hdp].
    rewrite Hpc, Hp, Hiq, Hdq. simpl. f_equal. destruct p.
    unfold Product.with_stock. simpl. f_equal. lia.
  - rewrite Hr2, Hout; [done|by rewrite Hpids|].
    rewrite Hprods. intros (x & [= ->] & Hx)%list_elem_of_fmap. done.
Qed.

(** * Further properties of the order workflow *)

(** What a successful [createOrder] did, step by step. *)
Lemma create_success now user data (db : DB) r order db' r' :
  OrderCreateView_post now user data db r = (OrderCreated order, db', r') →
  ∃ total pdata,
    is_valid db data = inr data ∧
    collect_products db (d_items data) 0 [] = inr (total, pdata) ∧
    order_number_taken db None (generate_order_number now r).1 = false ∧
    order = (next_order_id db,
             Order.mk (generate_order_number now r).1 user (d_first_name data)
               (d_last_name data) (d_phone data) (d_email data) (d_address data)
               PENDING total (d_note data)) ∧
    db' = fold_left (create_line order) pdata
            (set_orders (insert order.1 order.2)
               (set_next_order_id (next_order_id db + 1) db)) ∧
    r' = (generate_order_number now r).2.
Proof.
  unfold OrderCreateView_post.
  destruct (is_valid db data) as [e|validated] eqn:Hv; [done|].
  destruct (is_valid_lines _ _ _ Hv) as [-> _]. unfold create.
  destruct (collect_products db (d_items data) 0 []) as [e|[total pdata]] eqn:Hc; [done|].
  rewrite Order_save_new by done. cbv zeta.
  destruct (order_number_taken db None (generate_order_number now r).1) eqn:Ht; [done|].
  intros [= <- <- <-]. by exists total, pdata.
Qed.

Lemma restock_other_tables items (db : DB) :
  favorites (restock items db).2 = favorites db ∧
  users (restock items db).2 = users db ∧
  profiles (restock items db).2 = profiles db.
Proof.
  revert db. induction items as [|item items IH]; intros db; simpl; [done|].
  destruct (OrderItem.product item) as [pid|]; [|by apply IH].
  destruct (products db !! pid) as [p|]; [|done].
  destruct (stock_max <? _); [done|].
  by destruct (IH (Product_save
                     (pid, Product.with_stock (Product.stock p + OrderItem.quantity item) p)
                     db)) as (-> & -> & ->).
Qed.

(** What a successful [cancelOrder] did, step by step. *)
Lemma cancel_success now user id (db : DB) r db' r' :
  OrderCancelView_post now user id db r = (OrderCancelled, db', r') →
  ∃ order db1 number,
    orders db !! id = Some order ∧ Order.user order = Some user ∧
    Order.status order ∈ [PENDING; CONFIRMED] ∧
    restock (order_items_of db id) db = (None, db1) ∧
    orders db' = <[id := Order.with_order_number number
                            (Order.with_status CANCELLED order)]> (orders db) ∧
    (Order.order_number order ≠ "" → number = Order.order_number order ∧ r' = r) ∧
    products db' = products db1 ∧ order_items db' = order_items db ∧
    favorites db' = favorites db ∧ users db' = users db ∧ profiles db' = profiles db.
Proof.
  unfold OrderCancelView_post.
  destruct (orders db !! id) as [order|] eqn:Ho; [|done].
  case_bool_decide as Hu; [|done].
  destruct (cancellable (Order.status order)) eqn:Hc; simpl; [|done].
  pose proof (restock_orders_same (order_items_of db id) db) as [Hso Hsi].
  pose proof (restock_other_tables (order_items_of db id) db) as (Hf & Hus & Hpr).
  destruct (restock (order_items_of db id) db) as [[e|] db1] eqn:Hr; [done|].
  simpl in *. unfold Order_save.
  destruct (bool_decide (Order.order_number (Order.with_status CANCELLED order) = ""))
    eqn:Hempty.
  - destruct (generate_order_number now r) as [number r1].
    destruct (order_number_taken db1 (Some id) number); [done|].
    intros [= <- <-]. exists order, db1, number. simpl.
    apply bool_decide_eq_true in Hempty. simpl in Hempty.
    unfold cancellable in Hc. apply bool_decide_eq_true in Hc.
    rewrite Hso, Hsi, Hf, Hus, Hpr. by repeat split.
  - destruct (order_number_taken db1 (Some id) _); [done|].
    intros [= <- <-]. exists order, db1, (Order.order_number order). simpl.
    unfold cancellable in Hc. apply bool_decide_eq_true in Hc.
    rewrite Hso, Hsi, Hf, Hus, Hpr. by repeat split.
Qed.

Lemma created_order_items now user data (db : DB) r order db' r' :
  items_below_sequence db →
  OrderCreateView_post now user data db r = (OrderCreated order, db', r') →
  ∃ pdata,
    Forall2 (λ item d, products db !! product_id item = Some d.1.2 ∧
                       d.1.1 = product_id item ∧ d.2 = quantity item)
            (d_items data) pdata ∧
    Forall2 (λ d i, OrderItem.order i = order.1 ∧
                    OrderItem.product i = Some d.1.1 ∧
                    OrderItem.price i = Product.price d.1.2 ∧
                    OrderItem.product_name i = Product.name d.1.2 ∧
                    OrderItem.quantity i = d.2) pdata (order_items_of db' order.1).
Proof.
  intros Hseq H.
  apply create_success in H as (total & pdata & Hv & Hc & Ht & Ho & -> & _).
  apply collect_products_spec in Hc as (new & -> & _ & _ & Hres). simpl app.
  exists new. split; [done|].
  set (db0 := set_orders _ _).
  destruct (fold_create_line_items order new db0) as (items & Hfi & Hfa).
  unfold order_items_of. rewrite Hfi, filter_app.
  rewrite (filter_none _ (order_items db0)), app_nil_l.
  - rewrite filter_all; [done|]. clear -Hfa.
    induction Hfa as [|d i ds is_ [Hd _] _ IH]; by constructor.
  - rewrite Ho. simpl. eapply Forall_impl; [exact Hseq|]. simpl. intros i Hi. lia.
Qed.

(** X1.  A created order is pending, belongs to the requester (to nobody
    for a guest), and has exactly one line item per cart line, in cart
    order, repeated products included: each item references the line's
    product and carries the product's name and price as stored at order time
    and the line's quantity, which is at least 1 and at most the stock. *)
Theorem created_order_snapshot now user data (db : DB) r order db' r' :
  items_below_sequence db →
  OrderCreateView_post now user data db r = (OrderCreated order, db', r') →
  Order.status order.2 = PENDING ∧ Order.user order.2 = user ∧
  Order_items_count db' order.1 = length (d_items data) ∧
  Forall2 (λ line i,
             ∃ p, products db !! product_id line = Some p ∧
                  Product.is_active p = true ∧
                  OrderItem.product i = Some (product_id line) ∧
                  OrderItem.product_name i = Product.name p ∧
                  OrderItem.price i = Product.price p ∧
                  OrderItem.quantity i = quantity line ∧
                  1 ≤ quantity line ≤ Product.stock p)
          (d_items data) (order_items_of db' order.1).
Proof.
  intros Hseq H.
  destruct (created_order_items _ _ _ _ _ _ _ _ Hseq H) as (pdata & Hres & Hfa).
  apply create_success in H as (total & pdata' & Hv & _ & _ & -> & _ & _).
  simpl in Hfa. apply is_valid_lines in Hv as [_ Hlines].
  assert (Forall2 (λ line i,
             ∃ p, products db !! product_id line = Some p ∧
                  Product.is_active p = true ∧
                  OrderItem.product i = Some (product_id line) ∧
                  OrderItem.product_name i = Product.name p ∧
                  OrderItem.price i = Product.price p ∧
                  OrderItem.quantity i = quantity line ∧
                  1 ≤ quantity line ≤ Product.stock p)
          (d_items data) (order_items_of db' (next_order_id db))) as Hall.
  { apply Forall2_same_length_lookup. split.
    - by rewrite (Forall2_length _ _ _ Hres), (Forall2_length _ _ _ Hfa).
    - intros n line i Hline Hi.
      destruct (Forall2_lookup_l _ _ _ _ _ Hres Hline) as (d & Hd & Hp & Hdp & Hdq).
      destruct (Forall2_lookup_l _ _ _ _ _ Hfa Hd) as (i' & Hi' & _ & Hip & Hipr & Hin & Hiq).
      rewrite Hi in Hi'. injection Hi' as <-.
      rewrite Forall_forall in Hlines.
      destruct (Hlines line) as (Hq1 & p & Hp' & Ha & Hs);
        [by eapply list_elem_of_lookup_2|].
      rewrite Hp in Hp'. injection Hp' as <-.
      exists d.1.2. rewrite Hip, Hipr, Hin, Hiq, Hdp, Hdq. done. }
  split; [done|]. split; [done|]. split; [|exact Hall].
  unfold Order_items_count. simpl. by rewrite (Forall2_length _ _ _ Hall).
Qed.

Lemma created_twice_eq :
  OrderCreateView_post date_example (Some 1) (data_example cart_twice)
    db_one_product rnd_example
  = (OrderCreated (1, order_twice), created_twice.1.2, created_twice.2).
Proof. vm_compute. reflexivity. Qed.

Lemma created_order_snapshot_witness :
  Order_items_count created_twice.1.2 1 = 2%nat.
Proof.
  destruct (created_order_snapshot date_example (Some 1) (data_example cart_twice)
              db_one_product rnd_example (1, order_twice) created_twice.1.2
              created_twice.2 (Forall_nil_2 _) created_twice_eq)
    as (_ & _ & H & _).
  exact H.
Defined.

Lemma create_line_tables order (db : DB) d :
  favorites (create_line order db d) = favorites db ∧
  users (create_line order db d) = users db ∧
  profiles (create_line order db d) = profiles db.
Proof. by destruct d as [[pid p] q]. Qed.

Lemma fold_create_line_tables order pdata (db : DB) :
  favorites (fold_left (create_line order) pdata db) = favorites db ∧
  users (fold_left (create_line order) pdata db) = users db ∧
  profiles (fold_left (create_line order) pdata db) = profiles db.
Proof.
  revert db. induction pdata as [|d pdata IH]; intros db; simpl; [done|].
  destruct (IH (create_line order db d)) as (-> & -> & ->). apply create_line_tables.
Qed.

(** A product row after the second loop is the row before it, or the row of
    one of the remembered objects with a new stock. *)
Lemma fold_create_line_product_rows order pdata (db : DB) pid :
  products (fold_left (create_line order) pdata db) !! pid = products db !! pid ∨
  ∃ d, d ∈ pdata ∧ d.1.1 = pid ∧
       products (fold_left (create_line order) pdata db) !! pid
       = Some (Product.with_stock (Product.stock d.1.2 - d.2) d.1.2).
Proof.
  revert db. induction pdata as [|d pdata IH]; intros db; simpl; [by left|].
  destruct (IH (create_line order db d)) as [Heq | (d' & Hd' & Hpid & Heq)].
  - rewrite Heq. destruct d as [[pid' p] q]. simpl.
    destruct (decide (pid' = pid)) as [->|Hne].
    + right. exists (pid, p, q). split; [left|]. split; [done|]. apply lookup_insert_eq.
    + left. by apply lookup_insert_ne.
  - right. exists d'. split; [by right|done].
Qed.

(** X2.  Whatever its outcome, [createOrder] touches nothing outside the
    order being placed: products the cart does not name keep their row,
    every product keeps its name, price and activity flag and no product
    appears or disappears, the stored line items remain as a prefix, every
    order other than the one under the next key is untouched, and
    favorites, users and profiles are unchanged. *)
Theorem createOrder_frame now user data (db : DB) r :
  let db' := (OrderCreateView_post now user data db r).1.2 in
  (∀ pid, pid ∉ product_id <$> d_items data → products db' !! pid = products db !! pid) ∧
  (∀ pid, match products db' !! pid, products db !! pid with
          | Some p', Some p =>
              Product.name p' = Product.name p ∧ Product.price p' = Product.price p ∧
              Product.is_active p' = Product.is_active p
          | None, None => True
          | _, _ => False
          end) ∧
  (∃ new, order_items db' = (order_items db ++ new)%list) ∧
  (∀ k, k ≠ next_order_id db → orders db' !! k = orders db !! k) ∧
  favorites db' = favorites db ∧ users db' = users db ∧ profiles db' = profiles db.
Proof.
  cbv zeta.
  assert (∀ pid : UUID, match products db !! pid, products db !! pid with
                 | Some p', Some p =>
                     Product.name p' = Product.name p ∧
                     Product.price p' = Product.price p ∧
                     Product.is_active p' = Product.is_active p
                 | None, None => True
                 | _, _ => False
                 end) as Hsame by (intros pid; by destruct (products db !! pid)).
  unfold OrderCreateView_post.
  destruct (is_valid db data) as [e|validated] eqn:Hv.
  { simpl. repeat split; try done. exists []. by rewrite app_nil_r. }
  destruct (is_valid_lines _ _ _ Hv) as [-> _]. unfold create.
  destruct (collect_products db (d_items data) 0 []) as [e|[total pdata]] eqn:Hc.
  { simpl. repeat split; try done. exists []. by rewrite app_nil_r. }
  rewrite Order_save_new by done. cbv zeta.
  destruct (order_number_taken db None (generate_order_number now r).1).
  { simpl. repeat split; try done. exists []. by rewrite app_nil_r. }
  apply collect_products_spec in Hc as (new & -> & _ & _ & Hres). simpl app.
  cbn [fst snd].
  set (order := (next_order_id db, _)). set (db0 := set_orders _ _).
  assert ((λ d : Product.instance * Z, d.1.1) <$> new = product_id <$> d_items data)
    as Hpids.
  { clear -Hres. induction Hres as [|item d items ds (_ & Hd & _) _ IH]; [done|].
    rewrite !fmap_cons. f_equal; [exact Hd|exact IH]. }
  split; [|split; [|split; [|split]]].
  - intros pid Hpid.
    destruct (fold_create_line_product_rows order new db0 pid)
      as [-> | (d & Hd & Hdp & _)]; [done|].
    exfalso. apply Hpid. rewrite <- Hpids, <- Hdp.
    apply list_elem_of_fmap. by exists d.
  - intros pid.
    destruct (fold_create_line_product_rows order new db0 pid)
      as [-> | (d & Hd & Hdp & ->)]; [apply Hsame|].
    apply list_elem_of_lookup in Hd as [n Hn].
    destruct (Forall2_lookup_r _ _ _ _ _ Hres Hn) as (item & _ & Hp & Hdi & _).
    change (products db0) with (products db) in *.
    rewrite <- Hdp, Hdi, Hp. done.
  - destruct (fold_create_line_items order new db0) as (items & -> & _). by exists items.
  - intros k Hk. destruct (fold_create_line_orders order new db0) as [-> _].
    unfold db0. simpl. by apply lookup_insert_ne.
  - by destruct (fold_create_line_tables order new db0) as (-> & -> & ->).
Qed.

Lemma createOrder_frame_witness :
  products created_twice.1.2 !! 9%N = products db_one_product !! 9%N.
Proof.
  apply (proj1 (createOrder_frame date_example (Some 1) (data_example cart_twice)
                  db_one_product rnd_example) 9%N).
  by apply (bool_decide_eq_false_1 _).
Defined.

(** ** Cancellation: success, restock and repetition *)

Lemma lines_quantity_cons item items pid :
  lines_quantity (item :: items) pid
  = (if bool_decide (OrderItem.product item = Some pid) then OrderItem.quantity item else 0)
    + lines_quantity items pid.
Proof.
  unfold lines_quantity. rewrite filter_cons. case_bool_decide.
  - by rewrite decide_True.
  - rewrite decide_False by done. lia.
Qed.

Lemma lines_quantity_nonneg items pid :
  Forall (λ i, 0 ≤ OrderItem.quantity i) items → 0 ≤ lines_quantity items pid.
Proof.
  induction 1 as [|item items Hq _ IH]; [done|].
  rewrite lines_quantity_cons. case_bool_decide; lia.
Qed.

(** The restock loop completes when every referenced product is stored and
    no stock leaves the range of its column. *)
Lemma restock_succeeds items (db : DB) :
  Forall (λ i, ∀ pid, OrderItem.product i = Some pid → is_Some (products db !! pid))
         items →
  Forall (λ i, 0 ≤ OrderItem.quantity i) items →
  (∀ pid p, products db !! pid = Some p →
            Product.stock p + lines_quantity items pid ≤ stock_max) →
  ∃ db', restock items db = (None, db') ∧ dom (products db') = dom (products db).
Proof.
  revert db. induction items as [|item items IH]; intros db Hall Hq Hb; simpl.
  - by exists db.
  - apply Forall_cons in Hall as [Hitem Hall]. apply Forall_cons in Hq as [Hq0 Hq].
    pose proof (lines_quantity_nonneg items) as Hnn.
    destruct (OrderItem.product item) as [pid|] eqn:Hpid.
    2:{ apply IH; [done|done|]. intros pid p Hp. specialize (Hb pid p Hp).
        rewrite lines_quantity_cons, Hpid in Hb.
        by rewrite bool_decide_eq_false_2 in Hb. }
    destruct (Hitem pid eq_refl) as [p Hp]. rewrite Hp.
    assert (Product.stock p + OrderItem.quantity item ≤ stock_max) as Hfit.
    { specialize (Hb pid p Hp). rewrite lines_quantity_cons, Hpid in Hb.
      rewrite bool_decide_eq_true_2 in Hb by done. specialize (Hnn pid Hq). lia. }
    rewrite (proj2 (Z.ltb_ge _ _) Hfit).
    set (db1 := Product_save _ db).
    assert (dom (products db1) = dom (products db)) as Hdom.
    { unfold db1, Product_save. simpl. apply dom_insert_lookup_L. by eexists. }
    destruct (IH db1) as (db' & -> & Hdom').
    { eapply Forall_impl; [exact Hall|]. simpl. intros i Hi pid' Hpid'.
      apply (elem_of_dom (products db1)). rewrite Hdom. apply elem_of_dom. by apply Hi. }
    { done. }
    { intros pid' p'. unfold db1, Product_save. simpl.
      intros [[<- <-] | [Hne Hp']]%lookup_insert_Some.
      - simpl. specialize (Hb pid p Hp). rewrite lines_quantity_cons, Hpid in Hb.
        rewrite bool_decide_eq_true_2 in Hb by done. lia.
      - specialize (Hb pid' p' Hp'). rewrite lines_quantity_cons, Hpid in Hb.
        rewrite bool_decide_eq_false_2 in Hb by congruence. lia. }
    exists db'. split; [done|]. by rewrite Hdom'.
Qed.

(** The only exception of the restock loop over stored products is the
    refusal of a stock by the database, and a loop that completes leaves
    every stock within range. *)
Lemma restock_failure items (db : DB) e db1 :
  Forall (λ i, ∀ pid, OrderItem.product i = Some pid → is_Some (products db !! pid))
         items →
  restock items db = (Some e, db1) → e = DataError.
Proof.
  revert db. induction items as [|item items IH]; intros db Hall; simpl; [done|].
  apply Forall_cons in Hall as [Hitem Hall].
  destruct (OrderItem.product item) as [pid|]; [|by apply IH].
  destruct (Hitem pid eq_refl) as [p Hp]. rewrite Hp.
  destruct (stock_max <? _); [by intros [= <- _]|].
  apply IH. eapply Forall_impl; [exact Hall|]. simpl. intros i Hi pid' Hpid'.
  unfold Product_save. simpl. destruct (decide (pid' = pid)) as [->|Hne].
  - rewrite lookup_insert_eq. by eexists.
  - rewrite lookup_insert_ne by done. by apply Hi.
Qed.

Lemma restock_in_range items (db : DB) db' :
  stock_in_range db → restock items db = (None, db') → stock_in_range db'.
Proof.
  revert db. induction items as [|item items IH]; intros db Hr; simpl.
  - by intros [= <-].
  - destruct (OrderItem.product item) as [pid|]; [|by apply IH].
    destruct (products db !! pid) as [p|] eqn:Hp; [|done].
    destruct (stock_max <? _) eqn:Hlt; [done|]. apply Z.ltb_ge in Hlt.
    apply IH. unfold stock_in_range, Product_save. simpl.
    apply map_Forall_insert_2; [exact Hlt|exact Hr].
Qed.

Lemma items_reference_products_of (db : DB) id :
  items_reference_products db →
  Forall (λ i, ∀ pid, OrderItem.product i = Some pid → is_Some (products db !! pid))
         (order_items_of db id).
Proof.
  intros H. unfold order_items_of. apply Forall_forall. intros i Hi.
  apply list_elem_of_filter in Hi as [_ Hi].
  unfold items_reference_products in H. rewrite Forall_forall in H. by apply H.
Qed.

Lemma Order_save_update_frame now k o (db : DB) r :
  Order.order_number o ≠ "" →
  order_number_taken db (Some k) (Order.order_number o) = false →
  Order_save now (Some k) o db r = (inr (k, o), set_orders (insert k o) db, r).
Proof.
  intros Hne Ht. unfold Order_save. rewrite bool_decide_eq_false_2 by done. rewrite Ht.
  by assert (Order.with_order_number (Order.order_number o) o = o) as -> by (by destruct o).
Qed.

Lemma with_stock_same (p : Product.t) : Product.with_stock (Product.stock p) p = p.
Proof. by destruct p. Qed.

(** What the restock loop adds, product by product. *)
Lemma restock_adds items (db : DB) db' pid :
  restock items db = (None, db') →
  products db' !! pid
  = (λ p, Product.with_stock (Product.stock p + lines_quantity items pid) p)
      <$> products db !! pid.
Proof.
  revert db. induction items as [|item items IH]; intros db; simpl.
  - intros [= <-]. destruct (products db !! pid) as [p|]; [|done]. simpl.
    f_equal. unfold lines_quantity. simpl. unfold sum_Z. simpl.
    rewrite Z.add_0_r. symmetry. apply with_stock_same.
  - rewrite lines_quantity_cons.
    destruct (OrderItem.product item) as [pid0|] eqn:Hp0.
    + destruct (products db !! pid0) as [p0|] eqn:Hl0; [|done].
      destruct (stock_max <? _); [done|].
      intros H. rewrite (IH _ H). unfold Product_save. simpl.
      case_bool_decide as Heq.
      * injection Heq as ->. rewrite lookup_insert_eq, Hl0. simpl. f_equal.
        unfold Product.with_stock. simpl. f_equal. lia.
      * rewrite lookup_insert_ne by congruence. by rewrite Z.add_0_l.
    + rewrite bool_decide_eq_false_2 by done. intros H. rewrite (IH _ H).
      by rewrite Z.add_0_l.
Qed.

Lemma cancel_owner_core now user id (db : DB) r order :
  orders db !! id = Some order → Order.user order = Some user →
  Order.status order ∈ [PENDING; CONFIRMED] →
  items_reference_products db → order_numbers_assigned db → unique_order_numbers db →
  Forall (λ i, 0 ≤ OrderItem.quantity i) (order_items_of db id) →
  (∀ pid p, products db !! pid = Some p →
            Product.stock p + lines_quantity (order_items_of db id) pid ≤ stock_max) →
  ∃ db1,
    restock (order_items_of db id) db = (None, db1) ∧
    dom (products db1) = dom (products db) ∧
    OrderCancelView_post now user id db r
    = (OrderCancelled, set_orders (insert id (Order.with_status CANCELLED order)) db1, r).
Proof.
  intros Ho Hu Hs Hint Hnum Huniq Hq Hb. unfold OrderCancelView_post.
  rewrite Ho, bool_decide_eq_true_2 by done.
  unfold cancellable at 1. rewrite bool_decide_eq_true_2 by done. cbn [negb].
  destruct (restock_succeeds (order_items_of db id) db
              (items_reference_products_of db id Hint) Hq Hb) as (db1 & Hr & Hdom).
  destruct (restock_orders_same (order_items_of db id) db) as [Hso Hsi].
  rewrite Hr in Hso, Hsi |- *. simpl in Hso, Hsi.
  exists db1. split; [done|]. split; [done|].
  rewrite (Order_save_update_frame now id (Order.with_status CANCELLED order) db1 r);
    [done|exact (Hnum id order Ho)|].
  unfold order_number_taken. apply bool_decide_eq_false.
  intros (k & o & Hk & Hne & Heq). rewrite Hso in Hk.
  apply Hne. f_equal. by apply (Huniq k id o order).
Qed.

(** X3.  In a store with referential integrity of line items, positive
    quantities, stocks within the range of their column and unique, assigned
    order numbers, the outcome of [cancelOrder] by the owner of a pending or
    confirmed order is decided by the range of the stock column alone.  If
    for every product the stock plus the quantities of the order's lines that
    reference it fits the column, the request succeeds: the order row becomes
    the same row with status cancelled, every other order and every line item
    is untouched (so [get_total] and the item count are unchanged), no
    product is created or removed, and the random generator is not
    consulted.  If for some product that sum is over the range, the request
    ends in the unhandled DataError and the order row, still pending or
    confirmed, and the line items are as before. *)
Theorem cancelOrder_succeeds now user id (db : DB) r order :
  orders db !! id = Some order → Order.user order = Some user →
  Order.status order ∈ [PENDING; CONFIRMED] →
  items_reference_products db → quantities_positive db → stock_in_range db →
  order_numbers_assigned db → unique_order_numbers db →
  ((∀ pid p, products db !! pid = Some p →
             Product.stock p + lines_quantity (order_items_of db id) pid ≤ stock_max) →
   ∃ db',
     OrderCancelView_post now user id db r = (OrderCancelled, db', r) ∧
     orders db' = <[id := Order.with_status CANCELLED order]> (orders db) ∧
     order_items db' = order_items db ∧
     dom (products db') = dom (products db) ∧
     Order_get_total db' id = Order_get_total db id ∧
     Order_items_count db' id = Order_items_count db id) ∧
  ((∃ pid p, products db !! pid = Some p ∧
             stock_max < Product.stock p + lines_quantity (order_items_of db id) pid) →
   ∃ db',
     OrderCancelView_post now user id db r = (Unhandled DataError, db', r) ∧
     orders db' = orders db ∧ order_items db' = order_items db).
Proof.
  intros Ho Hu Hs Hint Hq Hrange Hnum Huniq. split.
  - intros Hb.
    destruct (cancel_owner_core now user id db r order Ho Hu Hs Hint Hnum Huniq
                (order_items_of_quantities db id Hq) Hb) as (db1 & Hr & Hdom & ->).
    destruct (restock_orders_same (order_items_of db id) db) as [Hso Hsi].
    rewrite Hr in Hso, Hsi. simpl in Hso, Hsi.
    eexists. split; [done|].
    unfold Order_get_total, Order_items_count, order_items_of. simpl.
    by rewrite Hso, Hsi, Hdom.
  - intros (pid & p & Hp & Hover). unfold OrderCancelView_post.
    rewrite Ho, bool_decide_eq_true_2 by done.
    unfold cancellable at 1. rewrite bool_decide_eq_true_2 by done. cbn [negb].
    destruct (restock_orders_same (order_items_of db id) db) as [Hso Hsi].
    destruct (restock (order_items_of db id) db) as [[e|] db1] eqn:Hr;
      simpl in Hso, Hsi.
    + apply restock_failure in Hr as ->; [|by apply items_reference_products_of].
      by exists db1.
    + exfalso. pose proof (restock_in_range _ _ _ Hrange Hr) as Hrange1.
      pose proof (restock_adds _ _ _ pid Hr) as Hadd. rewrite Hp in Hadd.
      specialize (Hrange1 _ _ Hadd). simpl in Hrange1. lia.
Qed.

Lemma db_with_order_integrity s :
  items_reference_products (db_with_order s) ∧
  order_numbers_assigned (db_with_order s) ∧
  unique_order_numbers (db_with_order s).
Proof.
  split; [|split].
  - repeat constructor. intros pid [= <-]. by eexists.
  - intros k o Hk. simpl in Hk. by apply lookup_singleton_Some in Hk as [_ <-].
  - intros k1 k2 o1 o2 H1 H2 _. simpl in H1, H2.
    apply lookup_singleton_Some in H1 as [<- _].
    by apply lookup_singleton_Some in H2 as [<- _].
Qed.

Lemma db_with_order_range s :
  quantities_positive (db_with_order s) ∧ stock_in_range (db_with_order s) ∧
  ∀ pid p, products (db_with_order s) !! pid = Some p →
           Product.stock p + lines_quantity (order_items_of (db_with_order s) 1) pid
           ≤ stock_max.
Proof.
  split; [|split].
  - repeat constructor. simpl. lia.
  - intros pid p Hp. simpl in Hp. apply lookup_singleton_Some in Hp as [_ <-].
    by vm_compute.
  - intros pid p Hp. simpl in Hp. apply lookup_singleton_Some in Hp as [<- <-].
    by vm_compute.
Qed.

Lemma cancelOrder_succeeds_witness :
  (∃ db', OrderCancelView_post date_example 1 1 (db_with_order CONFIRMED) rnd_example
            = (OrderCancelled, db', rnd_example) ∧
          order_items db' = order_items (db_with_order CONFIRMED)) ∧
  (∃ db', OrderCancelView_post date_example 1 1 db_stock_full rnd_example
            = (Unhandled DataError, db', rnd_example) ∧
          orders db' = orders db_stock_full).
Proof.
  assert (Order.status (order_example CONFIRMED) ∈ [PENDING; CONFIRMED]) as Hs
    by (by apply (bool_decide_eq_true_1 _)).
  assert (Order.status (order_example PENDING) ∈ [PENDING; CONFIRMED]) as Hs'
    by (by apply (bool_decide_eq_true_1 _)).
  split.
  - destruct (db_with_order_integrity CONFIRMED) as (H1 & H2 & H3).
    destruct (db_with_order_range CONFIRMED) as (H4 & H5 & H6).
    destruct (proj1 (cancelOrder_succeeds date_example 1 1 (db_with_order CONFIRMED)
                       rnd_example (order_example CONFIRMED) eq_refl eq_refl Hs
                       H1 H4 H5 H2 H3) H6)
      as (db' & Hc & _ & Hi & _).
    by exists db'.
  - assert (items_reference_products db_stock_full) as H1
      by (repeat constructor; intros pid [= <-]; by eexists).
    assert (quantities_positive db_stock_full) as H4
      by (repeat constructor; simpl; lia).
    assert (stock_in_range db_stock_full) as H5.
    { intros pid p Hp. simpl in Hp. apply lookup_singleton_Some in Hp as [_ <-].
      by vm_compute. }
    assert (order_numbers_assigned db_stock_full) as H2.
    { intros k o Hk. simpl in Hk. by apply lookup_singleton_Some in Hk as [_ <-]. }
    assert (unique_order_numbers db_stock_full) as H3.
    { intros k1 k2 o1 o2 Hk1 Hk2 _. simpl in Hk1, Hk2.
      apply lookup_singleton_Some in Hk1 as [<- _].
      by apply lookup_singleton_Some in Hk2 as [<- _]. }
    destruct (proj2 (cancelOrder_succeeds date_example 1 1 db_stock_full
                       rnd_example (order_example PENDING) eq_refl eq_refl Hs'
                       H1 H4 H5 H2 H3))
      as (db' & Hc & Ho & _).
    { exists 7%N, (Product.mk "A" 1000 2147483647 true). split; [reflexivity|].
      by vm_compute. }
    by exists db'.
Defined.

(** X4.  A successful [cancelOrder] gives every product back the sum of the
    quantities of the order's line items that reference it, keeps the
    product's other columns, leaves products no line references unchanged,
    and skips line items whose product reference is null. *)
Theorem cancelOrder_restocks_line_quantities now user id (db : DB) r db' r' :
  OrderCancelView_post now user id db r = (OrderCancelled, db', r') →
  ∀ pid,
    products db' !! pid
    = (λ p, Product.with_stock
              (Product.stock p + lines_quantity (order_items_of db id) pid) p)
        <$> products db !! pid.
Proof.
  intros H pid.
  apply cancel_success in H as (order & db1 & number & _ & _ & _ & Hr & _ & _ & -> & _).
  by apply restock_adds.
Qed.

Lemma cancelOrder_restocks_line_quantities_witness :
  products cancelled_twice.1.2 !! 7%N
  = (λ p, Product.with_stock
            (Product.stock p + lines_quantity (order_items_of created_twice.1.2 1) 7%N) p)
      <$> products created_twice.1.2 !! 7%N.
Proof.
  apply (cancelOrder_restocks_line_quantities date_example 1 1 created_twice.1.2
           created_twice.2 cancelled_twice.1.2 cancelled_twice.2).
  vm_compute. reflexivity.
Defined.

(** X5.  A cancelled order cannot be cancelled again: a second
    [cancelOrder] on the order a first one succeeded on is refused as not
    cancellable and leaves the store as the first one left it, so stock is
    given back once only. *)
Theorem cancelOrder_twice now now2 user id (db : DB) r db' r' r2 :
  OrderCancelView_post now user id db r = (OrderCancelled, db', r') →
  OrderCancelView_post now2 user id db' r2 = (OrderNotCancellable, db', r2).
Proof.
  intros H.
  apply cancel_success in H as (order & db1 & number & _ & Hu & _ & _ & Ho & _).
  unfold OrderCancelView_post. rewrite Ho, lookup_insert_eq. simpl.
  by rewrite bool_decide_eq_true_2.
Qed.

Lemma cancelOrder_twice_witness :
  OrderCancelView_post date_example 1 1 cancelled_twice.1.2 rnd_example
  = (OrderNotCancellable, cancelled_twice.1.2, rnd_example).
Proof.
  apply (cancelOrder_twice date_example date_example 1 1 created_twice.1.2
           created_twice.2 cancelled_twice.1.2 cancelled_twice.2 rnd_example).
  vm_compute. reflexivity.
Defined.

(** ** Who sees an order *)

(** X6.  A created order is visible, through the order detail view, to
    the user who placed it and to nobody else; a guest's order is visible to
    no user.  Any user who is not the owner gets the not-found answer from
    [cancelOrder], with the store unchanged; a guest's order can thus be
    cancelled by no one. *)
Theorem created_order_visibility now user data (db : DB) r order db' r' :
  OrderCreateView_post now user data db r = (OrderCreated order, db', r') →
  ∀ u,
    OrderDetailView_get_object db' u order.1
      = (if bool_decide (user = Some u) then Some order.2 else None) ∧
    (user ≠ Some u →
     ∀ now2 r2, OrderCancelView_post now2 u order.1 db' r2 = (OrderNotFound, db', r2)).
Proof.
  intros H u.
  apply create_success in H as (total & pdata & _ & _ & _ & -> & -> & _).
  set (order := (next_order_id db, _)). set (db0 := set_orders _ _).
  assert (orders (fold_left (create_line order) pdata db0) !! order.1 = Some order.2)
    as Ho.
  { destruct (fold_create_line_orders order pdata db0) as [-> _].
    unfold db0. simpl. apply lookup_insert_eq. }
  split.
  - unfold OrderDetailView_get_object, orders_of_user. case_bool_decide as Hu.
    + apply map_lookup_filter_Some_2; [exact Ho|]. simpl. exact Hu.
    + apply map_lookup_filter_None_2. right. intros o Ho'.
      rewrite Ho in Ho'. injection Ho' as <-. simpl. exact Hu.
  - intros Hu now2 r2. unfold OrderCancelView_post. rewrite Ho.
    by rewrite bool_decide_eq_false_2.
Qed.

Lemma created_order_visibility_witness :
  OrderDetailView_get_object created_twice.1.2 1 1 = Some order_twice ∧
  OrderCancelView_post date_example 2 1 created_twice.1.2 rnd_example
    = (OrderNotFound, created_twice.1.2, rnd_example).
Proof.
  destruct (created_order_visibility date_example (Some 1) (data_example cart_twice)
              db_one_product rnd_example (1, order_twice) created_twice.1.2
              created_twice.2 created_twice_eq 1) as [H1 _].
  destruct (created_order_visibility date_example (Some 1) (data_example cart_twice)
              db_one_product rnd_example (1, order_twice) created_twice.1.2
              created_twice.2 created_twice_eq 2) as [_ H2].
  split; [exact H1|]. apply H2. discriminate.
Defined.

(** ** The administrative bulk cancellation *)

Lemma restock_orders_frame ids (db : DB) :
  orders (restock_orders ids db).2 = orders db ∧
  order_items (restock_orders ids db).2 = order_items db.
Proof.
  revert db. induction ids as [|id ids IH]; intros db; simpl; [done|].
  destruct (restock_orders_same (order_items_of db id) db) as [Ho Hi].
  destruct (restock (order_items_of db id) db) as [[e|] db1]; simpl in *; [done|].
  destruct (IH db1) as [-> ->]. done.
Qed.

Lemma set_orders_same f (db : DB) : f (orders db) = orders db → set_orders f db = db.
Proof. destruct db. unfold set_orders. simpl. by intros ->. Qed.

(** X7.  When [mark_cancelled] completes, every selected order is
    cancelled and every other order is untouched, line items are untouched;
    if no selected order was pending or confirmed, no stock changes; and
    running the action again on the same selection changes nothing at all,
    so a bulk cancellation gives stock back once. *)
Theorem mark_cancelled_effects (selected : gset Z) (db db' : DB) :
  mark_cancelled selected db = (None, db') →
  (∀ k, orders db' !! k
        = (λ o, if bool_decide (k ∈ selected) then Order.with_status CANCELLED o else o)
            <$> orders db !! k) ∧
  order_items db' = order_items db ∧
  ((∀ k o, k ∈ selected → orders db !! k = Some o →
           Order.status o ∉ [PENDING; CONFIRMED]) →
   products db' = products db) ∧
  mark_cancelled selected db' = (None, db').
Proof.
  unfold mark_cancelled.
  set (to_restock := filter _ (elements selected)).
  destruct (restock_orders_frame to_restock db) as [Hfo Hfi].
  destruct (restock_orders to_restock db) as [[e|] db1] eqn:Hr; [done|].
  intros [= <-]. simpl in Hfo, Hfi.
  assert (∀ k, orders (queryset_update_status selected CANCELLED db1) !! k
               = (λ o, if bool_decide (k ∈ selected)
                       then Order.with_status CANCELLED o else o) <$> orders db !! k)
    as Hlook.
  { intros k. by rewrite queryset_update_status_lookup, Hfo. }
  split; [exact Hlook|]. split; [exact Hfi|]. split.
  - intros Hnone.
    assert (to_restock = []) as Hnil.
    { apply filter_none, Forall_forall. intros k Hk%elem_of_elements.
      destruct (orders db !! k) as [o|] eqn:Ho; simpl; [|done].
      apply not_true_iff_false. unfold cancellable. apply bool_decide_eq_false.
      by apply (Hnone k o). }
    rewrite Hnil in Hr. simpl in Hr. by injection Hr as <-.
  - set (db2 := queryset_update_status selected CANCELLED db1).
    rewrite (filter_none _ (elements selected)).
    + cbn [restock_orders]. f_equal.
      unfold queryset_update_status at 1. apply set_orders_same. apply map_eq. intros k.
      rewrite map_lookup_imap. unfold db2. rewrite (Hlook k).
      destruct (orders db !! k) as [o|]; [|done]. simpl.
      by case_bool_decide.
    + apply Forall_forall. intros k Hk%elem_of_elements.
      unfold db2. rewrite (Hlook k).
      destruct (orders db !! k) as [o|]; simpl; [|done].
      by rewrite bool_decide_eq_true_2.
Qed.

Lemma mark_cancelled_effects_witness :
  mark_cancelled {[1]} (mark_cancelled {[1]} (db_with_order PENDING)).2
  = (None, (mark_cancelled {[1]} (db_with_order PENDING)).2).
Proof.
  apply (mark_cancelled_effects {[1]} (db_with_order PENDING)
           (mark_cancelled {[1]} (db_with_order PENDING)).2).
  vm_compute. reflexivity.
Defined.

(** ** Deleting a product *)

Lemma filter_map_commute {A} (P : A → Prop) `{∀ x, Decision (P x)} (f : A → A) l :
  (∀ x, P (f x) ↔ P x) → filter P (map f l) = map f (filter P l).
Proof.
  intros Hf. induction l as [|x l IH]; [done|]. simpl.
  rewrite !filter_cons. destruct (decide (P x)) as [Hx|Hx].
  - rewrite decide_True by (by apply Hf). simpl. by rewrite IH.
  - rewrite decide_False by (by rewrite Hf). exact IH.
Qed.

Lemma order_items_of_Product_delete pid (db : DB) id :
  order_items_of (Product_delete pid db) id
  = map (λ i, if bool_decide (OrderItem.product i = Some pid)
              then OrderItem_set_null i else i) (order_items_of db id).
Proof.
  unfold order_items_of, Product_delete. simpl.
  apply (filter_map_commute (λ i, OrderItem.order i = id)).
  intros i. by case_bool_decide.
Qed.

(** X8.  Deleting a product removes its row and nothing else from the
    catalogue, sets the product reference of its line items to null while
    keeping the items with their snapshot (every order keeps its item count
    and its [get_total]), keeps the referential integrity of line items,
    leaves the orders alone, and removes exactly the favorites of that
    product. *)
Theorem Product_delete_effects pid (db : DB) :
  items_reference_products db →
  products (Product_delete pid db) !! pid = None ∧
  (∀ q, q ≠ pid → products (Product_delete pid db) !! q = products db !! q) ∧
  items_reference_products (Product_delete pid db) ∧
  orders (Product_delete pid db) = orders db ∧
  (∀ id, Order_items_count (Product_delete pid db) id = Order_items_count db id ∧
         Order_get_total (Product_delete pid db) id = Order_get_total db id) ∧
  (∀ u q, favorite_rows (Product_delete pid db) u q
          = if bool_decide (q = pid) then [] else favorite_rows db u q).
Proof.
  intros Hint. split; [apply lookup_delete_eq|].
  split; [by intros q Hq; apply lookup_delete_ne|].
  split; [|split; [done|split]].
  - unfold items_reference_products, Product_delete in *. simpl.
    apply Forall_forall. intros i (i0 & -> & Hi0)%list_elem_of_fmap q.
    rewrite Forall_forall in Hint. specialize (Hint i0 Hi0).
    case_bool_decide as Hp; [done|].
    intros Hq. rewrite lookup_delete_ne by congruence. by apply Hint.
  - intros id. unfold Order_items_count, Order_get_total.
    rewrite order_items_of_Product_delete. split; [by rewrite length_map|].
    rewrite !fold_left_add_costs. f_equal. rewrite map_map. f_equal.
    apply map_ext. intros i. by case_bool_decide.
  - intros u q. unfold favorite_rows, Product_delete. simpl.
    rewrite list_filter_filter. case_bool_decide as Hq.
    + apply filter_none, Forall_forall. intros f _ [[_ Hf] Hne]. congruence.
    + apply list_filter_iff. intros f. split; [by intros [? _]|].
      intros [Hu Hf]. split; [done|congruence].
Qed.

Lemma Product_delete_effects_witness :
  Order_get_total (Product_delete 7%N (db_with_order PENDING)) 1 = 2000 ∧
  products (Product_delete 7%N (db_with_order PENDING)) !! 7%N = None.
Proof.
  destruct (Product_delete_effects 7%N (db_with_order PENDING)
              (proj1 (db_with_order_integrity PENDING)))
    as (H1 & _ & _ & _ & H2 & _).
  split; [|exact H1]. by rewrite (proj2 (H2 1)).
Defined.

Lemma lines_quantity_Product_delete pid (db : DB) id q :
  q ≠ pid →
  lines_quantity (order_items_of (Product_delete pid db) id) q
  = lines_quantity (order_items_of db id) q.
Proof.
  intros Hq. rewrite order_items_of_Product_delete. unfold lines_quantity. f_equal.
  generalize (order_items_of db id). intros l.
  induction l as [|i l IH]; [done|]. simpl. rewrite !filter_cons.
  case_bool_decide as Hp.
  - rewrite decide_False by done.
    rewrite decide_False by (rewrite Hp; congruence). exact IH.
  - destruct (decide (OrderItem.product i = Some q)); [|exact IH].
    rewrite !fmap_cons. by rewrite IH.
Qed.

(** X9.  A product deleted after an order was placed does not block the
    cancellation of that order: in a consistent store where the stocks of
    the remaining products stay within the range of their column, the owner's
    [cancelOrder] of a pending or confirmed order still succeeds once the
    product is gone, the deleted product is not brought back, every product
    still stored gets back the quantities of the lines that reference it as
    they did before the deletion, and the order keeps its [get_total]. *)
Theorem cancelOrder_after_Product_delete now user id (db : DB) r order pid :
  orders db !! id = Some order → Order.user order = Some user →
  Order.status order ∈ [PENDING; CONFIRMED] →
  items_reference_products db → quantities_positive db →
  order_numbers_assigned db → unique_order_numbers db →
  (∀ q p, q ≠ pid → products db !! q = Some p →
          Product.stock p + lines_quantity (order_items_of db id) q ≤ stock_max) →
  ∃ db',
    OrderCancelView_post now user id (Product_delete pid db) r = (OrderCancelled, db', r) ∧
    products db' !! pid = None ∧
    (∀ q, q ≠ pid →
       products db' !! q
       = (λ p, Product.with_stock
                 (Product.stock p + lines_quantity (order_items_of db id) q) p)
           <$> products db !! q) ∧
    Order_get_total db' id = Order_get_total db id.
Proof.
  intros Ho Hu Hs Hint Hq Hnum Huniq Hb.
  assert (items_reference_products (Product_delete pid db)) as Hint'.
  { unfold items_reference_products, Product_delete in *. simpl.
    apply Forall_forall. intros i (i0 & -> & Hi0)%list_elem_of_fmap q.
    rewrite Forall_forall in Hint. specialize (Hint i0 Hi0).
    case_bool_decide as Hp; [done|].
    intros Hq'. rewrite lookup_delete_ne by congruence. by apply Hint. }
  assert (Forall (λ i, 0 ≤ OrderItem.quantity i)
                 (order_items_of (Product_delete pid db) id)) as Hq'.
  { rewrite order_items_of_Product_delete. apply Forall_forall.
    intros i (i0 & <- & Hi0%list_elem_of_In)%list_elem_of_In%in_map_iff.
    pose proof (order_items_of_quantities db id Hq) as Hall.
    rewrite Forall_forall in Hall. specialize (Hall i0 Hi0).
    by case_bool_decide. }
  destruct (cancel_owner_core now user id (Product_delete pid db) r order
              Ho Hu Hs Hint' Hnum Huniq Hq') as (db1 & Hr & Hdom & ->).
  { intros q p Hp. change (products (Product_delete pid db)) with (delete pid (products db)) in Hp.
    apply lookup_delete_Some in Hp as [Hne Hp].
    rewrite lines_quantity_Product_delete by done. by apply Hb. }
  eexists. split; [done|].
  destruct (restock_orders_same (order_items_of (Product_delete pid db) id)
              (Product_delete pid db)) as [_ Hsi]. rewrite Hr in Hsi.
  change (order_items db1 = order_items (Product_delete pid db)) in Hsi.
  split; [|split].
  - apply (not_elem_of_dom (products db1)). rewrite Hdom.
    apply not_elem_of_dom, lookup_delete_eq.
  - intros q Hne. change (products (set_orders _ db1)) with (products db1).
    rewrite (restock_adds _ _ _ q Hr).
    change (products (Product_delete pid db)) with (delete pid (products db)).
    rewrite lookup_delete_ne by done.
    by rewrite lines_quantity_Product_delete.
  - unfold Order_get_total.
    change (order_items_of (set_orders _ db1) id)
      with (filter (λ i, OrderItem.order i = id) (order_items db1)).
    rewrite Hsi.
    change (filter (λ i, OrderItem.order i = id) (order_items (Product_delete pid db)))
      with (order_items_of (Product_delete pid db) id).
    rewrite order_items_of_Product_delete, !fold_left_add_costs. f_equal.
    rewrite map_map. f_equal. apply map_ext. intros i. by case_bool_decide.
Qed.

Lemma cancelOrder_after_Product_delete_witness :
  ∃ db', OrderCancelView_post date_example 1 1 (Product_delete 7%N (db_with_order PENDING))
           rnd_example = (OrderCancelled, db', rnd_example) ∧
         products db' !! 7%N = None.
Proof.
  destruct (db_with_order_integrity PENDING) as (H1 & H2 & H3).
  destruct (db_with_order_range PENDING) as (H4 & _ & H6).
  assert (Order.status (order_example PENDING) ∈ [PENDING; CONFIRMED]) as Hs
    by (by apply (bool_decide_eq_true_1 _)).
  destruct (cancelOrder_after_Product_delete date_example 1 1 (db_with_order PENDING)
              rnd_example (order_example PENDING) 7%N eq_refl eq_refl Hs H1 H4 H2 H3)
    as (db' & Hc & Hp & _).
  { intros q p _ Hp. by apply H6. }
  by exists db'.
Defined.

(** ** What the validation of a cart reports *)

Lemma msg_not_found_distinct name :
  msg_not_found ≠ msg_cart_empty ∧ msg_not_found ≠ msg_insufficient name.
Proof. split; unfold msg_not_found, msg_cart_empty, msg_insufficient; discriminate. Qed.

Lemma is_valid_stages (db : DB) data :
  (Exists (line_rejected db) (d_items data) →
   is_valid db data = inl (PerItem (map (item_errors db) (d_items data)))) ∧
  (Forall (λ line, ¬ line_rejected db line) (d_items data) →
   is_valid db data = match validate_items db (d_items data) with
                      | inl msgs => inl (Messages msgs)
                      | inr _ => inr data
                      end).
Proof.
  unfold is_valid. split.
  - intros H. by rewrite run_items_validation_rejected.
  - intros H. rewrite run_items_validation_resolved by done.
    rewrite validate_items_refines. by destruct (spec_validate db (d_items data)).
Qed.

(** With every line resolved, the messages of [validate_items] on a cart
    that is not empty are the insufficient-stock messages of its lines. *)
Lemma validate_items_resolved (db : DB) items :
  Forall (λ line, ¬ line_rejected db line) items →
  map message (flat_map (spec_line_errors db) items)
  = flat_map (λ line, match get_active_product db (product_id line) with
                      | Some p => if Product.stock p <? quantity line
                                  then [msg_insufficient (Product.name p)] else []
                      | None => []
                      end) items.
Proof.
  induction 1 as [|line items Hline _ IH]; [done|].
  simpl. rewrite map_app, IH. f_equal.
  unfold spec_line_errors, line_rejected in *.
  destruct (get_active_product db (product_id line)) as [p|]; [|by destruct Hline; left].
  by destruct (Product.stock p <? quantity line).
Qed.

Lemma spec_line_errors_none (db : DB) items :
  Forall (λ line, ∃ p, get_active_product db (product_id line) = Some p ∧
                       1 ≤ quantity line ≤ Product.stock p) items →
  flat_map (spec_line_errors db) items = [].
Proof.
  induction 1 as [|line items (p & Hp & Hq) _ IH]; [done|].
  simpl. rewrite IH, app_nil_r. unfold spec_line_errors. rewrite Hp.
  by rewrite (proj2 (Z.ltb_ge _ _)) by lia.
Qed.

(** X10.  What [is_valid] answers is decided by the cart and the store as
    follows.  It answers with per-line dictionaries exactly when some line
    names a missing or inactive product or asks for less than one unit, and
    the dictionaries are then those of all lines, by position.  It answers
    with a list of messages exactly when no line is rejected and
    [validate_items] raises, and the messages are those raised: the
    cart-is-empty message for an empty cart, otherwise one insufficient-stock
    message for every line whose stock is below its quantity, in cart order;
    the not-found message of [validate_items] is never among them.  It
    accepts, returning the data unchanged, exactly when the cart is not empty
    and every line names an active product and asks for at least one unit and
    at most the stock. *)
Theorem is_valid_error_shape (db : DB) data :
  (∀ dicts, is_valid db data = inl (PerItem dicts) ↔
     Exists (line_rejected db) (d_items data) ∧
     dicts = map (item_errors db) (d_items data)) ∧
  (∀ msgs, is_valid db data = inl (Messages msgs) ↔
     Forall (λ line, ¬ line_rejected db line) (d_items data) ∧
     validate_items db (d_items data) = inl msgs) ∧
  (∀ msgs, is_valid db data = inl (Messages msgs) →
     (msg_not_found ∉ msgs) ∧
     msgs = match d_items data with
            | [] => [msg_cart_empty]
            | items =>
                flat_map (λ line, match get_active_product db (product_id line) with
                                  | Some p => if Product.stock p <? quantity line
                                              then [msg_insufficient (Product.name p)]
                                              else []
                                  | None => []
                                  end) items
            end) ∧
  (∀ validated, is_valid db data = inr validated ↔
     validated = data ∧ d_items data ≠ [] ∧
     Forall (λ line, ∃ p, get_active_product db (product_id line) = Some p ∧
                          1 ≤ quantity line ≤ Product.stock p) (d_items data)).
Proof.
  destruct (is_valid_stages db data) as [Hst1 Hst2].
  assert (∀ msgs, is_valid db data = inl (Messages msgs) →
            Forall (λ line, ¬ line_rejected db line) (d_items data) ∧
            validate_items db (d_items data) = inl msgs) as Hmsgs.
  { intros msgs H. destruct (lines_rejected_or_not db (d_items data)) as [Hrej|Hok].
    - by rewrite (Hst1 Hrej) in H.
    - split; [done|]. rewrite (Hst2 Hok) in H.
      destruct (validate_items db (d_items data)); [|done]. by injection H as ->. }
  split; [|split; [|split]].
  - intros dicts. split.
    + intros H. destruct (lines_rejected_or_not db (d_items data)) as [Hrej|Hok].
      * rewrite (Hst1 Hrej) in H. by injection H as <-.
      * rewrite (Hst2 Hok) in H. by destruct (validate_items db (d_items data)).
    + intros [Hrej ->]. by apply Hst1.
  - intros msgs. split; [apply Hmsgs|]. intros [Hok Hv]. by rewrite (Hst2 Hok), Hv.
  - intros msgs H. apply Hmsgs in H as [Hok Hv].
    rewrite validate_items_refines in Hv. unfold spec_validate in Hv.
    destruct (d_items data) as [|l0 ls] eqn:Hitems.
    + injection Hv as <-. split; [|done]. intros Hin%list_elem_of_singleton.
      by destruct (msg_not_found_distinct "").
    + rewrite <- Hitems in *.
      assert (msgs = map message (flat_map (spec_line_errors db) (d_items data))) as ->.
      { destruct (flat_map (spec_line_errors db) (d_items data)); [done|].
        by injection Hv as <-. }
      rewrite (validate_items_resolved db (d_items data) Hok). split; [|by rewrite Hitems].
      intros (line & _ & Hin)%list_elem_of_In%in_flat_map.
      destruct (get_active_product db (product_id line)) as [p|]; [|done].
      destruct (Product.stock p <? quantity line); [|done].
      destruct Hin as [Heq|[]]. symmetry in Heq.
      by destruct (msg_not_found_distinct (Product.name p)).
  - intros validated. split.
    + intros H. pose proof (is_valid_lines db data validated H) as [-> Hlines].
      split; [done|]. split.
      * intros Hnil. unfold is_valid, run_items_validation in H.
        rewrite Hnil in H. by simpl in H.
      * eapply Forall_impl; [exact Hlines|]. simpl. intros line (Hq & p & Hp & Ha & Hs).
        exists p. unfold get_active_product. by rewrite Hp, Ha.
    + intros (-> & Hne & Hall).
      assert (Forall (λ line, ¬ line_rejected db line) (d_items data)) as Hok.
      { eapply Forall_impl; [exact Hall|]. simpl. intros line (p & Hp & Hq).
        unfold line_rejected. rewrite Hp. intros [?|?]; [done|lia]. }
      rewrite (Hst2 Hok), validate_items_refines. unfold spec_validate.
      destruct (d_items data) as [|l0 ls] eqn:Hitems; [done|]. rewrite <- Hitems in *.
      by rewrite (spec_line_errors_none db (d_items data) Hall).
Qed.

Lemma is_valid_error_shape_witness :
  is_valid db_one_product (data_example cart_mixed)
    = inl (PerItem (map (item_errors db_one_product) cart_mixed)) ∧
  is_valid db_one_product (data_example cart_twice) = inr (data_example cart_twice).
Proof.
  split.
  - apply (proj1 (is_valid_error_shape db_one_product (data_example cart_mixed))).
    split; [|done]. apply Exists_cons_tl, Exists_cons_hd. by left.
  - apply (proj2 (proj2 (proj2 (is_valid_error_shape db_one_product
                                  (data_example cart_twice))))).
    split; [done|]. split; [done|].
    repeat constructor; exists (Product.mk "A" 1000 5 true); split; try reflexivity;
      simpl; lia.
Defined.

(** * Further properties of favorites *)

Lemma favorite_rows_other (l : list Favorite.t) (f : Favorite.t) u p :
  (u, p) ≠ (Favorite.user f, Favorite.product f) →
  filter (λ g, Favorite.user g = u ∧ Favorite.product g = p) (l ++ [f])%list
  = filter (λ g, Favorite.user g = u ∧ Favorite.product g = p) l.
Proof.
  intros Hne. rewrite filter_app, filter_cons, decide_False, filter_nil, app_nil_r; [done|].
  intros [<- <-]. done.
Qed.

(** X11.  Adding a favorite touches one (user, product) pair only: the
    rows and the favorite flag of every other pair are as before, products
    are untouched, an anonymous reader never sees a favorite flag, the pair
    reads as a favorite after an add that answered added or exists, and an
    add for a missing or inactive product is refused with the store
    unchanged. *)
Theorem favorite_add_effects user pid (db : DB) :
  let res := FavoriteToggleView_post user pid db in
  (∀ u' p', (u', p') ≠ (user, pid) →
     favorite_rows res.2 u' p' = favorite_rows db u' p' ∧
     get_is_favorite (Some u') p' res.2 = get_is_favorite (Some u') p' db) ∧
  (res.1 = FavoriteAdded ∨ res.1 = FavoriteExists →
     get_is_favorite (Some user) pid res.2 = true) ∧
  (get_active_product db pid = None → res = (ProductIdInvalid, db)) ∧
  (∀ p', get_is_favorite None p' res.2 = false) ∧
  products res.2 = products db.
Proof.
  cbv zeta. unfold FavoriteToggleView_post, validate_product_id.
  destruct (get_active_product db pid) as [p|] eqn:Ha.
  2:{ simpl. split; [by intros|]. split; [by intros [|]|]. by repeat split. }
  destruct (products db !! pid) as [p'|].
  2:{ simpl. split; [by intros|]. split; [by intros [|]|]. by repeat split. }
  unfold Favorite_get_or_create.
  destruct (filter _ (favorites db)) as [|f [|f' rest]] eqn:Hrows; simpl.
  - split; [|split; [|split; [done|done]]].
    + intros u' p0 Hne. unfold get_is_favorite, favorite_rows. simpl.
      by rewrite favorite_rows_other.
    + intros _. unfold get_is_favorite, favorite_rows. simpl.
      rewrite filter_app, Hrows, filter_cons, decide_True by done.
      by apply bool_decide_eq_true.
  - split; [done|]. split; [|done]. intros _.
    unfold get_is_favorite, favorite_rows. rewrite Hrows. by apply bool_decide_eq_true.
  - split; [done|]. split; [|done]. by intros [|].
Qed.

Lemma favorite_add_effects_witness :
  get_is_favorite (Some 1) 7%N (FavoriteToggleView_post 1 7%N db_one_product).2 = true.
Proof.
  apply (proj1 (proj2 (favorite_add_effects 1 7%N db_one_product))).
  left. reflexivity.
Defined.

Lemma NoDup_fmap_inj_on {A B} (f : A → B) (l : list A) x y :
  NoDup (f <$> l) → x ∈ l → y ∈ l → f x = f y → x = y.
Proof.
  induction l as [|z l IH]; [by intros _ Hx%not_elem_of_nil|].
  rewrite fmap_cons. intros [Hz Hnd]%NoDup_cons.
  intros [-> | Hx]%elem_of_cons [-> | Hy]%elem_of_cons Heq.
  - done.
  - exfalso. apply Hz. rewrite Heq. apply list_elem_of_fmap. by exists y.
  - exfalso. apply Hz. rewrite <- Heq. apply list_elem_of_fmap. by exists x.
  - by apply IH.
Qed.

Lemma filter_ext_in {A} (P Q : A → Prop) `{∀ x, Decision (P x)} `{∀ x, Decision (Q x)}
    (l : list A) :
  (∀ x, x ∈ l → (P x ↔ Q x)) → filter P l = filter Q l.
Proof.
  induction l as [|x l IH]; intros Hext; [done|].
  rewrite !filter_cons.
  assert (filter P l = filter Q l) as -> by (apply IH; intros y Hy; apply Hext; by right).
  destruct (decide (P x)) as [Hp|Hp].
  - rewrite decide_True; [done|]. apply Hext; [left|done].
  - rewrite decide_False; [done|]. intros Hq. apply Hp. apply Hext; [left|done].
Qed.

(** X12.  Removing a favorite, in a store whose favorite keys are
    distinct: when the answer is removed, the pair has no row left and the
    favorite flag reads false; when the pair has no row the answer is
    not-found and the store is unchanged; in every case the rows of all other
    pairs are exactly as before and products are untouched.  The toggle
    view's delete without a product id answers that the id is required and
    changes nothing. *)
Theorem favorite_delete_effects user pid (db : DB) :
  favorite_ids_unique db →
  let res := FavoriteDeleteView_delete user pid db in
  (res.1 = FavoriteRemoved →
     favorite_rows res.2 user pid = [] ∧ get_is_favorite (Some user) pid res.2 = false) ∧
  (favorite_rows db user pid = [] → res = (FavoriteNotFound, db)) ∧
  (∀ u' p', (u', p') ≠ (user, pid) →
     favorite_rows res.2 u' p' = favorite_rows db u' p') ∧
  products res.2 = products db ∧
  FavoriteToggleView_delete user None db = (ProductIdRequired, db) ∧
  FavoriteToggleView_delete user (Some pid) db = res.
Proof.
  intros Hnd. cbv zeta. unfold FavoriteToggleView_delete, FavoriteDeleteView_delete,
    Favorite_get.
  destruct (favorite_rows db user pid) as [|f [|f' rest]] eqn:Hrows; simpl.
  - repeat split; done.
  - assert (f ∈ favorites db ∧ Favorite.user f = user ∧ Favorite.product f = pid)
      as (Hf & Hfu & Hfp).
    { assert (f ∈ favorite_rows db user pid) as Hin by (rewrite Hrows; left).
      apply list_elem_of_filter in Hin as [[? ?] ?]. done. }
    assert (favorite_rows (Favorite_delete f db) user pid = []) as Hgone.
    { unfold favorite_rows, Favorite_delete. simpl. rewrite list_filter_filter.
      apply filter_none, Forall_forall. intros g Hg [Hp Hid]. apply Hid.
      assert (g ∈ favorite_rows db user pid) as Hin
        by (apply list_elem_of_filter; by split).
      rewrite Hrows in Hin. by apply list_elem_of_singleton in Hin as ->. }
    split; [|split; [done|split; [|done]]].
    + intros _. split; [exact Hgone|].
      unfold get_is_favorite. rewrite Hgone. apply bool_decide_eq_false.
      intros H. by apply H.
    + intros u' p' Hne. unfold favorite_rows, Favorite_delete. simpl.
      rewrite list_filter_filter. apply filter_ext_in. intros g Hg.
      split; [by intros [? _]|]. intros [Hu Hp]. split; [done|]. intros Hid.
      apply Hne. rewrite <- Hu, <- Hp, <- Hfu, <- Hfp.
      by rewrite (NoDup_fmap_inj_on Favorite.id (favorites db) g f Hnd Hg Hf Hid).
  - repeat split; try done.
Qed.

Lemma favorite_delete_effects_witness :
  favorite_rows
    (FavoriteDeleteView_delete 1 7%N (FavoriteToggleView_post 1 7%N db_one_product).2).2
    1 7%N = [].
Proof.
  apply (proj1 (favorite_delete_effects 1 7%N
                  (FavoriteToggleView_post 1 7%N db_one_product).2
                  ltac:(vm_compute; repeat constructor; by intros ?%not_elem_of_nil))).
  reflexivity.
Defined.

(** X13.  Adding a favorite and removing it again gives the favorites
    table back row for row: in a store whose favorite keys lie below the
    sequence, for an active product that is not yet a favorite of the user,
    the add answers added, the delete that follows answers removed and the
    table is the one before the add, and a further delete answers
    not-found. *)
Theorem favorite_add_then_delete user pid (db : DB) p :
  favorites_below_sequence db →
  products db !! pid = Some p → Product.is_active p = true →
  favorite_rows db user pid = [] →
  ∃ db1 db2,
    FavoriteToggleView_post user pid db = (FavoriteAdded, db1) ∧
    FavoriteDeleteView_delete user pid db1 = (FavoriteRemoved, db2) ∧
    favorites db2 = favorites db ∧ products db2 = products db ∧
    FavoriteDeleteView_delete user pid db2 = (FavoriteNotFound, db2).
Proof.
  intros Hseq Hp Ha Hrows.
  destruct (favorite_post_new user pid db p Hp Ha Hrows) as (db1 & H1 & Hp1 & Hf1).
  exists db1. unfold FavoriteDeleteView_delete at 1, Favorite_get.
  assert (favorite_rows db1 user pid = [Favorite.mk (next_favorite_id db) user pid])
    as Hrows1.
  { unfold favorite_rows in *. rewrite Hf1, filter_app, Hrows, filter_cons.
    by rewrite decide_True. }
  rewrite Hrows1. eexists. split; [exact H1|]. split; [done|].
  assert (favorites (Favorite_delete (Favorite.mk (next_favorite_id db) user pid) db1)
          = favorites db) as Hback.
  { unfold Favorite_delete. simpl. rewrite Hf1, filter_app, filter_cons.
    rewrite decide_False by (intros H; by apply H). rewrite filter_nil, app_nil_r.
    apply filter_all. eapply Forall_impl; [exact Hseq|]. simpl. intros g Hg. lia. }
  split; [exact Hback|]. split; [exact Hp1|].
  unfold FavoriteDeleteView_delete, Favorite_get, favorite_rows.
  rewrite Hback. unfold favorite_rows in Hrows. by rewrite Hrows.
Qed.

Lemma favorite_add_then_delete_witness :
  ∃ db1 db2,
    FavoriteToggleView_post 1 7%N db_one_product = (FavoriteAdded, db1) ∧
    FavoriteDeleteView_delete 1 7%N db1 = (FavoriteRemoved, db2) ∧
    favorites db2 = favorites db_one_product.
Proof.
  destruct (favorite_add_then_delete 1 7%N db_one_product (Product.mk "A" 1000 5 true)
              (Forall_nil_2 _) eq_refl eq_refl eq_refl)
    as (db1 & db2 & H1 & H2 & H3 & _).
  by exists db1, db2.
Defined.

(** * Registration and one-time codes *)

Example registered_example_eval :
  registered_example.1.1 = CodeSent 201 ∧
  otp_code registered_example.1.2 !! 1 = Some "100003".
Proof. vm_compute. split; reflexivity. Qed.

Lemma set_profiles_same f (db : DB) :
  f (profiles db) = profiles db → set_profiles f (next_profile_id db) db = db.
Proof. destruct db. unfold set_profiles. simpl. by intros ->. Qed.

Lemma profile_of_elem (db : DB) k p :
  profile_of db k = Some p → p ∈ profiles db ∧ Profile.user p = k.
Proof.
  unfold profile_of. intros H.
  assert (p ∈ filter (λ p, Profile.user p = k) (profiles db)) as Hin.
  { destruct (filter _ (profiles db)) as [|q l]; [done|]. injection H as ->. left. }
  apply list_elem_of_filter in Hin as [? ?]. done.
Qed.

(** Saving a profile as it is stored changes nothing. *)
Lemma Profile_save_stored (db : DB) p :
  profile_ids_unique db → p ∈ profiles db → Profile_save p db = db.
Proof.
  intros Hnd Hp. unfold Profile_save. apply set_profiles_same.
  rewrite <- (map_id (profiles db)) at 2. apply map_ext_in.
  intros q Hq%list_elem_of_In. case_bool_decide as Hid; [|done].
  symmetry. by apply (NoDup_fmap_inj_on Profile.id (profiles db)).
Qed.

Lemma User_save_stored k u (db : DB) :
  profile_ids_unique db →
  User_save k u db = (None, set_users (insert k u) (next_user_id db) db).
Proof.
  intros Hnd. unfold User_save. simpl. unfold save_user_profile.
  set (db1 := set_users _ _ db).
  destruct (profile_of db1 k) as [p|] eqn:Hp; [|done].
  apply profile_of_elem in Hp as [Hp _]. by rewrite (Profile_save_stored db1 p Hnd Hp).
Qed.

Lemma users_by_email_update T (db db' : DB) k u u' email :
  users db !! k = Some u → users db' = <[k := u']> (users db) →
  User.email u' = User.email u →
  users_by_email T db' email = users_by_email T db email.
Proof.
  intros Hk Hu He. unfold users_by_email. f_equal. apply set_eq. intros i.
  rewrite !elem_of_dom. unfold is_Some. rewrite Hu.
  split; intros [x Hx]; apply map_lookup_filter_Some in Hx as [Hx HP]; simpl in HP.
  - destruct (decide (i = k)) as [->|Hne].
    + rewrite lookup_insert_eq in Hx. injection Hx as <-. exists u.
      apply map_lookup_filter_Some. split; [done|]. simpl. by rewrite <- He.
    + rewrite lookup_insert_ne in Hx by done. exists x.
      by apply map_lookup_filter_Some.
  - destruct (decide (i = k)) as [->|Hne].
    + rewrite Hk in Hx. injection Hx as <-. exists u'.
      apply map_lookup_filter_Some. rewrite lookup_insert_eq. split; [done|].
      simpl. by rewrite He.
    + exists x. apply map_lookup_filter_Some. by rewrite lookup_insert_ne.
Qed.

(** X14.  The outcomes of [VerifyOTPView.post] for an e-mail that resolves
    to one user with a profile (both fields non-empty once trimmed).  A code
    other than the stored one is refused and nothing is written.  The stored
    code is refused as expired, nothing written, when more than ten minutes
    have passed since it was issued; at exactly ten minutes, or when no issue
    instant is stored, it is accepted.  On acceptance the user becomes
    active, both code columns of the profile are cleared, and every other
    row and column stays as it was. *)
Theorem VerifyOTPView_outcomes T email code now (a : AuthDB) k user profile :
  lower T (strip T email) ≠ "" → strip T code ≠ "" →
  User_get_by_email T (base a) (lower T (strip T email)) = inr k →
  users (base a) !! k = Some user → profile_of (base a) k = Some profile →
  profile_ids_unique (base a) →
  (otp_code a !! Profile.id profile ≠ Some (strip T code) →
     VerifyOTPView_post T email code now a = (WrongCode, a)) ∧
  (otp_code a !! Profile.id profile = Some (strip T code) →
     (∀ t, otp_created_at a !! Profile.id profile = Some t → ten_minutes < now - t →
           VerifyOTPView_post T email code now a = (CodeExpired, a)) ∧
     ((∀ t, otp_created_at a !! Profile.id profile = Some t → now - t ≤ ten_minutes) →
      VerifyOTPView_post T email code now a
      = (Verified k,
         mkAuth (set_users (insert k (User_activate user)) (next_user_id (base a)) (base a))
                (delete (Profile.id profile) (otp_code a))
                (delete (Profile.id profile) (otp_created_at a))))).
Proof.
  intros He Hc Hget Hu Hp Hnd. unfold VerifyOTPView_post.
  rewrite !bool_decide_eq_false_2 by done. simpl orb. cbv iota.
  rewrite Hget, Hu, Hp. split.
  - intros Hne. by rewrite bool_decide_eq_true_2.
  - intros Heq. rewrite bool_decide_eq_false_2 by (intros H; by apply H).
    unfold otp_expired. split.
    + intros t -> Hlt. by rewrite (proj2 (Z.ltb_lt _ _) Hlt).
    + intros Hle.
      assert ((match otp_created_at a !! Profile.id profile with
               | Some t => ten_minutes <? now - t
               | None => false
               end) = false) as ->.
      { destruct (otp_created_at a !! Profile.id profile) as [t|]; [|done].
        apply Z.ltb_ge. by apply Hle. }
      rewrite (User_save_stored k (User_activate user) (base a) Hnd).
      f_equal. unfold Profile_save_otp. simpl. f_equal.
      apply Profile_save_stored; [exact Hnd|].
      by apply profile_of_elem in Hp as [? _].
Qed.

Lemma registered_example_facts :
  User_get_by_email text_example (base registered_example.1.2) "aman@example.com"
    = inr 1 ∧
  users (base registered_example.1.2) !! 1 = Some user_example ∧
  profile_of (base registered_example.1.2) 1 = Some (Profile.mk 1 1 "+99365000000") ∧
  otp_code registered_example.1.2 !! 1 = Some "100003" ∧
  otp_created_at registered_example.1.2 !! 1 = Some 0.
Proof. vm_compute. repeat split; reflexivity. Qed.

Lemma registered_example_unique : profile_ids_unique (base registered_example.1.2).
Proof.
  unfold profile_ids_unique.
  change (NoDup [1]). apply NoDup_singleton.
Qed.

Lemma VerifyOTPView_outcomes_witness :
  VerifyOTPView_post text_example "aman@example.com" "100003" (ten_minutes + 1)
    registered_example.1.2 = (CodeExpired, registered_example.1.2) ∧
  VerifyOTPView_post text_example "aman@example.com" "000000" 5
    registered_example.1.2 = (WrongCode, registered_example.1.2).
Proof.
  destruct registered_example_facts as (Hg & Hu & Hp & Hc & Ht).
  destruct (VerifyOTPView_outcomes text_example "aman@example.com" "100003"
              (ten_minutes + 1) registered_example.1.2 1 user_example
              (Profile.mk 1 1 "+99365000000") ltac:(discriminate) ltac:(discriminate)
              Hg Hu Hp registered_example_unique) as [_ H2].
  destruct (VerifyOTPView_outcomes text_example "aman@example.com" "000000"
              5 registered_example.1.2 1 user_example
              (Profile.mk 1 1 "+99365000000") ltac:(discriminate) ltac:(discriminate)
              Hg Hu Hp registered_example_unique) as [H1 _].
  split.
  - apply (proj1 (H2 Hc) 0 Ht). unfold ten_minutes. lia.
  - apply H1. intros Heq. vm_compute in Heq. discriminate.
Defined.

(** X15.  A one-time code verifies once.  After a verification that was
    accepted, verifying again for the same e-mail, with the same or any other
    code and at any instant, is refused as a wrong code and writes
    nothing. *)
Theorem VerifyOTPView_single_use T email code now (a a' : AuthDB) k :
  profile_ids_unique (base a) →
  VerifyOTPView_post T email code now a = (Verified k, a') →
  ∀ code2 now2, strip T code2 ≠ "" →
    VerifyOTPView_post T email code2 now2 a' = (WrongCode, a').
Proof.
  intros Hnd H code2 now2 Hc2. revert H. unfold VerifyOTPView_post.
  destruct (bool_decide (lower T (strip T email) = "")) eqn:He; [done|].
  destruct (bool_decide (strip T code = "")) eqn:Hc; [done|]. simpl orb. cbv iota.
  rewrite (bool_decide_eq_false_2 (strip T code2 = "")) by done.
  destruct (User_get_by_email T (base a) (lower T (strip T email))) as [[]|k0] eqn:Hget;
    try done.
  destruct (users (base a) !! k0) as [user|] eqn:Hu; [|done].
  destruct (profile_of (base a) k0) as [profile|] eqn:Hp; [|done].
  destruct (bool_decide (otp_code a !! Profile.id profile ≠ Some (strip T code)));
    [done|].
  destruct (otp_expired a profile now); [done|].
  rewrite (User_save_stored k0 (User_activate user) (base a) Hnd).
  intros [= <- <-].
  assert (Profile_save profile
            (set_users (insert k0 (User_activate user)) (next_user_id (base a)) (base a))
          = set_users (insert k0 (User_activate user)) (next_user_id (base a)) (base a))
    as Hsave.
  { apply Profile_save_stored; [exact Hnd|]. by apply profile_of_elem in Hp as [? _]. }
  unfold Profile_save_otp. simpl base. rewrite Hsave. simpl otp_code.
  assert (User_get_by_email T
            (set_users (insert k0 (User_activate user)) (next_user_id (base a)) (base a))
            (lower T (strip T email)) = inr k0) as ->.
  { unfold User_get_by_email in *.
    by rewrite (users_by_email_update T (base a) _ k0 user (User_activate user)). }
  simpl users. rewrite lookup_insert_eq.
  change (profile_of (set_users _ _ (base a)) k0) with (profile_of (base a) k0).
  rewrite Hp, lookup_delete_eq. by rewrite bool_decide_eq_true_2.
Qed.

Lemma VerifyOTPView_single_use_witness :
  ∃ a', VerifyOTPView_post text_example "aman@example.com" "100003" 5
          registered_example.1.2 = (Verified 1, a') ∧
        VerifyOTPView_post text_example "aman@example.com" "100003" 6 a'
          = (WrongCode, a').
Proof.
  eexists. split; [vm_compute; reflexivity|].
  apply (VerifyOTPView_single_use text_example "aman@example.com" "100003" 5
           registered_example.1.2 _ 1 registered_example_unique).
  - vm_compute. reflexivity.
  - discriminate.
Defined.

Lemma orders_clear_none (db : DB) k :
  map_Forall (λ _ o, Order.user o ≠ Some k) (orders db) →
  (λ o, if bool_decide (Order.user o = Some k) then Order_clear_user o else o)
    <$> orders db = orders db.
Proof.
  intros H. apply map_eq. intros i. rewrite lookup_fmap.
  destruct (orders db !! i) as [o|] eqn:Ho; [|done]. simpl.
  by rewrite bool_decide_eq_false_2 by (by apply (H i o)).
Qed.

Lemma filter_fresh_key {V} (m : gmap Z V) k (v : V) :
  m !! k = None →
  filter (λ kv : Z * V, kv.1 ∉ [k]) (<[k := v]> m) = m.
Proof.
  intros Hk. apply map_eq. intros i.
  destruct (decide (i = k)) as [->|Hne].
  - rewrite Hk. apply map_lookup_filter_None_2. right. intros x _ Hn. apply Hn. left.
  - destruct (m !! i) as [x|] eqn:Hi.
    + apply map_lookup_filter_Some_2; [by rewrite lookup_insert_ne|].
      simpl. by intros ?%list_elem_of_singleton.
    + apply map_lookup_filter_None_2. left. by rewrite lookup_insert_ne.
Qed.

(** X16.  Registration leaves nothing behind when the code cannot be
    mailed.  In a consistent store whose sequences are ahead of every key in
    use, and for a phone that fits its column (at most 20 characters),
    [RegisterView.post] with a failing mail answers with the mail error (for
    a free username) and, whatever its answer, the users, profiles, one-time
    codes, favorites, orders, line items and products are exactly those
    before the request.  A phone of more than 20 characters, the user name
    being free, is not rolled back: whether or not the mail would go out, the
    request ends in the unhandled DataError before any code is issued, and
    the inactive user stays stored with one profile, its phone empty.  An
    invalid body changes nothing at all. *)
Theorem RegisterView_mail_failure_rolls_back data now (a : AuthDB) r :
  accounts_consistent (base a) → user_keys_below_sequence (base a) →
  otp_below_sequence a →
  ((utf8_length (g_phone data) ≤ phone_max_length)%nat →
   (¬ map_Exists (λ _ v, User.username v = g_username data) (users (base a)) →
    (RegisterView_post (Some data) now false a r).1.1 = MailFailed) ∧
   users (base (RegisterView_post (Some data) now false a r).1.2) = users (base a) ∧
   profiles (base (RegisterView_post (Some data) now false a r).1.2)
     = profiles (base a) ∧
   otp_code (RegisterView_post (Some data) now false a r).1.2 = otp_code a ∧
   otp_created_at (RegisterView_post (Some data) now false a r).1.2
     = otp_created_at a ∧
   favorites (base (RegisterView_post (Some data) now false a r).1.2)
     = favorites (base a) ∧
   orders (base (RegisterView_post (Some data) now false a r).1.2) = orders (base a) ∧
   order_items (base (RegisterView_post (Some data) now false a r).1.2)
     = order_items (base a) ∧
   products (base (RegisterView_post (Some data) now false a r).1.2)
     = products (base a)) ∧
  (∀ mail_ok,
     (phone_max_length < utf8_length (g_phone data))%nat →
     ¬ map_Exists (λ _ v, User.username v = g_username data) (users (base a)) →
     (RegisterView_post (Some data) now mail_ok a r).1.1 = AuthUnhandled DataError ∧
     (RegisterView_post (Some data) now mail_ok a r).2 = r ∧
     users (base (RegisterView_post (Some data) now mail_ok a r).1.2)
       !! next_user_id (base a)
       = Some (User.mk (g_username data) (g_email data) (g_first_name data)
                       (g_last_name data) false) ∧
     profiles_of_user (base (RegisterView_post (Some data) now mail_ok a r).1.2)
       (next_user_id (base a))
       = [Profile.mk (next_profile_id (base a)) (next_user_id (base a)) ""] ∧
     otp_code (RegisterView_post (Some data) now mail_ok a r).1.2 = otp_code a) ∧
  RegisterView_post None now false a r = (RegisterInvalid, a, r).
Proof.
  intros Hc (Hku & Hkf & Hko) [Hoc Hot].
  split; [|split; [|done]].
  2:{ intros mail_ok Hlong Hfree. unfold RegisterView_post.
      destruct (RegisterSerializer_create_tables data (base a) Hc)
        as (_ & _ & _ & _ & Hres).
      destruct (RegisterSerializer_create data (base a)) as [[e|k] db1];
        simpl in Hres.
      - destruct Hres as [(_ & Ht & _) | (-> & _ & _ & Hu & Hp)]; [done|].
        simpl. split; [done|]. split; [done|].
        split; [by rewrite Hu, lookup_insert_eq|]. split; [|done].
        by apply (profiles_of_user_appended (base a)).
      - destruct Hres as (_ & _ & _ & _ & Hlen & _). lia. }
  intros Hlen. unfold RegisterView_post.
  destruct (RegisterSerializer_create_tables data (base a) Hc)
    as (Hpr & Ho & Hi & Hf & Hres).
  destruct (RegisterSerializer_create data (base a)) as [[e|k] db1] eqn:Hcr;
    simpl in Hpr, Ho, Hi, Hf, Hres.
  - destruct Hres as [(-> & Ht & Hu & Hp) | (_ & Hlong & _)]; [|lia]. simpl.
    split; [by intros Hn|]. done.
  - destruct Hres as (-> & Hu & Hp & Hnp).
    destruct (generate_otp r) as [otp r1].
    assert (profile_of db1 (next_user_id (base a))
            = Some (Profile.mk (next_profile_id (base a)) (next_user_id (base a))
                               (g_phone data))) as ->.
    { unfold profile_of. rewrite Hp, filter_app, (filter_none _ (profiles (base a))).
      - by rewrite filter_cons, decide_True.
      - eapply Forall_impl; [exact (consistent_fresh _ Hc)|]. simpl. by intros p [? _]. }
    set (p := Profile.mk _ _ _).
    assert (profiles (Profile_save p db1) = profiles db1) as Hps.
    { unfold Profile_save. simpl. rewrite Hp, map_app. simpl.
      rewrite bool_decide_eq_true_2 by done. f_equal.
      rewrite <- (map_id (profiles (base a))) at 2. apply map_ext_in.
      intros q Hq%list_elem_of_In. rewrite bool_decide_eq_false_2; [done|].
      pose proof (consistent_fresh _ Hc) as Hfresh. rewrite Forall_forall in Hfresh.
      by destruct (Hfresh q Hq). }
    assert (profiles_of_user (Profile_save p db1) (next_user_id (base a)) = [p]) as Hpu.
    { unfold profiles_of_user. rewrite Hps, Hp, filter_app.
      rewrite (filter_none _ (profiles (base a))).
      - by rewrite filter_cons, decide_True.
      - eapply Forall_impl; [exact (consistent_fresh _ Hc)|]. simpl. by intros q [? _]. }
    simpl. split; [done|]. unfold User_delete. rewrite Hpu. simpl.
    rewrite Hu, Ho, Hf, Hi, Hpr, Hp, map_app. simpl.
    rewrite bool_decide_eq_true_2 by done.
    repeat split.
    + by rewrite delete_insert_eq, delete_id.
    + rewrite filter_app, filter_cons.
      rewrite decide_False by (intros H; by apply H). rewrite filter_nil, app_nil_r.
      assert (map (λ q, if bool_decide (Profile.id q = next_profile_id (base a))
                        then p else q) (profiles (base a)) = profiles (base a)) as ->.
      { rewrite <- (map_id (profiles (base a))) at 2. apply map_ext_in.
        intros q Hq%list_elem_of_In. rewrite bool_decide_eq_false_2; [done|].
        pose proof (consistent_fresh _ Hc) as Hfresh. rewrite Forall_forall in Hfresh.
        by destruct (Hfresh q Hq). }
      apply filter_all. eapply Forall_impl; [exact (consistent_fresh _ Hc)|].
      simpl. by intros q [? _].
    + by apply filter_fresh_key.
    + by apply filter_fresh_key.
    + apply filter_all. exact Hkf.
    + by apply orders_clear_none.
Qed.

Lemma registered_example_consistent :
  accounts_consistent (base registered_example.1.2) ∧
  user_keys_below_sequence (base registered_example.1.2) ∧
  otp_below_sequence registered_example.1.2.
Proof.
  split; [|split].
  - vm_compute. repeat constructor.
  - split; [by vm_compute|]. split; [by vm_compute|].
    intros i o Hi. by vm_compute in Hi.
  - split; by vm_compute.
Qed.

Lemma RegisterView_mail_failure_rolls_back_witness :
  (RegisterView_post (Some register_second) 9 false registered_example.1.2
     rnd_example).1.1 = MailFailed ∧
  users (base (RegisterView_post (Some register_second) 9 false registered_example.1.2
                 rnd_example).1.2) = users (base registered_example.1.2) ∧
  profiles (base (RegisterView_post (Some register_second) 9 false
                    registered_example.1.2 rnd_example).1.2)
    = profiles (base registered_example.1.2).
Proof.
  destruct registered_example_consistent as (Hc & Hk & Ho).
  destruct (proj1 (RegisterView_mail_failure_rolls_back register_second 9
                     registered_example.1.2 rnd_example Hc Hk Ho))
    as (Hm & Hu & Hp & _).
  { vm_compute. lia. }
  split; [|by split]. apply Hm.
  apply (bool_decide_eq_false_1
           (map_Exists (λ _ v, User.username v = g_username register_second)
                       (users (base registered_example.1.2)))).
  by vm_compute.
Defined.

(** X18.  Deleting a user under the [on_delete] rules of the models: the
    user row, the user's profiles with their one-time codes and the user's
    favorites are removed; the user's orders stay, with their number, status,
    total and lines, but lose their owner, so that no order is reachable
    through the owner-filtered queryset of that user any more; rows of other
    users, line items and products are untouched. *)
Theorem User_delete_effects k (a : AuthDB) :
  users (base (User_delete k a)) !! k = None ∧
  (∀ j, j ≠ k → users (base (User_delete k a)) !! j = users (base a) !! j) ∧
  profile_of (base (User_delete k a)) k = None ∧
  (∀ j, j ≠ k →
     profiles_of_user (base (User_delete k a)) j = profiles_of_user (base a) j) ∧
  (∀ p, p ∈ profiles_of_user (base a) k →
     otp_code (User_delete k a) !! Profile.id p = None ∧
     otp_created_at (User_delete k a) !! Profile.id p = None) ∧
  FavoriteListView_get_queryset (base (User_delete k a)) k = [] ∧
  (∀ j, j ≠ k →
     FavoriteListView_get_queryset (base (User_delete k a)) j
       = FavoriteListView_get_queryset (base a) j) ∧
  (∀ i o, orders (base a) !! i = Some o →
     ∃ o', orders (base (User_delete k a)) !! i = Some o' ∧
           Order.user o' ≠ Some k ∧
           (Order.user o = Some k → Order.user o' = None) ∧
           (Order.user o ≠ Some k → o' = o) ∧
           Order.order_number o' = Order.order_number o ∧
           Order.status o' = Order.status o ∧
           Order.total_amount o' = Order.total_amount o) ∧
  (∀ i, orders (base a) !! i = None → orders (base (User_delete k a)) !! i = None) ∧
  (∀ i, OrderDetailView_get_object (base (User_delete k a)) k i = None) ∧
  order_items (base (User_delete k a)) = order_items (base a) ∧
  products (base (User_delete k a)) = products (base a).
Proof.
  unfold User_delete. cbn [base otp_code otp_created_at].
  unfold User_delete_rows. cbn [users profiles favorites orders order_items products].
  split; [apply lookup_delete_eq|].
  split; [by intros j Hj; apply lookup_delete_ne|].
  split.
  { unfold profile_of. cbn [profiles]. rewrite filter_none; [done|].
    apply Forall_forall. intros p [Hp _]%list_elem_of_filter. tauto. }
  split.
  { intros j Hj. unfold profiles_of_user. cbn [profiles].
    rewrite list_filter_filter. apply filter_ext_in.
    intros p _. split; [tauto|]. intros Hp. split; [done|congruence]. }
  split.
  { intros p Hp. split; apply map_lookup_filter_None_2; right; intros x _ Hn;
      apply Hn; simpl; apply list_elem_of_fmap; by exists p. }
  split.
  { unfold FavoriteListView_get_queryset. cbn [favorites].
    rewrite filter_none; [done|].
    apply Forall_forall. intros f [Hf _]%list_elem_of_filter. tauto. }
  split.
  { intros j Hj. unfold FavoriteListView_get_queryset. cbn [favorites].
    rewrite list_filter_filter. apply filter_ext_in.
    intros f _. split; [tauto|]. intros Hf. split; [done|congruence]. }
  split.
  { intros i o Ho. rewrite lookup_fmap, Ho. simpl.
    case_bool_decide as Hu.
    - eexists. split; [reflexivity|]. by repeat split.
    - exists o. by repeat split. }
  split; [by intros i Hi; rewrite lookup_fmap, Hi|].
  split; [|done].
  intros i. unfold OrderDetailView_get_object, orders_of_user. cbn [orders].
  apply map_lookup_filter_None_2.
  destruct (orders (base a) !! i) as [o|] eqn:Ho.
  - right. intros o'. rewrite lookup_fmap, Ho. simpl. intros [= <-].
    case_bool_decide; simpl; [done|]. done.
  - left. by rewrite lookup_fmap, Ho.
Qed.

(** What a registration that answers with code-sent has written. *)
Lemma RegisterView_sent data now (a a1 : AuthDB) r r1 st :
  accounts_consistent (base a) →
  RegisterView_post (Some data) now true a r = (CodeSent st, a1, r1) →
  st = 201 ∧
  users (base a1)
    = <[next_user_id (base a) :=
          User.mk (g_username data) (g_email data) (g_first_name data)
                  (g_last_name data) false]> (users (base a)) ∧
  profiles (base a1)
    = (profiles (base a) ++ [Profile.mk (next_profile_id (base a))
                                        (next_user_id (base a)) (g_phone data)])%list ∧
  otp_code a1 = <[next_profile_id (base a) := (generate_otp r).1]> (otp_code a) ∧
  otp_created_at a1 = <[next_profile_id (base a) := now]> (otp_created_at a).
Proof.
  intros Hc. unfold RegisterView_post.
  destruct (RegisterSerializer_create_tables data (base a) Hc)
    as (_ & _ & _ & _ & Hres).
  destruct (RegisterSerializer_create data (base a)) as [[e|k] db1]; [done|].
  simpl in Hres. destruct Hres as (-> & Hu & Hp & _).
  destruct (generate_otp r) as [otp r2].
  assert (profile_of db1 (next_user_id (base a))
          = Some (Profile.mk (next_profile_id (base a)) (next_user_id (base a))
                             (g_phone data))) as ->.
  { unfold profile_of. rewrite Hp, filter_app, (filter_none _ (profiles (base a))).
    - by rewrite filter_cons, decide_True.
    - eapply Forall_impl; [exact (consistent_fresh _ Hc)|]. simpl. by intros p [? _]. }
  intros [= <- <- <-]. simpl. split; [done|]. split; [exact Hu|]. split; [|done].
  rewrite Hp, map_app. simpl. rewrite bool_decide_eq_true_2 by done. f_equal.
  rewrite <- (map_id (profiles (base a))) at 2. apply map_ext_in.
  intros q Hq%list_elem_of_In. rewrite bool_decide_eq_false_2; [done|].
  pose proof (consistent_fresh _ Hc) as Hfresh. rewrite Forall_forall in Hfresh.
  by destruct (Hfresh q Hq).
Qed.

Lemma generate_otp_nonempty r : (generate_otp r).1 ≠ "".
Proof. unfold generate_otp. by destruct (randint _ _ _). Qed.

(** X17.  The code issued at registration activates the account.  After a
    registration that answered code-sent in a consistent store with distinct
    profile keys, the new user is inactive; for an e-mail that resolves to
    that user, [VerifyOTPView.post] with the issued code answers verified up
    to and including ten minutes after the registration instant, after which
    the user is active and the code is gone, and answers expired, writing
    nothing, at any later instant. *)
Theorem register_then_verify T data email now now2 (a a1 : AuthDB) r r1 st :
  accounts_consistent (base a) → profile_ids_unique (base a) →
  RegisterView_post (Some data) now true a r = (CodeSent st, a1, r1) →
  strip T (generate_otp r).1 = (generate_otp r).1 →
  lower T (strip T email) ≠ "" →
  User_get_by_email T (base a1) (lower T (strip T email))
    = inr (next_user_id (base a)) →
  (User.is_active <$> users (base a1) !! next_user_id (base a)) = Some false ∧
  (now2 - now ≤ ten_minutes →
   ∃ a2, VerifyOTPView_post T email (generate_otp r).1 now2 a1
           = (Verified (next_user_id (base a)), a2) ∧
         (User.is_active <$> users (base a2) !! next_user_id (base a)) = Some true ∧
         otp_code a2 !! next_profile_id (base a) = None ∧
         otp_created_at a2 !! next_profile_id (base a) = None ∧
         profiles (base a2) = profiles (base a1)) ∧
  (ten_minutes < now2 - now →
   VerifyOTPView_post T email (generate_otp r).1 now2 a1 = (CodeExpired, a1)).
Proof.
  intros Hc Hnd Hreg Hstrip He Hget.
  destruct (RegisterView_sent data now a a1 r r1 st Hc Hreg)
    as (_ & Hu & Hp & Hoc & Hot).
  assert (profile_of (base a1) (next_user_id (base a))
          = Some (Profile.mk (next_profile_id (base a)) (next_user_id (base a))
                             (g_phone data))) as Hpo.
  { unfold profile_of. rewrite Hp, filter_app, (filter_none _ (profiles (base a))).
    - by rewrite filter_cons, decide_True.
    - eapply Forall_impl; [exact (consistent_fresh _ Hc)|]. simpl. by intros p [? _]. }
  assert (profile_ids_unique (base a1)) as Hnd1.
  { unfold profile_ids_unique. rewrite Hp, fmap_app. apply NoDup_app.
    split; [exact Hnd|]. split; [|apply NoDup_singleton].
    intros i (q & Hi & Hq)%list_elem_of_fmap Hin.
    apply list_elem_of_singleton in Hin. simpl in Hin.
    pose proof (consistent_fresh _ Hc) as Hfresh. rewrite Forall_forall in Hfresh.
    destruct (Hfresh q Hq) as [_ Hid]. apply Hid. by rewrite <- Hi, Hin. }
  split; [by rewrite Hu, lookup_insert_eq|].
  unfold VerifyOTPView_post. rewrite Hstrip.
  rewrite (bool_decide_eq_false_2 (lower T (strip T email) = "")) by done.
  rewrite (bool_decide_eq_false_2 ((generate_otp r).1 = ""))
    by apply generate_otp_nonempty.
  assert (users (base a1) !! next_user_id (base a)
          = Some (User.mk (g_username data) (g_email data) (g_first_name data)
                          (g_last_name data) false)) as Hlook
    by (by rewrite Hu, lookup_insert_eq).
  simpl orb. cbv iota. rewrite Hget, Hpo, Hlook.
  cbn [Profile.id]. rewrite Hoc, lookup_insert_eq.
  rewrite bool_decide_eq_false_2 by (intros H; by apply H).
  unfold otp_expired. cbn [Profile.id]. rewrite Hot, lookup_insert_eq. split.
  - intros Hle. rewrite (proj2 (Z.ltb_ge _ _) Hle).
    rewrite (User_save_stored _ _ (base a1) Hnd1).
    eexists. split; [reflexivity|]. simpl.
    rewrite lookup_insert_eq, !lookup_delete_eq. repeat split.
    rewrite <- (map_id (profiles (base a1))) at 2. apply map_ext_in.
    intros q Hq%list_elem_of_In. case_bool_decide as Hid; [|done].
    symmetry. apply (NoDup_fmap_inj_on Profile.id (profiles (base a1))); try done.
    by apply profile_of_elem in Hpo as [? _].
  - intros Hlt. by rewrite (proj2 (Z.ltb_lt _ _) Hlt).
Qed.

Lemma register_then_verify_witness :
  ∃ a2, VerifyOTPView_post text_example "aman@example.com" "100003" 5
          registered_example.1.2 = (Verified 1, a2) ∧
        (User.is_active <$> users (base a2) !! 1) = Some true ∧
        otp_code a2 !! 1 = None.
Proof.
  assert (accounts_consistent (base auth_empty)) as Hc by apply Forall_nil_2.
  assert (profile_ids_unique (base auth_empty)) as Hnd by apply NoDup_nil_2.
  assert (RegisterView_post (Some register_example) 0 true auth_empty rnd_example
          = (CodeSent 201, registered_example.1.2, registered_example.2)) as Hreg
    by (vm_compute; reflexivity).
  assert (User_get_by_email text_example (base registered_example.1.2)
            (lower text_example (strip text_example "aman@example.com"))
          = inr (next_user_id (base auth_empty))) as Hget
    by (vm_compute; reflexivity).
  destruct (register_then_verify text_example register_example "aman@example.com"
              0 5 auth_empty registered_example.1.2 rnd_example
              registered_example.2 201 Hc Hnd Hreg eq_refl
              ltac:(discriminate) Hget) as (_ & Hok & _).
  destruct Hok as (a2 & H1 & H2 & H3 & _); [unfold ten_minutes; lia|].
  exists a2. split; [exact H1|]. split; [exact H2|exact H3].
Defined.

(** X19.  [ResendOTPView.post] for an e-mail that resolves to one user with
    a profile.  An active account is refused and nothing is written.  For an
    inactive account a fresh code and the current instant replace the stored
    ones, and they do so whether or not the mail could be sent: only the
    answer differs.  From then on a code other than the fresh one is refused
    by [VerifyOTPView.post], and the fresh one is accepted up to ten minutes
    after the resend. *)
Theorem ResendOTPView_outcomes T email now mail_ok (a : AuthDB) r k user profile :
  lower T (strip T email) ≠ "" →
  User_get_by_email T (base a) (lower T (strip T email)) = inr k →
  users (base a) !! k = Some user → profile_of (base a) k = Some profile →
  profile_ids_unique (base a) →
  (User.is_active user = true →
     ResendOTPView_post T email now mail_ok a r = (AlreadyActive, a, r)) ∧
  (User.is_active user = false →
     ∃ a1,
       ResendOTPView_post T email now mail_ok a r
         = (if mail_ok then CodeSent 200 else MailFailed, a1, (generate_otp r).2) ∧
       base a1 = base a ∧
       otp_code a1 = <[Profile.id profile := (generate_otp r).1]> (otp_code a) ∧
       otp_created_at a1 = <[Profile.id profile := now]> (otp_created_at a) ∧
       (∀ old now2, strip T old ≠ "" → strip T old ≠ (generate_otp r).1 →
          VerifyOTPView_post T email old now2 a1 = (WrongCode, a1)) ∧
       (∀ now2, strip T (generate_otp r).1 = (generate_otp r).1 →
          now2 - now ≤ ten_minutes →
          (VerifyOTPView_post T email (generate_otp r).1 now2 a1).1 = Verified k)).
Proof.
  intros He Hget Hu Hp Hnd. unfold ResendOTPView_post.
  rewrite bool_decide_eq_false_2 by done. rewrite Hget, Hu. split.
  - by intros ->.
  - intros ->. destruct (generate_otp r) as [otp r1] eqn:Hg. rewrite Hp.
    assert (Profile_save profile (base a) = base a) as Hsave.
    { apply Profile_save_stored; [exact Hnd|]. by apply profile_of_elem in Hp as [? _]. }
    exists (Profile_save_otp profile (Some otp) (Some now) a).
    split; [by destruct mail_ok|].
    unfold Profile_save_otp. cbn [base otp_code otp_created_at fst snd].
    split; [exact Hsave|]. split; [done|]. split; [done|]. split.
    + intros old now2 Hold Hne. unfold VerifyOTPView_post.
      cbn [base otp_code otp_created_at]. rewrite Hsave.
      rewrite (bool_decide_eq_false_2 (lower T (strip T email) = "")) by done.
      rewrite (bool_decide_eq_false_2 (strip T old = "")) by done.
      simpl orb. cbv iota. rewrite Hget, Hu, Hp, lookup_insert_eq.
      rewrite bool_decide_eq_true_2; [done|]. intros [= H]. by apply Hne.
    + intros now2 Hstrip Hle. unfold VerifyOTPView_post.
      cbn [base otp_code otp_created_at]. rewrite Hsave, Hstrip.
      rewrite (bool_decide_eq_false_2 (lower T (strip T email) = "")) by done.
      assert (otp ≠ "") as Hotp.
      { pose proof (generate_otp_nonempty r) as H. by rewrite Hg in H. }
      rewrite (bool_decide_eq_false_2 (otp = "")) by done.
      simpl orb. cbv iota. rewrite Hget, Hu, Hp, lookup_insert_eq.
      rewrite bool_decide_eq_false_2 by (intros H; by apply H).
      unfold otp_expired. cbn [otp_created_at]. rewrite lookup_insert_eq.
      rewrite (proj2 (Z.ltb_ge _ _) Hle).
      by rewrite (User_save_stored k _ (base a) Hnd).
Qed.

Lemma ResendOTPView_outcomes_witness :
  ∃ a1,
    ResendOTPView_post text_example "aman@example.com" 7 false
      registered_example.1.2 rnd_example
      = (MailFailed, a1, (generate_otp rnd_example).2) ∧
    otp_created_at a1 = <[1 := 7]> (otp_created_at registered_example.1.2).
Proof.
  destruct registered_example_facts as (Hg & Hu & Hp & _).
  destruct (ResendOTPView_outcomes text_example "aman@example.com" 7 false
              registered_example.1.2 rnd_example 1 user_example
              (Profile.mk 1 1 "+99365000000") ltac:(discriminate) Hg Hu Hp
              registered_example_unique) as [_ H].
  destruct (H eq_refl) as (a1 & H1 & _ & _ & H4 & _).
  exists a1. split; [exact H1|exact H4].
Defined.
